(** * AdvancedCronJob admission validation (kruise)

    A shallow embedding of
    [pkg/controller/advancedcronjob/advancedcronjob_utils.go] (the
    schedule formatter) and of the validating admission handler for
    AdvancedCronJob that is kept in the same source file, followed by
    the properties established about them.

    Conventions.
    - Go strings are byte strings: [string] (a list of [ascii]).
    - [int32] and [int64] values are integers in [Z]; the code only
      compares them, so no wrap-around arises.
    - A nil-able pointer, slice or map is an [option] where the code tests
      it against nil; a slice that is only measured and iterated is a list.
    - A Go [error] is [option string]: [None] is nil, [Some m] carries the
      text of [err.Error()].
    - Code that may panic returns an [Outcome]. *)

From Stdlib Require Import String Ascii List ListDec ZArith Bool Lia DecimalString.
Import ListNotations.
Open Scope Z_scope.
Open Scope string_scope.
Open Scope list_scope.

Set Implicit Arguments.

(** ** Go runtime: errors, panics, formatting *)

Definition error := option string.

(** The result of running Go code: it returns normally with a value, or
    it is panicking with the panic value [r] (rendered as [%v] prints it). *)
Inductive Outcome (A : Type) : Type :=
| Normal (a : A)
| Panic (r : string).
Arguments Normal {A} a.
Arguments Panic {A} r.

Definition bind {A B : Type} (c : Outcome A) (k : A -> Outcome B) : Outcome B :=
  match c with
  | Normal a => k a
  | Panic r => Panic r
  end.

Notation "x <- c ;; k" := (bind c (fun x => k))
  (at level 61, c at next level, right associativity).

(** [func() { defer func() { if r := recover(); r != nil { h(r) } }(); body }()]
    for a closure whose only effect is on one captured variable:
    [body] yields the value the closure stores in the variable on normal
    completion; [h] yields the value the deferred function stores when
    [recover()] returns the panic value (never nil while panicking: a
    [panic(nil)] reaches [recover] as a runtime error value). Either way
    the closure returns normally. *)
Definition deferRecover {A : Type} (body : Outcome A) (h : string -> A) : A :=
  match body with
  | Normal a => a
  | Panic r => h r
  end.

(** [%d] of [fmt.Sprintf]. *)
Definition fmtInt (z : Z) : string := NilZero.string_of_int (Z.to_int z).

(** ** Package strings *)

Fixpoint HasPrefix (s prefix : string) : bool :=
  match prefix, s with
  | EmptyString, _ => true
  | String _ _, EmptyString => false
  | String a prefix', String b s' => Ascii.eqb a b && HasPrefix s' prefix'
  end.

(** [strings.Contains]: [substr] occurs at some byte offset of [s]. *)
Fixpoint Contains (s substr : string) : bool :=
  HasPrefix s substr ||
  match s with
  | EmptyString => false
  | String _ s' => Contains s' substr
  end.

Definition toLowerASCII (c : ascii) : ascii :=
  let n := nat_of_ascii c in
  if (Nat.leb 65 n && Nat.leb n 90)%bool then ascii_of_nat (n + 32) else c.

(** [strings.EqualFold] on its ASCII path. The only runes outside ASCII
    that Unicode simple folding identifies with an ASCII letter are the
    Kelvin sign (with k) and the long s (with s); neither letter occurs in
    the one literal this program folds against. *)
Fixpoint EqualFold (s t : string) : bool :=
  match s, t with
  | EmptyString, EmptyString => true
  | String a s', String b t' =>
      Ascii.eqb (toLowerASCII a) (toLowerASCII b) && EqualFold s' t'
  | _, _ => false
  end.

(** ** Package field (k8s.io/apimachinery/pkg/util/validation/field) *)

Module field.

(** A path is the list of its segments, root first. *)
Definition Path := list string.
Definition NewPath (name : string) : Path := [name].
Definition Child (p : Path) (name : string) : Path := p ++ [name].
Definition Root (p : Path) : Path := firstn 1 p.

Inductive ErrorType :=
| ErrorTypeNotFound
| ErrorTypeRequired
| ErrorTypeDuplicate
| ErrorTypeInvalid
| ErrorTypeNotSupported
| ErrorTypeForbidden
| ErrorTypeTooLong
| ErrorTypeTooMany
| ErrorTypeInternal
| ErrorTypeTypeInvalid.

(** The offending value attached to an error ([interface{}] in Go).
    Structured values are carried as [VStruct], without their contents. *)
Inductive Value :=
| VEmpty
| VStr (s : string)
| VInt (z : Z)
| VStrs (l : list string)
| VStruct.

Record Error := mkError {
  Type_ : ErrorType;
  Field : Path;
  BadValue : Value;
  Detail : string
}.

Definition ErrorList := list Error.

Definition Invalid (p : Path) (value : Value) (detail : string) : Error :=
  mkError ErrorTypeInvalid p value detail.

Definition Forbidden (p : Path) (detail : string) : Error :=
  mkError ErrorTypeForbidden p VEmpty detail.

End field.
Import field.

(** ** API types *)

(** [metav1.LabelSelector]; the map and the slice keep their nil state. *)
Record LabelSelectorRequirement := {
  Key : string;
  Operator : string;
  Values : list string
}.

Record LabelSelector := {
  MatchLabels : option (list (string * string));
  MatchExpressions : option (list LabelSelectorRequirement)
}.

(** Modelled from the spec: the type declarations of package
    [apis/apps/v1beta1] are not among the sources; the records below have
    the fields the handler reads, with the types the handler uses them at. *)
Record ImagePullJobNodeSelector := {
  Names : option (list string);
  NodeLabelSelector : LabelSelector        (* embedded metav1.LabelSelector *)
}.

Record ImagePullJobPodSelector := {
  PodLabelSelector : LabelSelector         (* embedded metav1.LabelSelector *)
}.

Record PullPolicy := {
  TimeoutSeconds : option Z;               (* *int32 *)
  BackoffLimit : option Z                  (* *int32 *)
}.

Record CompletionPolicy := {
  PolicyType : string;                     (* Type, a CompletionPolicyType *)
  ActiveDeadlineSeconds : option Z;        (* *int64 *)
  TTLSecondsAfterFinished : option Z       (* *int32 *)
}.

Record ImageListPullJobSpec := {
  Images : list string;
  Selector : option ImagePullJobNodeSelector;
  PodSelector : option ImagePullJobPodSelector;
  PullPolicy_ : option PullPolicy;         (* PullPolicy *)
  CompletionPolicy_ : CompletionPolicy     (* CompletionPolicy *)
}.

Record ImageListPullJobTemplateSpec := {
  JobSpec : ImageListPullJobSpec           (* Spec *)
}.

(** Modelled from the spec: constants of [apis/apps/v1beta1] and
    [apis/apps/v1alpha1] (string-typed enumerations and version names). *)
Definition Always : string := "Always".
Definition Never : string := "Never".
Definition AllowConcurrent : string := "Allow".
Definition ForbidConcurrent : string := "Forbid".
Definition ReplaceConcurrent : string := "Replace".
Definition v1beta1_Version : string := "v1beta1".
Definition v1alpha1_Version : string := "v1alpha1".

Inductive TemplateKind :=
| JobTemplateKind
| BroadcastJobTemplateKind
| ImageListPullJobTemplateKind.

(** [admissionv1.Operation] *)
Definition Create : string := "CREATE".
Definition Update : string := "UPDATE".

(** Types of other packages whose contents the handler never inspects:
    they are passed to collaborators, copied, or compared as a whole. *)
Class ApiTypes := {
  ObjectMeta : Type;                       (* metav1.ObjectMeta *)
  zeroObjectMeta : ObjectMeta;
  PodTemplateSpec : Type;                  (* v1.PodTemplateSpec *)
  CorePodTemplateSpec : Type;              (* core.PodTemplateSpec *)
  JobTemplateSpec : Type;                  (* batchv1.JobTemplateSpec *)
  JobPodTemplate : JobTemplateSpec -> PodTemplateSpec;
                                           (* jobSpec.Spec.Template *)
  BroadcastJobTemplateSpec : Type;
  BroadcastJobPodTemplate : BroadcastJobTemplateSpec -> PodTemplateSpec;
                                           (* brJobSpec.Spec.Template *)
  AdvancedCronJobV1alpha1 : Type;          (* appsv1alpha1.AdvancedCronJob *)
  zeroAdvancedCronJobV1alpha1 : AdvancedCronJobV1alpha1;
  RawExtension : Type                      (* runtime.RawExtension *)
}.

Section Types.
Context {T : ApiTypes}.

Record CronJobTemplate := {
  JobTemplate : option JobTemplateSpec;
  BroadcastJobTemplate : option BroadcastJobTemplateSpec;
  ImageListPullJobTemplate : option ImageListPullJobTemplateSpec
}.

Record AdvancedCronJobSpec := {
  Schedule : string;
  TimeZone : option string;
  StartingDeadlineSeconds : option Z;      (* *int64 *)
  ConcurrencyPolicy : string;
  Paused : option bool;
  SuccessfulJobsHistoryLimit : option Z;   (* *int32 *)
  FailedJobsHistoryLimit : option Z;       (* *int32 *)
  Template : CronJobTemplate
}.

Record AdvancedCronJob := {
  Meta : ObjectMeta;                       (* embedded metav1.ObjectMeta *)
  Spec : AdvancedCronJobSpec
}.

(** [&appsv1beta1.AdvancedCronJob{}] *)
Definition zeroAdvancedCronJob : AdvancedCronJob :=
  {| Meta := zeroObjectMeta;
     Spec := {| Schedule := ""; TimeZone := None;
                StartingDeadlineSeconds := None; ConcurrencyPolicy := "";
                Paused := None; SuccessfulJobsHistoryLimit := None;
                FailedJobsHistoryLimit := None;
                Template := {| JobTemplate := None;
                               BroadcastJobTemplate := None;
                               ImageListPullJobTemplate := None |} |} |}.

(** [admission.Request]: the fields of the embedded AdmissionRequest
    that the handler reads. *)
Record Request := {
  Operation : string;
  ResourceVersion : string;                (* Resource.Version *)
  Object : RawExtension;
  OldObject : RawExtension
}.

End Types.

(** ** Collaborators *)

(** Functions of other packages. [None] as an [error] is success. *)
Class Collaborators {T : ApiTypes} := {
  (* time.LoadLocation; the location itself is discarded by every caller *)
  LoadLocation : string -> error;
  (* cron.ParseStandard; the schedule itself is discarded *)
  ParseStandard : string -> Outcome error;
  (* daemonutil.NormalizeImageRef *)
  NormalizeImageRef : string -> error;
  (* metav1.LabelSelectorAsSelector *)
  LabelSelectorAsSelector : LabelSelector -> error;
  (* corev1.Convert_v1_PodTemplateSpec_To_core_PodTemplateSpec, applied to
     a deep copy of its input: the converted template and the error *)
  Convert_v1_PodTemplateSpec_To_core_PodTemplateSpec :
    PodTemplateSpec -> CorePodTemplateSpec * error;
  (* apivalidation.ValidatePodTemplateSpec with DefaultPodValidationOptions *)
  ValidatePodTemplateSpec : CorePodTemplateSpec -> Path -> ErrorList;
  (* apivalidation.ValidateNonnegativeField *)
  ValidateNonnegativeField : Z -> Path -> ErrorList;
  (* genericvalidation.ValidateObjectMeta, namespaced *)
  ValidateObjectMeta :
    ObjectMeta -> bool -> (string -> bool -> list string) -> Path -> ErrorList;
  (* apivalidation.ValidateObjectMetaUpdate *)
  ValidateObjectMetaUpdate : ObjectMeta -> ObjectMeta -> Path -> ErrorList;
  (* apiequality.Semantic.DeepEqual at the three template types *)
  DeepEqual_JobTemplateSpec : JobTemplateSpec -> JobTemplateSpec -> bool;
  DeepEqual_BroadcastJobTemplateSpec :
    BroadcastJobTemplateSpec -> BroadcastJobTemplateSpec -> bool;
  DeepEqual_ImageListPullJobTemplateSpec :
    ImageListPullJobTemplateSpec -> ImageListPullJobTemplateSpec -> bool;
  (* ConvertTo of appsv1alpha1.AdvancedCronJob: the hub object after the
     call and the error *)
  ConvertTo : AdvancedCronJobV1alpha1 -> AdvancedCronJob -> AdvancedCronJob * error
}.

(** [admission.Decoder]: decoding fills the object passed in and returns
    an error; each method is given at the two types it is called at. *)
Class Decoder {T : ApiTypes} := {
  Decode : Request -> AdvancedCronJob -> AdvancedCronJob * error;
  Decode_v1alpha1 :
    Request -> AdvancedCronJobV1alpha1 -> AdvancedCronJobV1alpha1 * error;
  DecodeRaw : RawExtension -> AdvancedCronJob -> AdvancedCronJob * error;
  DecodeRaw_v1alpha1 :
    RawExtension -> AdvancedCronJobV1alpha1 -> AdvancedCronJobV1alpha1 * error
}.

(** ** Early returns *)

(** A statement of a function that builds an error list either returns
    the function's result or falls through to the next statement. *)
Inductive Flow :=
| Return (errs : ErrorList)
| Fallthrough.

Definition andThen (a b : Flow) : Flow :=
  match a with
  | Return errs => Return errs
  | Fallthrough => b
  end.

Notation "a ;;; b" := (andThen a b) (at level 62, right associativity).

(** The function's final [return allErrs]. *)
Definition orReturn (a : Flow) (allErrs : ErrorList) : ErrorList :=
  match a with
  | Return errs => errs
  | Fallthrough => allErrs
  end.

Definition isSome {A : Type} (o : option A) : bool :=
  match o with Some _ => true | None => false end.

(** ** The schedule formatter and the admission handler *)

Definition AdvancedCronJobNameMaxLen : Z := 63.
Definition validateAdvancedCronJobNameMsg : string :=
  "AdvancedCronJob name must consist of alphanumeric characters or '-'".
Definition validAdvancedCronJobNameFmt : string := "^[a-zA-Z0-9\-]+$".
Definition MaxActiveDeadLineSeconds : Z := 3600 * 24.
Definition MaxTTLSecondsAfterFinished : Z := 3600 * 24 * 3.

Section Handler.
Context {T : ApiTypes} {C : Collaborators} {h : Decoder}.

Definition FindTemplateKind (spec : AdvancedCronJobSpec) : TemplateKind :=
  if isSome (JobTemplate (Template spec)) then JobTemplateKind
  else if isSome (ImageListPullJobTemplate (Template spec))
       then ImageListPullJobTemplateKind
       else BroadcastJobTemplateKind.

(** The failed load is also logged ([klog.ErrorS]); logging is not part
    of the result. *)
Definition formatSchedule (acj : AdvancedCronJob) : string :=
  if Contains (Schedule (Spec acj)) "TZ" then Schedule (Spec acj)
  else
    match TimeZone (Spec acj) with
    | Some tz =>
        match LoadLocation tz with
        | Some _ => Schedule (Spec acj)
        | None => ("TZ=" ++ tz ++ " " ++ Schedule (Spec acj))%string
        end
    | None => Schedule (Spec acj)
    end.

(** The closure assigns [parseErr] to [err]; the deferred function
    overwrites [err] when [recover()] is non-nil. *)
Definition validateCronSchedule (schedule : string) : Outcome error :=
  let err : error :=
    deferRecover
      (parseErr <- ParseStandard schedule ;; Normal parseErr)
      (fun r => Some ("invalid cron schedule: " ++ r)%string) in
  Normal err.

Definition validateAdvancedCronJobSpecSchedule
    (spec : AdvancedCronJobSpec) (fldPath : Path) : Outcome ErrorList :=
  let allErrs : ErrorList := [] in
  let allErrs :=
    if (String.length (Schedule spec) =? 0)%nat
    then allErrs ++ [Invalid (Child fldPath "schedule") (VStr (Schedule spec))
                       "schedule cannot be empty, please provide valid cron schedule."]
    else allErrs in
  err <- validateCronSchedule (Schedule spec) ;;
  let allErrs :=
    match err with
    | Some msg =>
        allErrs ++ [Invalid (Child fldPath "schedule") (VStr (Schedule spec)) msg]
    | None => allErrs
    end in
  let allErrs :=
    if Contains (Schedule spec) "TZ" && isSome (TimeZone spec)
    then allErrs ++ [Invalid (Child fldPath "schedule") (VStr (Schedule spec))
                       "cannot use both timeZone field and TZ or CRON_TZ in schedule"]
    else allErrs in
  Normal allErrs.

Definition validateTimeZone (timeZone : option string) (fldPath : Path)
    : ErrorList :=
  let allErrs : ErrorList := [] in
  match timeZone with
  | None => allErrs
  | Some tz =>
      if (String.length tz =? 0)%nat
      then allErrs ++ [Invalid fldPath (VStr tz)
                         "timeZone must be nil or non-empty string"]
      else
        let allErrs :=
          if EqualFold tz "Local"
          then allErrs ++ [Invalid fldPath (VStr tz)
                 "timeZone must be an explicit time zone as defined in https://www.iana.org/time-zones"]
          else allErrs in
        let allErrs :=
          match LoadLocation tz with
          | Some msg => allErrs ++ [Invalid fldPath (VStr tz) msg]
          | None => allErrs
          end in
        allErrs
  end.

Definition convertPodTemplateSpec (template : PodTemplateSpec)
    : option CorePodTemplateSpec * error :=
  match Convert_v1_PodTemplateSpec_To_core_PodTemplateSpec template with
  | (_, Some err) => (None, Some err)
  | (coreTemplate, None) => (Some coreTemplate, None)
  end.

Definition validateJobTemplateSpec (jobSpec : JobTemplateSpec) (fldPath : Path)
    : ErrorList :=
  let allErrs : ErrorList := [] in
  match convertPodTemplateSpec (JobPodTemplate jobSpec) with
  | (Some coreTemplate, None) =>
      allErrs ++ ValidatePodTemplateSpec coreTemplate (Child fldPath "template")
  | (_, Some err) =>
      allErrs ++ [Invalid (Root fldPath) VStruct
        ("Convert_v1_PodTemplateSpec_To_core_PodTemplateSpec failed: " ++ err)]
  | (None, None) => allErrs
  end.

Definition validateBroadcastJobTemplateSpec
    (brJobSpec : BroadcastJobTemplateSpec) (fldPath : Path) : ErrorList :=
  let allErrs : ErrorList := [] in
  match convertPodTemplateSpec (BroadcastJobPodTemplate brJobSpec) with
  | (Some coreTemplate, None) =>
      allErrs ++ ValidatePodTemplateSpec coreTemplate (Child fldPath "template")
  | (_, Some err) =>
      allErrs ++ [Invalid (Root fldPath) VStruct
        ("Convert_v1_PodTemplateSpec_To_core_PodTemplateSpec failed: " ++ err)]
  | (None, None) => allErrs
  end.

(** [for j := i + 1; j < len(Images); j++]: [x] is [Images[i]], [rest]
    the entries after it; [r] is the statement under the [if]. *)
Fixpoint compareWithRest (x : string) (rest : list string) (r : Flow) : Flow :=
  match rest with
  | [] => Fallthrough
  | y :: rest' => if (x =? y)%string then r else compareWithRest x rest' r
  end.

(** [for i := 0; i < len(Images); i++] around the loop above. *)
Fixpoint compareAllPairs (images : list string) (r : Flow) : Flow :=
  match images with
  | [] => Fallthrough
  | x :: rest => compareWithRest x rest r ;;; compareAllPairs rest r
  end.

(** [for _, image := range Images]: [r image err] is the statement under
    the [if]. *)
Fixpoint normalizeEach (images : list string) (r : string -> string -> Flow)
    : Flow :=
  match images with
  | [] => Fallthrough
  | image :: rest =>
      match NormalizeImageRef image with
      | Some err => r image err
      | None => normalizeEach rest r
      end
  end.

Definition validateImageListPullJobTemplateSpec
    (ilpJobSpec : ImageListPullJobTemplateSpec) (fldPath : Path) : ErrorList :=
  let allErrs : ErrorList := [] in
  let spec := JobSpec ilpJobSpec in
  let specPath := Child fldPath "spec" in
  orReturn
   ((match Selector spec with
     | Some sel =>
         (if isSome (MatchLabels (NodeLabelSelector sel))
             || isSome (MatchExpressions (NodeLabelSelector sel))
          then
            (if isSome (Names sel)
             then Return (allErrs ++ [Invalid (Child specPath "selector") VStruct
                    "can not set both names and labelSelector in this spec.selector"])
             else Fallthrough) ;;;
            (match LabelSelectorAsSelector (NodeLabelSelector sel) with
             | Some err =>
                 Return (allErrs ++
                   [Invalid (Child (Child specPath "selector") "labelSelector")
                      VStruct ("invalid selector: " ++ err)])
             | None => Fallthrough
             end)
          else Fallthrough) ;;;
         (match Names sel with
          | Some names =>
              if negb (length (nodup string_dec names) =? length names)%nat
              then Return (allErrs ++
                     [Invalid (Child (Child specPath "selector") "names")
                        (VStrs names) "duplicated name in selector names"])
              else Fallthrough
          | None => Fallthrough
          end)
     | None => Fallthrough
     end) ;;;
    (match PodSelector spec with
     | Some podSel =>
         (if isSome (Selector spec)
          then Return (allErrs ++ [Invalid specPath VStruct
                 "can not set both selector and podSelector"])
          else Fallthrough) ;;;
         (match LabelSelectorAsSelector (PodLabelSelector podSel) with
          | Some err =>
              Return (allErrs ++
                [Invalid (Child (Child specPath "podSelector") "labelSelector")
                   VStruct ("invalid selector: " ++ err)])
          | None => Fallthrough
          end)
     | None => Fallthrough
     end) ;;;
    (if (length (Images spec) =? 0)%nat
     then Return (allErrs ++ [Invalid (Child specPath "images")
            (VStrs (Images spec)) "image can not be empty"])
     else Fallthrough) ;;;
    (if (255 <? length (Images spec))%nat
     then Return (allErrs ++ [Invalid (Child specPath "images")
            (VStrs (Images spec)) "the maximum number of images cannot > 255"])
     else Fallthrough) ;;;
    compareAllPairs (Images spec)
      (Return (allErrs ++ [Invalid (Child specPath "images")
         (VStrs (Images spec)) "images cannot have duplicate values"])) ;;;
    normalizeEach (Images spec)
      (fun image err =>
         Return (allErrs ++ [Invalid (Child specPath "images")
           (VStrs (Images spec))
           ("invalid image " ++ image ++ ": " ++ err)])) ;;;
    (let policy := CompletionPolicy_ spec in
     if (PolicyType policy =? Always)%string
     then
       (match ActiveDeadlineSeconds policy with
        | Some deadline =>
            if deadline >? MaxActiveDeadLineSeconds
            then Return (allErrs ++
                   [Invalid
                      (Child (Child specPath "completionPolicy") "activeDeadlineSeconds")
                      (VInt deadline)
                      ("activeDeadlineSeconds must be less than "
                         ++ fmtInt MaxActiveDeadLineSeconds
                         ++ ", current value is: " ++ fmtInt deadline)])
            else Fallthrough
        | None => Fallthrough
        end) ;;;
       (match ActiveDeadlineSeconds policy, PullPolicy_ spec with
        | Some deadline, Some pull =>
            match TimeoutSeconds pull with
            | Some timeout =>
                if timeout >? deadline
                then Return (allErrs ++
                       [Invalid
                          (Child (Child specPath "completionPolicy") "activeDeadlineSeconds")
                          (VInt deadline)
                          ("completionPolicy.activeDeadlineSeconds must be greater than pullPolicy.timeoutSeconds("
                             ++ fmtInt timeout ++ ")")])
                else Fallthrough
            | None => Fallthrough
            end
        | _, _ => Fallthrough
        end) ;;;
       (match TTLSecondsAfterFinished policy with
        | Some ttl =>
            if ttl >? MaxTTLSecondsAfterFinished
            then Return (allErrs ++
                   [Invalid
                      (Child (Child specPath "completionPolicy") "ttlSecondsAfterFinished")
                      (VInt ttl)
                      ("ttlSecondsAfterFinished must be less than "
                         ++ fmtInt MaxTTLSecondsAfterFinished
                         ++ ", current value is: " ++ fmtInt ttl)])
            else Fallthrough
        | None => Fallthrough
        end)
     else
       Return (allErrs ++
         [Invalid (Child (Child specPath "completionPolicy") "type")
            (VStr (PolicyType policy))
            ("completionPolicy should be Always, but current value is: "
               ++ PolicyType policy)])))
   allErrs.

Definition validateAdvancedCronJobSpecTemplate
    (spec : AdvancedCronJobSpec) (fldPath : Path) : ErrorList :=
  let allErrs : ErrorList := [] in
  let templateCount : Z := 0 in
  let '(templateCount, allErrs) :=
    match JobTemplate (Template spec) with
    | Some jobTemplate =>
        (templateCount + 1, allErrs ++ validateJobTemplateSpec jobTemplate fldPath)
    | None => (templateCount, allErrs)
    end in
  let '(templateCount, allErrs) :=
    match BroadcastJobTemplate (Template spec) with
    | Some brTemplate =>
        (templateCount + 1,
         allErrs ++ validateBroadcastJobTemplateSpec brTemplate fldPath)
    | None => (templateCount, allErrs)
    end in
  let '(templateCount, allErrs) :=
    match ImageListPullJobTemplate (Template spec) with
    | Some ilpTemplate =>
        let allErrs :=
          if (ConcurrencyPolicy spec =? ReplaceConcurrent)%string
             || (ConcurrencyPolicy spec =? ForbidConcurrent)%string
          then allErrs
          else allErrs ++
               [Invalid (Child (Child fldPath "spec") "concurrencyPolicy")
                  (VStr (ConcurrencyPolicy spec))
                  ("concurrencyPolicy should be Replace or Forbid, but current value is: "
                     ++ ConcurrencyPolicy spec)] in
        (templateCount + 1,
         allErrs ++ validateImageListPullJobTemplateSpec ilpTemplate
                      (Child (Child fldPath "template") "imageListPullJobTemplate"))
    | None => (templateCount, allErrs)
    end in
  if (templateCount =? 0)%Z
  then allErrs ++ [Forbidden (Child fldPath "template")
         "spec must have one template, either JobTemplate or BroadcastJobTemplate or ImageListPullJobTemplate should be provided"]
  else if templateCount >? 1
  then allErrs ++ [Forbidden (Child fldPath "template")
         "spec can have only one template, either JobTemplate or BroadcastJobTemplate or ImageListPullJobTemplate should be provided"]
  else allErrs.

Definition validateAdvancedCronJobSpec
    (spec : AdvancedCronJobSpec) (fldPath : Path) : Outcome ErrorList :=
  let allErrs : ErrorList := [] in
  scheduleErrs <- validateAdvancedCronJobSpecSchedule spec fldPath ;;
  let allErrs := allErrs ++ scheduleErrs in
  let allErrs := allErrs ++ validateAdvancedCronJobSpecTemplate spec fldPath in
  let allErrs :=
    match StartingDeadlineSeconds spec with
    | Some v => allErrs ++
        ValidateNonnegativeField v (Child fldPath "startingDeadlineSeconds")
    | None => allErrs
    end in
  let allErrs :=
    match SuccessfulJobsHistoryLimit spec with
    | Some v => allErrs ++
        ValidateNonnegativeField v (Child fldPath "successfulJobsHistoryLimit")
    | None => allErrs
    end in
  let allErrs :=
    match FailedJobsHistoryLimit spec with
    | Some v => allErrs ++
        ValidateNonnegativeField v (Child fldPath "failedJobsHistoryLimit")
    | None => allErrs
    end in
  let allErrs :=
    allErrs ++ validateTimeZone (TimeZone spec) (Child fldPath "timeZone") in
  Normal allErrs.

(** One byte of the class [[a-zA-Z0-9\-]]. *)
Definition nameByte (c : ascii) : bool :=
  let n := nat_of_ascii c in
  ((Nat.leb 97 n && Nat.leb n 122) || (Nat.leb 65 n && Nat.leb n 90)
   || (Nat.leb 48 n && Nat.leb n 57) || Nat.eqb n 45)%bool.

(** [validateAdvancedCronJobNameRegex.MatchString]: one or more bytes of
    the class, from the start of the text to its end. *)
Fixpoint matchNameRegex (name : string) : bool :=
  match name with
  | EmptyString => false
  | String c EmptyString => nameByte c
  | String c rest => nameByte c && matchNameRegex rest
  end.

(** [validationutil.RegexError] with one example, and
    [validationutil.MaxLenError]. *)
Definition RegexError (msg fmt example : string) : string :=
  (msg ++ " (e.g. '" ++ example ++ "', regex used for validation is '"
       ++ fmt ++ "')")%string.
Definition MaxLenError (n : Z) : string :=
  ("must be no more than " ++ fmtInt n ++ " characters")%string.

Definition validateAdvancedCronJobName (name : string) (prefix : bool)
    : list string :=
  let allErrs : list string := [] in
  let allErrs :=
    if negb (matchNameRegex name)
    then allErrs ++ [RegexError validateAdvancedCronJobNameMsg
                       validAdvancedCronJobNameFmt "example-com"]
    else allErrs in
  let allErrs :=
    if Z.of_nat (String.length name) >? AdvancedCronJobNameMaxLen
    then allErrs ++ [MaxLenError AdvancedCronJobNameMaxLen]
    else allErrs in
  allErrs.

Definition validateAdvancedCronJob (obj : AdvancedCronJob) : Outcome ErrorList :=
  let allErrs :=
    ValidateObjectMeta (Meta obj) true validateAdvancedCronJobName
      (NewPath "metadata") in
  specErrs <- validateAdvancedCronJobSpec (Spec obj) (NewPath "spec") ;;
  let allErrs := allErrs ++ specErrs in
  Normal allErrs.

(** *** Semantic.DeepEqual on the spec *)

(** Pointers: both nil, or both set with equal pointees. *)
Definition DeepEqual_ptr {A : Type} (eq : A -> A -> bool) (a b : option A)
    : bool :=
  match a, b with
  | None, None => true
  | Some x, Some y => eq x y
  | _, _ => false
  end.

(** Structs: field by field. *)
Definition DeepEqual_CronJobTemplate (a b : CronJobTemplate) : bool :=
  DeepEqual_ptr DeepEqual_JobTemplateSpec (JobTemplate a) (JobTemplate b)
  && DeepEqual_ptr DeepEqual_BroadcastJobTemplateSpec
       (BroadcastJobTemplate a) (BroadcastJobTemplate b)
  && DeepEqual_ptr DeepEqual_ImageListPullJobTemplateSpec
       (ImageListPullJobTemplate a) (ImageListPullJobTemplate b).

Definition DeepEqual_AdvancedCronJobSpec (a b : AdvancedCronJobSpec) : bool :=
  (Schedule a =? Schedule b)%string
  && DeepEqual_ptr String.eqb (TimeZone a) (TimeZone b)
  && DeepEqual_ptr Z.eqb (StartingDeadlineSeconds a) (StartingDeadlineSeconds b)
  && (ConcurrencyPolicy a =? ConcurrencyPolicy b)%string
  && DeepEqual_ptr Bool.eqb (Paused a) (Paused b)
  && DeepEqual_ptr Z.eqb
       (SuccessfulJobsHistoryLimit a) (SuccessfulJobsHistoryLimit b)
  && DeepEqual_ptr Z.eqb (FailedJobsHistoryLimit a) (FailedJobsHistoryLimit b)
  && DeepEqual_CronJobTemplate (Template a) (Template b).

(** *** Field assignments on the clone *)

(** Values are immutable here, so a deep copy is the value itself. *)
Definition DeepCopy (obj : AdvancedCronJob) : AdvancedCronJob := obj.

Definition updSpec (f : AdvancedCronJobSpec -> AdvancedCronJobSpec)
    (o : AdvancedCronJob) : AdvancedCronJob :=
  {| Meta := Meta o; Spec := f (Spec o) |}.

Definition setSchedule (v : string) (s : AdvancedCronJobSpec) :=
  {| Schedule := v; TimeZone := TimeZone s;
     StartingDeadlineSeconds := StartingDeadlineSeconds s;
     ConcurrencyPolicy := ConcurrencyPolicy s; Paused := Paused s;
     SuccessfulJobsHistoryLimit := SuccessfulJobsHistoryLimit s;
     FailedJobsHistoryLimit := FailedJobsHistoryLimit s;
     Template := Template s |}.

Definition setTimeZone (v : option string) (s : AdvancedCronJobSpec) :=
  {| Schedule := Schedule s; TimeZone := v;
     StartingDeadlineSeconds := StartingDeadlineSeconds s;
     ConcurrencyPolicy := ConcurrencyPolicy s; Paused := Paused s;
     SuccessfulJobsHistoryLimit := SuccessfulJobsHistoryLimit s;
     FailedJobsHistoryLimit := FailedJobsHistoryLimit s;
     Template := Template s |}.

Definition setStartingDeadlineSeconds (v : option Z) (s : AdvancedCronJobSpec) :=
  {| Schedule := Schedule s; TimeZone := TimeZone s;
     StartingDeadlineSeconds := v;
     ConcurrencyPolicy := ConcurrencyPolicy s; Paused := Paused s;
     SuccessfulJobsHistoryLimit := SuccessfulJobsHistoryLimit s;
     FailedJobsHistoryLimit := FailedJobsHistoryLimit s;
     Template := Template s |}.

Definition setConcurrencyPolicy (v : string) (s : AdvancedCronJobSpec) :=
  {| Schedule := Schedule s; TimeZone := TimeZone s;
     StartingDeadlineSeconds := StartingDeadlineSeconds s;
     ConcurrencyPolicy := v; Paused := Paused s;
     SuccessfulJobsHistoryLimit := SuccessfulJobsHistoryLimit s;
     FailedJobsHistoryLimit := FailedJobsHistoryLimit s;
     Template := Template s |}.

Definition setPaused (v : option bool) (s : AdvancedCronJobSpec) :=
  {| Schedule := Schedule s; TimeZone := TimeZone s;
     StartingDeadlineSeconds := StartingDeadlineSeconds s;
     ConcurrencyPolicy := ConcurrencyPolicy s; Paused := v;
     SuccessfulJobsHistoryLimit := SuccessfulJobsHistoryLimit s;
     FailedJobsHistoryLimit := FailedJobsHistoryLimit s;
     Template := Template s |}.

Definition setSuccessfulJobsHistoryLimit (v : option Z) (s : AdvancedCronJobSpec) :=
  {| Schedule := Schedule s; TimeZone := TimeZone s;
     StartingDeadlineSeconds := StartingDeadlineSeconds s;
     ConcurrencyPolicy := ConcurrencyPolicy s; Paused := Paused s;
     SuccessfulJobsHistoryLimit := v;
     FailedJobsHistoryLimit := FailedJobsHistoryLimit s;
     Template := Template s |}.

Definition setFailedJobsHistoryLimit (v : option Z) (s : AdvancedCronJobSpec) :=
  {| Schedule := Schedule s; TimeZone := TimeZone s;
     StartingDeadlineSeconds := StartingDeadlineSeconds s;
     ConcurrencyPolicy := ConcurrencyPolicy s; Paused := Paused s;
     SuccessfulJobsHistoryLimit := SuccessfulJobsHistoryLimit s;
     FailedJobsHistoryLimit := v;
     Template := Template s |}.

Definition setImageListPullJobTemplate
    (v : option ImageListPullJobTemplateSpec) (s : AdvancedCronJobSpec) :=
  {| Schedule := Schedule s; TimeZone := TimeZone s;
     StartingDeadlineSeconds := StartingDeadlineSeconds s;
     ConcurrencyPolicy := ConcurrencyPolicy s; Paused := Paused s;
     SuccessfulJobsHistoryLimit := SuccessfulJobsHistoryLimit s;
     FailedJobsHistoryLimit := FailedJobsHistoryLimit s;
     Template := {| JobTemplate := JobTemplate (Template s);
                    BroadcastJobTemplate := BroadcastJobTemplate (Template s);
                    ImageListPullJobTemplate := v |} |}.

Definition validateAdvancedCronJobUpdate (obj oldObj : AdvancedCronJob)
    : Outcome ErrorList :=
  let allErrs :=
    ValidateObjectMetaUpdate (Meta obj) (Meta oldObj) (NewPath "metadata") in
  specErrs <- validateAdvancedCronJobSpec (Spec obj) (NewPath "spec") ;;
  let allErrs := allErrs ++ specErrs in
  let advanceCronJob := DeepCopy obj in
  let advanceCronJob :=
    updSpec (setSchedule (Schedule (Spec oldObj))) advanceCronJob in
  let advanceCronJob :=
    updSpec (setConcurrencyPolicy (ConcurrencyPolicy (Spec oldObj)))
      advanceCronJob in
  let advanceCronJob :=
    updSpec (setSuccessfulJobsHistoryLimit
               (SuccessfulJobsHistoryLimit (Spec oldObj))) advanceCronJob in
  let advanceCronJob :=
    updSpec (setFailedJobsHistoryLimit (FailedJobsHistoryLimit (Spec oldObj)))
      advanceCronJob in
  let advanceCronJob :=
    updSpec (setStartingDeadlineSeconds (StartingDeadlineSeconds (Spec oldObj)))
      advanceCronJob in
  let advanceCronJob := updSpec (setPaused (Paused (Spec oldObj))) advanceCronJob in
  let advanceCronJob :=
    updSpec (setTimeZone (TimeZone (Spec oldObj))) advanceCronJob in
  let advanceCronJob :=
    if isSome (ImageListPullJobTemplate (Template (Spec oldObj)))
    then updSpec (setImageListPullJobTemplate
                    (ImageListPullJobTemplate (Template (Spec oldObj))))
           advanceCronJob
    else advanceCronJob in
  let allErrs :=
    if negb (DeepEqual_AdvancedCronJobSpec (Spec advanceCronJob) (Spec oldObj))
    then allErrs ++ [Forbidden (NewPath "spec")
           "updates to advancedcronjob spec for fields other than 'imageListPullJobTemplate', 'schedule', 'concurrencyPolicy', 'successfulJobsHistoryLimit', 'failedJobsHistoryLimit', 'startingDeadlineSeconds', 'timeZone' and 'paused' are forbidden"]
    else allErrs in
  Normal allErrs.

Definition decodeAdvancedCronJob (req : Request) (obj : AdvancedCronJob)
    : AdvancedCronJob * error :=
  if (ResourceVersion req =? v1beta1_Version)%string then
    match Decode req obj with
    | (obj, Some err) => (obj, Some err)
    | (obj, None) => (obj, None)
    end
  else if (ResourceVersion req =? v1alpha1_Version)%string then
    let objv1alpha1 := zeroAdvancedCronJobV1alpha1 in
    match Decode_v1alpha1 req objv1alpha1 with
    | (_, Some err) => (obj, Some err)
    | (objv1alpha1, None) =>
        match ConvertTo objv1alpha1 obj with
        | (obj, Some err) =>
            (obj, Some ("failed to convert v1alpha1->v1beta1: " ++ err)%string)
        | (obj, None) => (obj, None)
        end
    end
  else (obj, None).

Definition decodeAdvancedCronJobFromRaw (raw : RawExtension) (version : string)
    (obj : AdvancedCronJob) : AdvancedCronJob * error :=
  if (version =? v1beta1_Version)%string then
    match DecodeRaw raw obj with
    | (obj, Some err) => (obj, Some err)
    | (obj, None) => (obj, None)
    end
  else if (version =? v1alpha1_Version)%string then
    let objv1alpha1 := zeroAdvancedCronJobV1alpha1 in
    match DecodeRaw_v1alpha1 raw objv1alpha1 with
    | (_, Some err) => (obj, Some err)
    | (objv1alpha1, None) =>
        match ConvertTo objv1alpha1 obj with
        | (obj, Some err) =>
            (obj, Some ("failed to convert v1alpha1->v1beta1: " ++ err)%string)
        | (obj, None) => (obj, None)
        end
    end
  else (obj, Some ("unsupported version: " ++ version)%string).

(** [admission.Response] as the handler builds it. *)
Inductive Cause :=
| PlainError (msg : string)
| Aggregate (errs : ErrorList).          (* allErrs.ToAggregate() *)

Inductive Response :=
| Errored (code : Z) (err : Cause)
| ValidationResponse (allowed : bool) (message : string).

Definition StatusBadRequest : Z := 400.
Definition StatusUnprocessableEntity : Z := 422.

Definition Handle (req : Request) : Outcome Response :=
  let obj := zeroAdvancedCronJob in
  match decodeAdvancedCronJob req obj with
  | (_, Some err) => Normal (Errored StatusBadRequest (PlainError err))
  | (obj, None) =>
      if (Operation req =? Create)%string then
        allErrs <- validateAdvancedCronJob obj ;;
        if (0 <? length allErrs)%nat
        then Normal (Errored StatusUnprocessableEntity (Aggregate allErrs))
        else Normal (ValidationResponse true "")
      else if (Operation req =? Update)%string then
        let oldObj := zeroAdvancedCronJob in
        match decodeAdvancedCronJobFromRaw (OldObject req) (ResourceVersion req)
                oldObj with
        | (_, Some err) => Normal (Errored StatusBadRequest (PlainError err))
        | (oldObj, None) =>
            allErrs <- validateAdvancedCronJobUpdate obj oldObj ;;
            if (0 <? length allErrs)%nat
            then Normal (Errored StatusUnprocessableEntity (Aggregate allErrs))
            else Normal (ValidationResponse true "")
        end
      else Normal (ValidationResponse true "")
  end.

End Handler.

(** ** Vocabulary of the statements *)

(** Errors of a list that lie at a given path, and errors that carry a
    given message. *)
Definition atPath (p : Path) (e : Error) : bool :=
  if list_eq_dec string_dec (Field e) p then true else false.

Definition errorsAt (p : Path) (errs : ErrorList) : ErrorList :=
  filter (atPath p) errs.

Definition withDetail (d : string) (e : Error) : bool := (Detail e =? d)%string.

(** [s] with its ASCII capitals replaced by small letters: two strings
    are equal under any casing when these agree. *)
Fixpoint ToLower (s : string) : string :=
  match s with
  | EmptyString => EmptyString
  | String c s' => String (toLowerASCII c) (ToLower s')
  end.

(** [sub] occurs in [s]. *)
Definition hasSubstring (s sub : string) : Prop :=
  exists a b, s = (a ++ sub ++ b)%string.

Definition ambiguityMsg : string :=
  "cannot use both timeZone field and TZ or CRON_TZ in schedule".

Definition explicitZoneMsg : string :=
  "timeZone must be an explicit time zone as defined in https://www.iana.org/time-zones".

Definition mustHaveOneMsg : string :=
  "spec must have one template, either JobTemplate or BroadcastJobTemplate or ImageListPullJobTemplate should be provided".

Definition onlyOneMsg : string :=
  "spec can have only one template, either JobTemplate or BroadcastJobTemplate or ImageListPullJobTemplate should be provided".

Definition forbiddenFieldsMsg : string :=
  "updates to advancedcronjob spec for fields other than 'imageListPullJobTemplate', 'schedule', 'concurrencyPolicy', 'successfulJobsHistoryLimit', 'failedJobsHistoryLimit', 'startingDeadlineSeconds', 'timeZone' and 'paused' are forbidden".

(** Paths below the path handed to the image-pull template validator. *)
Definition imagesPath (p : Path) : Path := Child (Child p "spec") "images".
Definition deadlinePath (p : Path) : Path :=
  Child (Child (Child p "spec") "completionPolicy") "activeDeadlineSeconds".
Definition ttlPath (p : Path) : Path :=
  Child (Child (Child p "spec") "completionPolicy") "ttlSecondsAfterFinished".
Definition policyTypePath (p : Path) : Path :=
  Child (Child (Child p "spec") "completionPolicy") "type".

(** The errors of the image-list and completion-policy checks, by the
    path [p] handed to the image-pull template validator. *)
Definition emptyImagesError (p : Path) (images : list string) : Error :=
  Invalid (imagesPath p) (VStrs images) "image can not be empty".
Definition tooManyImagesError (p : Path) (images : list string) : Error :=
  Invalid (imagesPath p) (VStrs images) "the maximum number of images cannot > 255".
Definition duplicateImagesError (p : Path) (images : list string) : Error :=
  Invalid (imagesPath p) (VStrs images) "images cannot have duplicate values".
Definition invalidImageError (p : Path) (images : list string)
    (image err : string) : Error :=
  Invalid (imagesPath p) (VStrs images) ("invalid image " ++ image ++ ": " ++ err).
Definition invalidTypeError (p : Path) (type : string) : Error :=
  Invalid (policyTypePath p) (VStr type)
    ("completionPolicy should be Always, but current value is: " ++ type).
Definition deadlineBoundError (p : Path) (deadline : Z) : Error :=
  Invalid (deadlinePath p) (VInt deadline)
    ("activeDeadlineSeconds must be less than 86400, current value is: "
       ++ fmtInt deadline).
Definition deadlineTimeoutError (p : Path) (deadline timeout : Z) : Error :=
  Invalid (deadlinePath p) (VInt deadline)
    ("completionPolicy.activeDeadlineSeconds must be greater than pullPolicy.timeoutSeconds("
       ++ fmtInt timeout ++ ")").
Definition ttlBoundError (p : Path) (ttl : Z) : Error :=
  Invalid (ttlPath p) (VInt ttl)
    ("ttlSecondsAfterFinished must be less than 259200, current value is: "
       ++ fmtInt ttl).

(** [pullPolicy.timeoutSeconds], when both the policy and the value are set. *)
Definition timeoutOf (s : ImageListPullJobSpec) : option Z :=
  match PullPolicy_ s with
  | Some pull => TimeoutSeconds pull
  | None => None
  end.

Section Vocabulary.
Context {T : ApiTypes} {C : Collaborators}.

(** The number of template variants a spec populates. *)
Definition populated (t : CronJobTemplate) : nat :=
  ((if isSome (JobTemplate t) then 1 else 0)
   + (if isSome (BroadcastJobTemplate t) then 1 else 0)
   + (if isSome (ImageListPullJobTemplate t) then 1 else 0))%nat.

(** What the per-kind validations of the populated variants report, in
    the order job, broadcast job, image-list pull job. *)
Definition perKindErrors (spec : AdvancedCronJobSpec) (p : Path) : ErrorList :=
  match JobTemplate (Template spec) with
  | Some t => validateJobTemplateSpec t p
  | None => []
  end ++
  match BroadcastJobTemplate (Template spec) with
  | Some t => validateBroadcastJobTemplateSpec t p
  | None => []
  end ++
  match ImageListPullJobTemplate (Template spec) with
  | Some t =>
      (if (ConcurrencyPolicy spec =? ReplaceConcurrent)%string
          || (ConcurrencyPolicy spec =? ForbidConcurrent)%string
       then []
       else [Invalid (Child (Child p "spec") "concurrencyPolicy")
               (VStr (ConcurrencyPolicy spec))
               ("concurrencyPolicy should be Replace or Forbid, but current value is: "
                  ++ ConcurrencyPolicy spec)])
      ++ validateImageListPullJobTemplateSpec t
           (Child (Child p "template") "imageListPullJobTemplate")
  | None => []
  end.

(** The selector and the pod selector pass their checks: a node
    selector does not combine a label selector with names, its label
    selector compiles and its names are pairwise distinct; a pod
    selector comes without a node selector and compiles. *)
Definition selectorsAccepted (s : ImageListPullJobSpec) : Prop :=
  match Selector s with
  | None => True
  | Some sel =>
      ((MatchLabels (NodeLabelSelector sel) = None
        /\ MatchExpressions (NodeLabelSelector sel) = None)
       \/ (Names sel = None
           /\ LabelSelectorAsSelector (NodeLabelSelector sel) = None))
      /\ (forall names, Names sel = Some names -> NoDup names)
  end
  /\ match PodSelector s with
     | None => True
     | Some podSel =>
         Selector s = None
         /\ LabelSelectorAsSelector (PodLabelSelector podSel) = None
     end.

(** The image list passes its checks: 1 to 255 entries, pairwise
    distinct, each a normalizable reference. *)
Definition imagesAccepted (s : ImageListPullJobSpec) : Prop :=
  (1 <= length (Images s) <= 255)%nat
  /\ NoDup (Images s)
  /\ forall image, In image (Images s) -> NormalizeImageRef image = None.

(** The error of the first violated image-list tier, if any: empty, more
    than 255 entries, a repeated entry, an entry that does not normalize. *)
Definition imageListError (images : list string) (p : Path) : option Error :=
  match images with
  | [] => Some (emptyImagesError p images)
  | _ :: _ =>
      if (255 <? length images)%nat then Some (tooManyImagesError p images)
      else if NoDup_dec string_dec images then
        match find (fun image => isSome (NormalizeImageRef image)) images with
        | Some image =>
            Some (invalidImageError p images image
                    match NormalizeImageRef image with
                    | Some err => err
                    | None => ""
                    end)
        | None => None
        end
      else Some (duplicateImagesError p images)
  end.

(** What the completion-policy checks report. *)
Definition ttlErrors (s : ImageListPullJobSpec) (p : Path) : ErrorList :=
  match TTLSecondsAfterFinished (CompletionPolicy_ s) with
  | Some ttl => if (259200 <? ttl)%Z then [ttlBoundError p ttl] else []
  | None => []
  end.

Definition completionPolicyErrors (s : ImageListPullJobSpec) (p : Path)
    : ErrorList :=
  if negb (PolicyType (CompletionPolicy_ s) =? Always)%string
  then [invalidTypeError p (PolicyType (CompletionPolicy_ s))]
  else
    match ActiveDeadlineSeconds (CompletionPolicy_ s) with
    | Some deadline =>
        if (86400 <? deadline)%Z then [deadlineBoundError p deadline]
        else
          match timeoutOf s with
          | Some timeout =>
              if (deadline <? timeout)%Z
              then [deadlineTimeoutError p deadline timeout]
              else ttlErrors s p
          | None => ttlErrors s p
          end
    | None => ttlErrors s p
    end.

(** The paths at which the selector checks report. *)
Definition selectorPaths (p : Path) : list Path :=
  [Child (Child p "spec") "selector";
   Child (Child (Child p "spec") "selector") "labelSelector";
   Child (Child (Child p "spec") "selector") "names";
   Child p "spec";
   Child (Child (Child p "spec") "podSelector") "labelSelector"].

(** The new spec differs from the old one at most in the mutable fields:
    the job template and the broadcast-job template are semantically
    equal to the old ones, and the image-list pull-job template is
    unset unless the old object has one. *)
Definition differsOnlyInMutableFields (new old : AdvancedCronJobSpec) : Prop :=
  DeepEqual_ptr DeepEqual_JobTemplateSpec
    (JobTemplate (Template new)) (JobTemplate (Template old)) = true
  /\ DeepEqual_ptr DeepEqual_BroadcastJobTemplateSpec
       (BroadcastJobTemplate (Template new))
       (BroadcastJobTemplate (Template old)) = true
  /\ (ImageListPullJobTemplate (Template old) = None ->
      ImageListPullJobTemplate (Template new) = None).

(** The errors the schedule validator reports before it looks at the
    time zone: the empty-schedule error and the parser's error. *)
Definition scheduleBase (spec : AdvancedCronJobSpec) (p : Path) : ErrorList :=
  (if (String.length (Schedule spec) =? 0)%nat
   then [Invalid (Child p "schedule") (VStr (Schedule spec))
           "schedule cannot be empty, please provide valid cron schedule."]
   else [])
  ++ match ParseStandard (Schedule spec) with
     | Normal (Some msg) => [Invalid (Child p "schedule") (VStr (Schedule spec)) msg]
     | Normal None => []
     | Panic r => [Invalid (Child p "schedule") (VStr (Schedule spec))
                     ("invalid cron schedule: " ++ r)]
     end.

Definition forbiddenFieldsError : Error :=
  Forbidden (NewPath "spec") forbiddenFieldsMsg.

(** The completion policy passes its checks: the type is Always, a set
    deadline is at most 86400 and not below a set timeout, a set ttl is
    at most 259200. *)
Definition policyAccepted (s : ImageListPullJobSpec) : Prop :=
  PolicyType (CompletionPolicy_ s) = Always
  /\ (forall d, ActiveDeadlineSeconds (CompletionPolicy_ s) = Some d ->
        d <= 86400 /\ forall tm, timeoutOf s = Some tm -> tm <= d)
  /\ (forall ttl, TTLSecondsAfterFinished (CompletionPolicy_ s) = Some ttl ->
        ttl <= 259200).

(** Every byte of the name is a letter, a digit or '-'. *)
Definition nameBytes (name : string) : Prop :=
  Forall (fun c => nameByte c = true) (list_ascii_of_string name).

(** What the non-negative checks of the numeric fields that are set
    report, in the order of the validator. *)
Definition numericErrors (spec : AdvancedCronJobSpec) (p : Path) : ErrorList :=
  match StartingDeadlineSeconds spec with
  | Some v => ValidateNonnegativeField v (Child p "startingDeadlineSeconds")
  | None => []
  end ++
  match SuccessfulJobsHistoryLimit spec with
  | Some v => ValidateNonnegativeField v (Child p "successfulJobsHistoryLimit")
  | None => []
  end ++
  match FailedJobsHistoryLimit spec with
  | Some v => ValidateNonnegativeField v (Child p "failedJobsHistoryLimit")
  | None => []
  end.

Definition concurrencyPolicyError (p : Path) (policy : string) : Error :=
  Invalid (Child (Child p "spec") "concurrencyPolicy") (VStr policy)
    ("concurrencyPolicy should be Replace or Forbid, but current value is: "
       ++ policy).

Definition emptyScheduleError (p : Path) : Error :=
  Invalid (Child p "schedule") (VStr "")
    "schedule cannot be empty, please provide valid cron schedule.".

Definition emptyTimeZoneError (p : Path) : Error :=
  Invalid p (VStr "") "timeZone must be nil or non-empty string".

(** The object with another schedule. *)
Definition withSchedule (schedule : string) (acj : AdvancedCronJob)
    : AdvancedCronJob :=
  updSpec (setSchedule schedule) acj.


(** The spec of the clone after the update guard has put back the old
    values of the mutable fields. *)
Definition restoreMutableFields (new old : AdvancedCronJobSpec)
    : AdvancedCronJobSpec :=
  let patched :=
    setTimeZone (TimeZone old)
      (setPaused (Paused old)
         (setStartingDeadlineSeconds (StartingDeadlineSeconds old)
            (setFailedJobsHistoryLimit (FailedJobsHistoryLimit old)
               (setSuccessfulJobsHistoryLimit (SuccessfulJobsHistoryLimit old)
                  (setConcurrencyPolicy (ConcurrencyPolicy old)
                     (setSchedule (Schedule old) new)))))) in
  if isSome (ImageListPullJobTemplate (Template old))
  then setImageListPullJobTemplate (ImageListPullJobTemplate (Template old))
         patched
  else patched.

End Vocabulary.

(** ** A concrete set of collaborators

    Small stand-ins for the other packages, used to run the handler on
    concrete requests. *)

Module Sample.

Record Container := { ContainerName : string; Image : string }.

(** A pod template reduced to its containers. *)
Definition PodTemplate := list Container.

#[export] Instance types : ApiTypes := {|
  ObjectMeta := string;                  (* the object's name *)
  zeroObjectMeta := "";
  PodTemplateSpec := PodTemplate;
  CorePodTemplateSpec := PodTemplate;
  JobTemplateSpec := PodTemplate;
  JobPodTemplate := fun t => t;
  BroadcastJobTemplateSpec := PodTemplate;
  BroadcastJobPodTemplate := fun t => t;
  AdvancedCronJobV1alpha1 := string;     (* its schedule *)
  zeroAdvancedCronJobV1alpha1 := "";
  RawExtension := string
|}.

(** [time.LoadLocation] over a zone database, as the Go documentation
    gives it: the empty name and "UTC" are UTC, "Local" is the local
    zone, every other name is looked up in the database. *)
Definition loadLocationFrom (zones : list string) (name : string) : error :=
  if ((name =? "") || (name =? "UTC"))%string then None
  else if (name =? "Local")%string then None
  else if existsb (String.eqb name) zones then None
  else Some ("unknown time zone " ++ name)%string.

Definition zones : list string :=
  ["Africa/Cairo"; "America/New_York"; "Asia/Shanghai"; "Europe/Paris"].

(** A parser with the three behaviours of [cron.ParseStandard]: a
    descriptor that names a zone but has no space after it makes it
    slice out of range, an empty spec is an error, and other specs must
    have five fields. *)
Fixpoint fields (inField : bool) (s : string) : nat :=
  match s with
  | EmptyString => 0
  | String c s' =>
      if Ascii.eqb c " "%char then fields false s'
      else if inField then fields true s' else S (fields true s')
  end.

Definition parseStandard (spec : string) : Outcome error :=
  if (spec =? "")%string then Normal (Some "empty spec string")
  else if HasPrefix spec "TZ=" || HasPrefix spec "CRON_TZ=" then
    if Contains spec " "
    then if (fields false spec =? 6)%nat then Normal None
         else Normal (Some "expected exactly 5 fields")
    else Panic "runtime error: slice bounds out of range [:-1]"
  else if (fields false spec =? 5)%nat then Normal None
  else Normal (Some "expected exactly 5 fields").

Definition normalizeImageRef (image : string) : error :=
  if (image =? "")%string || Contains image " "
  then Some "invalid reference format"
  else None.

Definition containerEqb (a b : Container) : bool :=
  ((ContainerName a =? ContainerName b) && (Image a =? Image b))%string.

Fixpoint podTemplateEqb (a b : PodTemplate) : bool :=
  match a, b with
  | [], [] => true
  | x :: a', y :: b' => containerEqb x y && podTemplateEqb a' b'
  | _, _ => false
  end.

Definition ilpTemplate_eq_dec (a b : ImageListPullJobTemplateSpec)
    : {a = b} + {a <> b}.
Proof.
  repeat (decide equality; auto using Z.eq_dec, string_dec).
Defined.

#[export] Instance collaborators : Collaborators := {|
  LoadLocation := loadLocationFrom zones;
  ParseStandard := parseStandard;
  NormalizeImageRef := normalizeImageRef;
  LabelSelectorAsSelector := fun _ => None;
  Convert_v1_PodTemplateSpec_To_core_PodTemplateSpec := fun t => (t, None);
  ValidatePodTemplateSpec := fun t p =>
    match t with
    | [] => [mkError ErrorTypeRequired (Child (Child p "spec") "containers")
               VEmpty ""]
    | _ => []
    end;
  ValidateNonnegativeField := fun v p =>
    if (v <? 0)%Z then [Invalid p (VInt v) "must be greater than or equal to 0"]
    else [];
  ValidateObjectMeta := fun meta _ nameFn p =>
    map (fun m => Invalid (Child p "name") (VStr meta) m) (nameFn meta false);
  ValidateObjectMetaUpdate := fun _ _ _ => [];
  DeepEqual_JobTemplateSpec := podTemplateEqb;
  DeepEqual_BroadcastJobTemplateSpec := podTemplateEqb;
  DeepEqual_ImageListPullJobTemplateSpec := fun a b =>
    if ilpTemplate_eq_dec a b then true else false;
  ConvertTo := fun schedule obj =>
    (updSpec (setSchedule schedule) obj, None)
|}.

(** A decoder that reads the raw bytes as the object's schedule. *)
#[export] Instance decoder : Decoder := {|
  Decode := fun req obj =>
    if (Object req =? "")%string then (obj, Some "there is no content to decode")
    else (updSpec (setSchedule (Object req)) obj, None);
  Decode_v1alpha1 := fun req obj =>
    if (Object req =? "")%string then (obj, Some "there is no content to decode")
    else (Object req, None);
  DecodeRaw := fun raw obj =>
    if (raw =? "")%string then (obj, Some "there is no content to decode")
    else (updSpec (setSchedule raw) obj, None);
  DecodeRaw_v1alpha1 := fun raw obj =>
    if (raw =? "")%string then (obj, Some "there is no content to decode")
    else (raw, None)
|}.

(** Sample objects. *)
Definition completion (type : string) (deadline ttl : option Z)
    : CompletionPolicy :=
  {| PolicyType := type; ActiveDeadlineSeconds := deadline;
     TTLSecondsAfterFinished := ttl |}.

Definition pullJob (images : list string) (timeout : option Z)
    (policy : CompletionPolicy) : ImageListPullJobTemplateSpec :=
  {| JobSpec := {| Images := images; Selector := None; PodSelector := None;
                   PullPolicy_ := Some {| TimeoutSeconds := timeout;
                                          BackoffLimit := None |};
                   CompletionPolicy_ := policy |} |}.

Definition cronSpec (schedule : string) (tz : option string)
    (template : CronJobTemplate) : AdvancedCronJobSpec :=
  {| Schedule := schedule; TimeZone := tz; StartingDeadlineSeconds := None;
     ConcurrencyPolicy := "Forbid"; Paused := Some false;
     SuccessfulJobsHistoryLimit := None; FailedJobsHistoryLimit := None;
     Template := template |}.

Definition jobOnly (image : string) : CronJobTemplate :=
  {| JobTemplate := Some [{| ContainerName := "main"; Image := image |}];
     BroadcastJobTemplate := None;
     ImageListPullJobTemplate := None |}.

Definition ilpPath : Path := ["spec"; "template"; "imageListPullJobTemplate"].

(** Image-pull templates. *)
Definition goodJob := pullJob ["nginx"; "busybox"] (Some 600)
                        (completion Always (Some 3600) (Some 7200)).
Definition equalDeadlineJob := pullJob ["nginx"] (Some 600)
                                 (completion Always (Some 600) None).
Definition longDeadlineJob := pullJob ["nginx"] (Some 600)
                                (completion Always (Some 90000) None).
Definition shortDeadlineJob := pullJob ["nginx"] (Some 600)
                                 (completion Always (Some 300) None).
Definition shortDeadlineNoImagesJob := pullJob [] (Some 600)
                                         (completion Always (Some 300) None).
Definition longTtlJob := pullJob ["nginx"] (Some 600)
                           (completion Always (Some 3600) (Some 300000)).
Definition neverJob := pullJob ["nginx"] (Some 600)
                         (completion Never (Some 90000) (Some 300000)).
Definition emptyNeverJob := pullJob [] (Some 600) (completion Never None None).
Definition duplicateJob := pullJob ["nginx"; "nginx"; "not an image"] (Some 600)
                             (completion Always None None).
Definition unnormalizableJob := pullJob ["nginx"; "not an image"; ""] (Some 600)
                                  (completion Never None None).
Definition crowdedJob := pullJob (repeat "nginx" 256) (Some 600)
                           (completion Always None None).

(** A selector with both names and labels, and no images. *)
Definition badSelectorJob : ImageListPullJobTemplateSpec :=
  {| JobSpec :=
       {| Images := [];
          Selector := Some {| Names := Some ["node-1"];
                              NodeLabelSelector :=
                                {| MatchLabels := Some [("zone", "a")];
                                   MatchExpressions := None |} |};
          PodSelector := None;
          PullPolicy_ := None;
          CompletionPolicy_ := completion Always None None |} |}.

(** Specs and objects. *)
Definition noTemplate : CronJobTemplate :=
  {| JobTemplate := None; BroadcastJobTemplate := None;
     ImageListPullJobTemplate := None |}.

Definition twoTemplates : CronJobTemplate :=
  {| JobTemplate := Some [{| ContainerName := "main"; Image := "nginx" |}];
     BroadcastJobTemplate := None;
     ImageListPullJobTemplate := Some neverJob |}.

Definition tzTwiceSpec : AdvancedCronJobSpec :=
  cronSpec "TZ=UTC * * * * *" (Some "UTC") (jobOnly "nginx").
Definition tzInScheduleSpec : AdvancedCronJobSpec :=
  cronSpec "CRON_TZ=Asia/Shanghai 0 1 * * *" None (jobOnly "nginx").
Definition tzFieldSpec : AdvancedCronJobSpec :=
  cronSpec "0 1 * * *" (Some "Asia/Shanghai") (jobOnly "nginx").
Definition unknownZoneSpec : AdvancedCronJobSpec :=
  cronSpec "0 1 * * *" (Some "Mars/Olympus") (jobOnly "nginx").
Definition panickingSpec : AdvancedCronJobSpec :=
  cronSpec "TZ=UTC" None (jobOnly "nginx").

Definition oldJob : AdvancedCronJob :=
  {| Meta := "nightly"; Spec := cronSpec "0 1 * * *" None (jobOnly "nginx:1.25") |}.
Definition pausedJob : AdvancedCronJob := updSpec (setPaused (Some true)) oldJob.
Definition reimagedJob : AdvancedCronJob :=
  {| Meta := "nightly"; Spec := cronSpec "0 1 * * *" None (jobOnly "nginx:1.26") |}.

Definition tzInScheduleJob : AdvancedCronJob :=
  {| Meta := "nightly"; Spec := tzInScheduleSpec |}.
Definition tzFieldJob : AdvancedCronJob :=
  {| Meta := "nightly"; Spec := tzFieldSpec |}.
Definition unknownZoneJob : AdvancedCronJob :=
  {| Meta := "nightly"; Spec := unknownZoneSpec |}.

Definition createV2 : Request :=
  {| Operation := Create; ResourceVersion := "v2"; Object := "0 1 * * *";
     OldObject := "" |}.
Definition updateV2 : Request :=
  {| Operation := Update; ResourceVersion := "v2"; Object := "0 1 * * *";
     OldObject := "0 1 * * *" |}.


(** Further sample objects. *)

Definition noTemplateSpec : AdvancedCronJobSpec :=
  cronSpec "0 1 * * *" None noTemplate.

Definition pullOnly (t : ImageListPullJobTemplateSpec) : CronJobTemplate :=
  {| JobTemplate := None; BroadcastJobTemplate := None;
     ImageListPullJobTemplate := Some t |}.

Definition pullOnlySpec : AdvancedCronJobSpec :=
  cronSpec "0 1 * * *" (Some "Asia/Shanghai") (pullOnly goodJob).

Definition allowPullSpec : AdvancedCronJobSpec :=
  setConcurrencyPolicy "Allow" pullOnlySpec.

Definition emptyScheduleSpec : AdvancedCronJobSpec :=
  cronSpec "" None (jobOnly "nginx").

Definition longName : string :=
  "a-name-of-sixty-four-bytes-is-one-byte-longer-than-the-limit-0123".

(** A template whose selector repeats a name. *)
Definition repeatedNamesJob : ImageListPullJobTemplateSpec :=
  {| JobSpec :=
       {| Images := ["nginx"];
          Selector := Some {| Names := Some ["node-1"; "node-2"; "node-1"];
                              NodeLabelSelector :=
                                {| MatchLabels := None;
                                   MatchExpressions := None |} |};
          PodSelector := None;
          PullPolicy_ := None;
          CompletionPolicy_ := completion Always None None |} |}.

(** A template with a selector and a pod selector. *)
Definition twoSelectorsJob : ImageListPullJobTemplateSpec :=
  {| JobSpec :=
       {| Images := ["nginx"];
          Selector := Some {| Names := Some ["node-1"];
                              NodeLabelSelector :=
                                {| MatchLabels := None;
                                   MatchExpressions := None |} |};
          PodSelector := Some {| PodLabelSelector :=
                                   {| MatchLabels := Some [("app", "web")];
                                      MatchExpressions := None |} |};
          PullPolicy_ := None;
          CompletionPolicy_ := completion Always None None |} |}.

Definition rescheduledOldJob : AdvancedCronJob :=
  updSpec (setSchedule "30 4 * * *") oldJob.

Definition oldPullJob : AdvancedCronJob :=
  {| Meta := "prefetch"; Spec := pullOnlySpec |}.
Definition droppedPullJob : AdvancedCronJob :=
  updSpec (setImageListPullJobTemplate None) oldPullJob.
Definition addedPullJob : AdvancedCronJob :=
  updSpec (setImageListPullJobTemplate (Some goodJob)) oldJob.

(** A decoder that reads the raw bytes as the schedule of a job with one
    job template. *)
Definition jobDecoder : Decoder := {|
  Decode := fun req obj =>
    if (Object req =? "")%string then (obj, Some "there is no content to decode")
    else ({| Meta := "nightly";
             Spec := cronSpec (Object req) None (jobOnly "nginx") |}, None);
  Decode_v1alpha1 := fun req obj =>
    if (Object req =? "")%string then (obj, Some "there is no content to decode")
    else (Object req, None);
  DecodeRaw := fun raw obj =>
    if (raw =? "")%string then (obj, Some "there is no content to decode")
    else ({| Meta := "nightly";
             Spec := cronSpec raw None (jobOnly "nginx") |}, None);
  DecodeRaw_v1alpha1 := fun raw obj =>
    if (raw =? "")%string then (obj, Some "there is no content to decode")
    else (raw, None)
|}.

Definition createV1 : Request :=
  {| Operation := Create; ResourceVersion := "v1beta1"; Object := "0 1 * * *";
     OldObject := "" |}.
Definition createBadV1 : Request :=
  {| Operation := Create; ResourceVersion := "v1beta1"; Object := "every day";
     OldObject := "" |}.
Definition updateV1 : Request :=
  {| Operation := Update; ResourceVersion := "v1beta1"; Object := "0 2 * * *";
     OldObject := "0 1 * * *" |}.
Definition updateNoOldV1 : Request :=
  {| Operation := Update; ResourceVersion := "v1beta1"; Object := "0 2 * * *";
     OldObject := "" |}.
Definition deleteV1 : Request :=
  {| Operation := "DELETE"; ResourceVersion := "v1beta1"; Object := "every day";
     OldObject := "" |}.
Definition deleteEmptyV1 : Request :=
  {| Operation := "DELETE"; ResourceVersion := "v1beta1"; Object := "";
     OldObject := "" |}.
Definition createAlphaV1 : Request :=
  {| Operation := Create; ResourceVersion := "v1alpha1"; Object := "0 1 * * *";
     OldObject := "" |}.

End Sample.


(** * Properties *)

(** ** Strings *)

Lemma append_assoc (a b c : string) :
  ((a ++ b) ++ c = a ++ (b ++ c))%string.
Proof. induction a as [|x a IH]; simpl; [reflexivity | now rewrite IH]. Qed.

Lemma HasPrefix_spec (s p : string) :
  HasPrefix s p = true <-> exists r, s = (p ++ r)%string.
Proof.
  revert s. induction p as [|a p IH]; intros s; simpl.
  - split; [intros _; exists s; reflexivity | intros _; destruct s; reflexivity].
  - destruct s as [|b s]; simpl.
    + split; [discriminate | intros [r Hr]; discriminate].
    + rewrite andb_true_iff, IH. split.
      * intros [Hab [r Hr]]. apply Ascii.eqb_eq in Hab. subst. now exists r.
      * intros [r Hr]. injection Hr as -> ->. split.
        -- apply Ascii.eqb_refl.
        -- now exists r.
Qed.

(** [Contains] finds exactly the substrings. *)
Lemma Contains_spec (s sub : string) :
  Contains s sub = true <-> hasSubstring s sub.
Proof.
  unfold hasSubstring. induction s as [|c s IH].
  - cbn [Contains]. rewrite orb_false_r, HasPrefix_spec. split.
    + intros [r Hr]. now exists ""%string, r.
    + intros [a [b Hab]]. destruct a; simpl in Hab.
      * now exists b.
      * discriminate.
  - cbn [Contains]. rewrite orb_true_iff, HasPrefix_spec, IH. split.
    + intros [[r Hr] | [a [b Hab]]].
      * now exists ""%string, r.
      * exists (String c a), b. simpl. now rewrite Hab.
    + intros [a [b Hab]]. destruct a as [|c' a]; simpl in Hab.
      * left. now exists b.
      * right. injection Hab as _ ->. now exists a, b.
Qed.

Lemma Contains_false (s sub : string) :
  Contains s sub = false <-> ~ hasSubstring s sub.
Proof.
  rewrite <- Contains_spec. destruct (Contains s sub); split.
  - discriminate.
  - intros H. now elim H.
  - intros _ E. discriminate E.
  - reflexivity.
Qed.

(** A schedule that embeds "TZ=" or "CRON_TZ=" contains "TZ". *)
Lemma Contains_TZ_of_descriptor (s : string) :
  hasSubstring s "TZ=" \/ hasSubstring s "CRON_TZ=" ->
  Contains s "TZ" = true.
Proof.
  intros [[a [b ->]] | [a [b ->]]]; apply Contains_spec.
  - exists a, ("=" ++ b)%string. reflexivity.
  - exists (a ++ "CRON_")%string, ("=" ++ b)%string.
    rewrite append_assoc. reflexivity.
Qed.

(** ** The schedule validator *)

Section ScheduleProperties.
Context {T : ApiTypes} {C : Collaborators}.

Lemma validateCronSchedule_eq (schedule : string) :
  validateCronSchedule schedule =
  Normal match ParseStandard schedule with
         | Normal e => e
         | Panic r => Some ("invalid cron schedule: " ++ r)%string
         end.
Proof.
  unfold validateCronSchedule, deferRecover, bind.
  destruct (ParseStandard schedule); reflexivity.
Qed.

Lemma validateAdvancedCronJobSpecSchedule_eq spec p :
  validateAdvancedCronJobSpecSchedule spec p =
  Normal (scheduleBase spec p ++
          if Contains (Schedule spec) "TZ" && isSome (TimeZone spec)
          then [Invalid (Child p "schedule") (VStr (Schedule spec)) ambiguityMsg]
          else []).
Proof.
  unfold validateAdvancedCronJobSpecSchedule, scheduleBase.
  rewrite validateCronSchedule_eq. cbn [bind].
  destruct (String.length (Schedule spec) =? 0)%nat;
    destruct (ParseStandard (Schedule spec)) as [[msg|]|r];
    destruct (Contains (Schedule spec) "TZ" && isSome (TimeZone spec));
    reflexivity.
Qed.

Lemma validateAdvancedCronJobSpec_total spec p :
  exists errs, validateAdvancedCronJobSpec spec p = Normal errs.
Proof.
  unfold validateAdvancedCronJobSpec.
  rewrite validateAdvancedCronJobSpecSchedule_eq. cbn [bind].
  eexists. reflexivity.
Qed.

Lemma scheduleBase_no_ambiguity spec p :
  ParseStandard (Schedule spec) <> Normal (Some ambiguityMsg) ->
  filter (withDetail ambiguityMsg) (scheduleBase spec p) = [].
Proof.
  intros Hparser. unfold scheduleBase. rewrite filter_app.
  assert (Hempty :
    filter (withDetail ambiguityMsg)
      (if (String.length (Schedule spec) =? 0)%nat
       then [Invalid (Child p "schedule") (VStr (Schedule spec))
               "schedule cannot be empty, please provide valid cron schedule."]
       else []) = []).
  { destruct (String.length (Schedule spec) =? 0)%nat; reflexivity. }
  rewrite Hempty. simpl.
  destruct (ParseStandard (Schedule spec)) as [[msg|]|r]; simpl; try reflexivity.
  unfold withDetail; simpl.
  destruct (String.eqb_spec msg ambiguityMsg) as [->|]; [now elim Hparser | reflexivity].
Qed.

(** C7. For every schedule string, [validateCronSchedule] returns
    normally: when the cron parser panics with value [r] the panic is
    recovered and becomes the error "invalid cron schedule: r", which the
    schedule validator (itself returning normally) reports as an invalid
    value at [<path>.schedule]; when the parser returns, its error is
    passed on unchanged. *)
Theorem validateCronSchedule_contains_panics (schedule : string) :
  (exists err, validateCronSchedule schedule = Normal err)
  /\ (forall r, ParseStandard schedule = Panic r ->
        validateCronSchedule schedule
          = Normal (Some ("invalid cron schedule: " ++ r)%string)
        /\ forall spec p, Schedule spec = schedule ->
             exists errs,
               validateAdvancedCronJobSpecSchedule spec p = Normal errs
               /\ In (Invalid (Child p "schedule") (VStr schedule)
                        ("invalid cron schedule: " ++ r)) errs)
  /\ (forall e, ParseStandard schedule = Normal e ->
        validateCronSchedule schedule = Normal e).
Proof.
  rewrite validateCronSchedule_eq. split; [eexists; reflexivity | split].
  - intros r Hr. rewrite Hr. split; [reflexivity|].
    intros spec p <-. rewrite validateAdvancedCronJobSpecSchedule_eq.
    eexists. split; [reflexivity|].
    apply in_or_app. left. unfold scheduleBase. apply in_or_app. right.
    rewrite Hr. now left.
  - intros e He. now rewrite He.
Qed.

(** C4. The schedule validator reports what it reports for the same spec
    without a time zone, followed by the ambiguity error at
    [<path>.schedule] exactly when "TZ" occurs in the schedule (as it does
    in a schedule with "TZ=" or "CRON_TZ=") and the time zone is set.
    Counted by its message, and the cron parser's own error text being a
    different one, that is exactly one ambiguity error in the first case
    and none when the time zone is nil or the schedule has no "TZ". *)
Theorem schedule_timezone_ambiguity (spec : AdvancedCronJobSpec) (p : Path) :
  let amb := Invalid (Child p "schedule") (VStr (Schedule spec)) ambiguityMsg in
  exists base,
    validateAdvancedCronJobSpecSchedule (setTimeZone None spec) p = Normal base
    /\ (forall tz,
          hasSubstring (Schedule spec) "TZ" -> TimeZone spec = Some tz ->
          validateAdvancedCronJobSpecSchedule spec p = Normal (base ++ [amb])
          /\ (ParseStandard (Schedule spec) <> Normal (Some ambiguityMsg) ->
              filter (withDetail ambiguityMsg) (base ++ [amb]) = [amb]))
    /\ (forall tz,
          hasSubstring (Schedule spec) "TZ=" \/ hasSubstring (Schedule spec) "CRON_TZ=" ->
          TimeZone spec = Some tz ->
          validateAdvancedCronJobSpecSchedule spec p = Normal (base ++ [amb]))
    /\ (TimeZone spec = None \/ ~ hasSubstring (Schedule spec) "TZ" ->
          validateAdvancedCronJobSpecSchedule spec p = Normal base
          /\ (ParseStandard (Schedule spec) <> Normal (Some ambiguityMsg) ->
              filter (withDetail ambiguityMsg) base = [])).
Proof.
  intros amb. exists (scheduleBase spec p).
  assert (Hset : forall tz,
    Contains (Schedule spec) "TZ" = true -> TimeZone spec = Some tz ->
    validateAdvancedCronJobSpecSchedule spec p
    = Normal (scheduleBase spec p ++ [amb])).
  { intros tz Htz Hzone.
    now rewrite validateAdvancedCronJobSpecSchedule_eq, Htz, Hzone. }
  split; [|split; [|split]].
  - rewrite validateAdvancedCronJobSpecSchedule_eq.
    cbn [setTimeZone TimeZone isSome Schedule].
    now rewrite andb_false_r, app_nil_r.
  - intros tz Htz Hzone. apply Contains_spec in Htz. split.
    + now apply (Hset tz).
    + intros Hparser.
      rewrite filter_app, scheduleBase_no_ambiguity by assumption. reflexivity.
  - intros tz Htz Hzone. apply (Hset tz); [|assumption].
    now apply Contains_TZ_of_descriptor.
  - intros Hnone. split.
    + rewrite validateAdvancedCronJobSpecSchedule_eq.
      destruct Hnone as [-> | Hno].
      * now rewrite andb_false_r, app_nil_r.
      * apply Contains_false in Hno. rewrite Hno. now rewrite app_nil_r.
    + apply scheduleBase_no_ambiguity.
Qed.

End ScheduleProperties.

(** ** The image-pull template validator *)

Lemma nodup_length_le (l : list string) :
  (length (nodup string_dec l) <= length l)%nat.
Proof.
  induction l as [|a l IH]; simpl; [lia|].
  destruct (in_dec string_dec a l); simpl; lia.
Qed.

(** Deduplication keeps the length only of a duplicate-free list. *)
Lemma nodup_length_NoDup (l : list string) :
  length (nodup string_dec l) = length l -> NoDup l.
Proof.
  induction l as [|a l IH]; simpl; intros H; [constructor|].
  destruct (in_dec string_dec a l) as [Hin|Hin]; simpl in H.
  - pose proof (nodup_length_le l). lia.
  - constructor; [assumption | apply IH; lia].
Qed.

Section ImagePullProperties.
Context {T : ApiTypes} {C : Collaborators}.

Lemma compareWithRest_spec (x : string) (rest : list string) (errs : ErrorList) :
  compareWithRest x rest (Return errs) =
  if in_dec string_dec x rest then Return errs else Fallthrough.
Proof.
  induction rest as [|y rest IH]; simpl; [reflexivity|].
  destruct (String.eqb_spec x y) as [Exy|Hxy].
  - destruct (string_dec y x) as [E|Hn]; [reflexivity | now elim Hn].
  - rewrite IH. destruct (string_dec y x) as [E|E]; [now elim Hxy|].
    destruct (in_dec string_dec x rest); reflexivity.
Qed.

(** The pairwise comparison returns exactly on a list with a repeated
    entry. *)
Lemma compareAllPairs_spec (l : list string) (errs : ErrorList) :
  compareAllPairs l (Return errs) =
  if NoDup_dec string_dec l then Fallthrough else Return errs.
Proof.
  induction l as [|x l IH]; simpl compareAllPairs.
  - destruct (NoDup_dec string_dec []) as [_|Hn]; [reflexivity|].
    elim Hn. constructor.
  - rewrite compareWithRest_spec, IH.
    destruct (in_dec string_dec x l) as [Hin|Hin]; simpl.
    + destruct (NoDup_dec string_dec (x :: l)) as [Hnd|_]; [|reflexivity].
      inversion Hnd; contradiction.
    + destruct (NoDup_dec string_dec l) as [Hl|Hl];
        destruct (NoDup_dec string_dec (x :: l)) as [Hxl|Hxl];
        try reflexivity.
      * elim Hxl. now constructor.
      * elim Hl. now inversion Hxl.
Qed.

(** The normalization loop returns at the first entry that does not
    normalize. *)
Lemma normalizeEach_find (l : list string) (r : string -> string -> Flow) :
  normalizeEach l r =
  match find (fun image => isSome (NormalizeImageRef image)) l with
  | Some image =>
      match NormalizeImageRef image with
      | Some err => r image err
      | None => Fallthrough
      end
  | None => Fallthrough
  end.
Proof.
  induction l as [|image l IH]; simpl; [reflexivity|].
  destruct (NormalizeImageRef image) as [err|] eqn:E; simpl.
  - now rewrite E.
  - apply IH.
Qed.

Lemma find_first_invalid (pre post : list string) (image err : string) :
  (forall x, In x pre -> NormalizeImageRef x = None) ->
  NormalizeImageRef image = Some err ->
  find (fun i => isSome (NormalizeImageRef i)) (pre ++ image :: post) = Some image.
Proof.
  intros Hpre Himg. induction pre as [|x pre IH]; simpl.
  - now rewrite Himg.
  - rewrite (Hpre x (or_introl eq_refl)). simpl.
    apply IH. intros y Hy. apply Hpre. now right.
Qed.

Lemma find_all_valid (l : list string) :
  (forall x, In x l -> NormalizeImageRef x = None) ->
  find (fun i => isSome (NormalizeImageRef i)) l = None.
Proof.
  intros H. induction l as [|x l IH]; simpl; [reflexivity|].
  rewrite (H x (or_introl eq_refl)). simpl.
  apply IH. intros y Hy. apply H. now right.
Qed.

(** Once the selector checks pass, the validator reports the first
    violated image-list tier or, with an accepted image list, what the
    completion-policy checks report. *)
Lemma validate_selectors_accepted (t : ImageListPullJobTemplateSpec) (p : Path) :
  selectorsAccepted (JobSpec t) ->
  validateImageListPullJobTemplateSpec t p =
  match imageListError (Images (JobSpec t)) p with
  | Some e => [e]
  | None => completionPolicyErrors (JobSpec t) p
  end.
Proof.
  destruct t as [s]. cbn [JobSpec]. intros [Hs Hp].
  unfold validateImageListPullJobTemplateSpec. cbn [JobSpec].
  match goal with
  | |- orReturn (?A ;;; ?B ;;; ?R) _ = _ =>
      assert (HA : A = Fallthrough);
      [ | assert (HB : B = Fallthrough); [ | rewrite HA, HB; cbn [andThen] ] ]
  end.
  - destruct (Selector s) as [sel|]; [|reflexivity].
    destruct Hs as [[[HML HME] | [HN HL]] Hnd].
    + rewrite HML, HME. cbn [isSome orb andThen].
      destruct (Names sel) as [names|]; [|reflexivity].
      rewrite (nodup_fixed_point string_dec (Hnd names eq_refl)), Nat.eqb_refl.
      reflexivity.
    + rewrite HN, HL.
      destruct (isSome (MatchLabels (NodeLabelSelector sel))
                || isSome (MatchExpressions (NodeLabelSelector sel)));
        reflexivity.
  - destruct (PodSelector s) as [podSel|]; [|reflexivity].
    destruct Hp as [HS HL]. rewrite HS, HL. reflexivity.
  - clear HA HB Hs Hp.
    destruct (Images s) as [|image rest] eqn:Himages; [reflexivity|].
    cbn [length Nat.eqb andThen imageListError].
    destruct (255 <? S (length rest))%nat; [reflexivity|].
    cbn [andThen]. rewrite compareAllPairs_spec.
    destruct (NoDup_dec string_dec (image :: rest)) as [Hnd|Hnd];
      [|reflexivity].
    cbn [andThen]. rewrite normalizeEach_find.
    destruct (find (fun i => isSome (NormalizeImageRef i)) (image :: rest))
      as [bad|] eqn:Hfind.
    + apply find_some in Hfind. destruct Hfind as [_ Hbad].
      destruct (NormalizeImageRef bad) as [err|]; [reflexivity | discriminate].
    + cbn [andThen]. unfold completionPolicyErrors, ttlErrors, timeoutOf.
      cbv zeta.
      destruct (PolicyType (CompletionPolicy_ s) =? Always)%string;
        [|reflexivity].
      cbn [negb].
      destruct (ActiveDeadlineSeconds (CompletionPolicy_ s)) as [deadline|];
        destruct (PullPolicy_ s) as [pull|];
        try destruct (TimeoutSeconds pull) as [timeout|];
        destruct (TTLSecondsAfterFinished (CompletionPolicy_ s)) as [ttl|];
        rewrite ?Z.gtb_ltb;
        change MaxActiveDeadLineSeconds with 86400%Z;
        change MaxTTLSecondsAfterFinished with 259200%Z;
        repeat match goal with
               | |- context [(?a <? ?b)%Z] => destruct (a <? b)%Z
               end;
        reflexivity.
Qed.

(** A spec whose selectors are not accepted is answered with one invalid
    value at one of the selector paths. *)
Lemma selector_stage (t : ImageListPullJobTemplateSpec) (p : Path) :
  selectorsAccepted (JobSpec t)
  \/ exists e, validateImageListPullJobTemplateSpec t p = [e]
              /\ Type_ e = ErrorTypeInvalid
              /\ In (Field e) (selectorPaths p).
Proof.
  destruct t as [s]. unfold validateImageListPullJobTemplateSpec, selectorsAccepted.
  cbn [JobSpec].
  assert (Hlabels : forall sel : ImagePullJobNodeSelector,
    isSome (MatchLabels (NodeLabelSelector sel))
    || isSome (MatchExpressions (NodeLabelSelector sel)) = false ->
    MatchLabels (NodeLabelSelector sel) = None
    /\ MatchExpressions (NodeLabelSelector sel) = None).
  { intros sel. destruct (MatchLabels _), (MatchExpressions _);
      cbn; intros; try discriminate; now split. }
  destruct (Selector s) as [sel|] eqn:ES.
  - destruct (isSome (MatchLabels (NodeLabelSelector sel))
              || isSome (MatchExpressions (NodeLabelSelector sel))) eqn:EL.
    + destruct (Names sel) as [names|] eqn:EN.
      * right. eexists. split; [reflexivity|]. split; [reflexivity|]. cbn. tauto.
      * destruct (LabelSelectorAsSelector (NodeLabelSelector sel)) as [err|] eqn:ELS.
        -- right. eexists. split; [reflexivity|]. split; [reflexivity|].
           cbn. tauto.
        -- destruct (PodSelector s) as [podSel|] eqn:EP.
           ++ right. eexists. split; [reflexivity|]. split; [reflexivity|].
              cbn. tauto.
           ++ left. split; [|exact I]. split; [now right | discriminate].
    + apply Hlabels in EL.
      destruct (Names sel) as [names|] eqn:EN.
      * destruct (length (nodup string_dec names) =? length names)%nat eqn:ELen.
        -- destruct (PodSelector s) as [podSel|] eqn:EP.
           ++ right. eexists. split; [reflexivity|]. split; [reflexivity|].
              cbn. tauto.
           ++ left. split; [|exact I]. split; [now left|].
              intros names' [= <-]. apply nodup_length_NoDup.
              now apply Nat.eqb_eq.
        -- right. eexists. split; [reflexivity|]. split; [reflexivity|].
           cbn. tauto.
      * destruct (PodSelector s) as [podSel|] eqn:EP.
        -- right. eexists. split; [reflexivity|]. split; [reflexivity|].
           cbn. tauto.
        -- left. split; [|exact I]. split; [now left | discriminate].
  - destruct (PodSelector s) as [podSel|] eqn:EP.
    + destruct (LabelSelectorAsSelector (PodLabelSelector podSel)) as [err|] eqn:ELS.
      * right. eexists. split; [reflexivity|]. split; [reflexivity|]. cbn. tauto.
      * left. split; [exact I | now split].
    + left. split; exact I.
Qed.

Lemma atPath_true (q : Path) (e : Error) : atPath q e = true <-> Field e = q.
Proof.
  unfold atPath. destruct (list_eq_dec string_dec (Field e) q); split;
    intros; try discriminate; tauto.
Qed.

Lemma errorsAt_other (q : Path) (e : Error) :
  Field e <> q -> errorsAt q [e] = [].
Proof.
  intros H. unfold errorsAt. simpl.
  destruct (atPath q e) eqn:E; [|reflexivity].
  apply atPath_true in E. contradiction.
Qed.

Lemma errorsAt_none (q : Path) (errs : ErrorList) :
  (forall e, In e errs -> Field e <> q) -> errorsAt q errs = [].
Proof.
  intros H. induction errs as [|e errs IH]; [reflexivity|].
  unfold errorsAt in *. simpl.
  destruct (atPath q e) eqn:E.
  - apply atPath_true in E. elim (H e (or_introl eq_refl) E).
  - apply IH. intros e' He'. apply H. now right.
Qed.

Lemma errorsAt_length (q : Path) (errs : ErrorList) :
  (length (errorsAt q errs) <= length errs)%nat.
Proof.
  unfold errorsAt. induction errs as [|e errs IH]; simpl; [lia|].
  destruct (atPath q e); simpl; lia.
Qed.

(** Paths that fork below a common prefix are different. *)
Ltac fork :=
  let H := fresh in
  intros H;
  cbv [emptyImagesError tooManyImagesError duplicateImagesError
       invalidImageError invalidTypeError deadlineBoundError
       deadlineTimeoutError ttlBoundError Invalid Field
       imagesPath deadlinePath ttlPath policyTypePath Child] in H;
  repeat rewrite <- app_assoc in H;
  apply app_inv_head in H; discriminate H.

Lemma selectorPaths_apart (p q : Path) :
  In q (selectorPaths p) ->
  q <> imagesPath p /\ q <> deadlinePath p /\ q <> ttlPath p
  /\ q <> policyTypePath p.
Proof.
  unfold selectorPaths.
  intros [<- | [<- | [<- | [<- | [<- | []]]]]]; repeat split; fork.
Qed.

Lemma completionPolicyErrors_shape (s : ImageListPullJobSpec) (p : Path) :
  (length (completionPolicyErrors s p) <= 1)%nat
  /\ forall e, In e (completionPolicyErrors s p) ->
       Type_ e = ErrorTypeInvalid
       /\ (Field e = policyTypePath p \/ Field e = deadlinePath p
           \/ Field e = ttlPath p).
Proof.
  unfold completionPolicyErrors, ttlErrors.
  repeat match goal with
         | |- context [if ?b then _ else _] => destruct b
         | |- context [match ?x with Some _ => _ | None => _ end] => destruct x
         end;
    (split; [simpl; lia | intros e [<- | []]; split; [reflexivity | tauto]])
    || (split; [simpl; lia | intros e []]).
Qed.

Lemma imageListError_shape (images : list string) (p : Path) (e : Error) :
  imageListError images p = Some e ->
  Type_ e = ErrorTypeInvalid /\ Field e = imagesPath p.
Proof.
  unfold imageListError. destruct images as [|image rest].
  - intros [= <-]. now split.
  - destruct (255 <? length (image :: rest))%nat; [intros [= <-]; now split|].
    destruct (NoDup_dec string_dec (image :: rest)); [|intros [= <-]; now split].
    destruct (find _ _); [intros [= <-]; now split | discriminate].
Qed.

Lemma imageListError_accepted (s : ImageListPullJobSpec) (p : Path) :
  imagesAccepted s -> imageListError (Images s) p = None.
Proof.
  intros [[Hlo Hhi] [Hnd Hall]]. unfold imageListError.
  destruct (Images s) as [|image rest] eqn:E; [simpl in Hlo; lia|].
  destruct (Nat.ltb_spec 255 (length (image :: rest))); [lia|].
  destruct (NoDup_dec string_dec (image :: rest)) as [_|Hn]; [|contradiction].
  now rewrite find_all_valid.
Qed.

(** With accepted selectors and an accepted image list the validator
    reports what the completion-policy checks report. *)
Lemma validate_accepted (t : ImageListPullJobTemplateSpec) (p : Path) :
  selectorsAccepted (JobSpec t) -> imagesAccepted (JobSpec t) ->
  validateImageListPullJobTemplateSpec t p = completionPolicyErrors (JobSpec t) p.
Proof.
  intros Hsel Himg. rewrite validate_selectors_accepted by assumption.
  now rewrite imageListError_accepted.
Qed.

(** The validator reports at most one error, always an invalid value. *)
Lemma validate_shape (t : ImageListPullJobTemplateSpec) (p : Path) :
  (length (validateImageListPullJobTemplateSpec t p) <= 1)%nat
  /\ forall e, In e (validateImageListPullJobTemplateSpec t p) ->
       Type_ e = ErrorTypeInvalid.
Proof.
  destruct (selector_stage t p) as [Hsel | [e [-> [Hty _]]]].
  - rewrite validate_selectors_accepted by assumption.
    destruct (imageListError (Images (JobSpec t)) p) as [e|] eqn:E.
    + split; [simpl; lia|]. intros e' [<- | []].
      now apply imageListError_shape in E.
    + destruct (completionPolicyErrors_shape (JobSpec t) p) as [Hlen Hall].
      split; [assumption|]. intros e He. now apply Hall.
  - split; [simpl; lia|]. now intros e' [<- | []].
Qed.

(** An accepted image list leaves no error at the image path, whatever
    the rest of the spec. *)
Lemma accepted_images_no_error (t : ImageListPullJobTemplateSpec) (p : Path) :
  imagesAccepted (JobSpec t) ->
  errorsAt (imagesPath p) (validateImageListPullJobTemplateSpec t p) = [].
Proof.
  intros Himg.
  destruct (selector_stage t p) as [Hsel | [e [-> [_ Hpath]]]].
  - rewrite validate_accepted by assumption.
    apply errorsAt_none. intros e He.
    apply completionPolicyErrors_shape in He. destruct He as [_ [-> | [-> | ->]]];
      fork.
  - apply errorsAt_other. now apply selectorPaths_apart in Hpath.
Qed.

(** C6 (amended). Whatever the spec, the validator reports at most one
    error at the image path, and none for a duplicate-free, normalizable
    list of 1 to 255 entries. For a spec whose selector and pod selector
    pass their checks the image-list tiers are decided in the order empty,
    more than 255 entries, repeated entry, entry that does not normalize,
    and the validator returns exactly the one error of the first violated
    tier: later tiers (and the completion policy) add nothing. *)
Theorem image_list_tiers (t : ImageListPullJobTemplateSpec) (p : Path) :
  let images := Images (JobSpec t) in
  let result := validateImageListPullJobTemplateSpec t p in
  (length (errorsAt (imagesPath p) result) <= 1)%nat
  /\ (imagesAccepted (JobSpec t) -> errorsAt (imagesPath p) result = [])
  /\ (selectorsAccepted (JobSpec t) ->
        (images = [] -> result = [emptyImagesError p images])
        /\ ((255 < length images)%nat -> result = [tooManyImagesError p images])
        /\ ((1 <= length images <= 255)%nat -> ~ NoDup images ->
            result = [duplicateImagesError p images])
        /\ ((1 <= length images <= 255)%nat -> NoDup images ->
            forall pre image post err,
              images = pre ++ image :: post ->
              (forall x, In x pre -> NormalizeImageRef x = None) ->
              NormalizeImageRef image = Some err ->
              result = [invalidImageError p images image err])).
Proof.
  intros images result. split; [|split].
  - pose proof (errorsAt_length (imagesPath p) result).
    pose proof (proj1 (validate_shape t p)). subst result. lia.
  - apply accepted_images_no_error.
  - intros Hsel. subst result images.
    rewrite validate_selectors_accepted by assumption.
    unfold imageListError.
    destruct (Images (JobSpec t)) as [|image rest] eqn:E.
    + repeat split; try reflexivity; simpl; intros; lia.
    + repeat split.
      * discriminate.
      * intros Hlen. apply Nat.ltb_lt in Hlen. now rewrite Hlen.
      * intros [_ Hhi] Hdup.
        destruct (Nat.ltb_spec 255 (length (image :: rest))); [lia|].
        destruct (NoDup_dec string_dec (image :: rest)); [contradiction|].
        reflexivity.
      * intros [_ Hhi] Hnd pre bad post err Hsplit Hpre Hbad.
        destruct (Nat.ltb_spec 255 (length (image :: rest))); [lia|].
        destruct (NoDup_dec string_dec (image :: rest)); [|contradiction].
        rewrite Hsplit. erewrite find_first_invalid by eassumption.
        now rewrite Hbad.
Qed.

(** C8 (amended). A spec that passes the selector and image-list checks
    and whose completion-policy type is not Always is answered with
    exactly the invalid-type error at [completionPolicy.type], so no other
    completion-policy check contributes; with type Always such a spec is
    answered with the bound error when activeDeadlineSeconds exceeds
    86400. Whatever the spec, with type Always a deadline above 86400 or a
    ttlSecondsAfterFinished above 259200 makes the validator report an
    error, and a deadline or ttl that is unset or within its bound is
    never answered with its bound error. *)
Theorem completion_policy_checks (t : ImageListPullJobTemplateSpec) (p : Path) :
  let s := JobSpec t in
  let policy := CompletionPolicy_ s in
  let result := validateImageListPullJobTemplateSpec t p in
  (selectorsAccepted s -> imagesAccepted s ->
     (PolicyType policy <> Always ->
      result = [invalidTypeError p (PolicyType policy)])
     /\ (forall d, PolicyType policy = Always ->
           ActiveDeadlineSeconds policy = Some d -> 86400 < d ->
           result = [deadlineBoundError p d]))
  /\ (PolicyType policy = Always ->
      (forall d, ActiveDeadlineSeconds policy = Some d -> 86400 < d ->
         result <> [])
      /\ (forall ttl, TTLSecondsAfterFinished policy = Some ttl -> 259200 < ttl ->
            result <> []))
  /\ ((ActiveDeadlineSeconds policy = None
       \/ exists d, ActiveDeadlineSeconds policy = Some d /\ d <= 86400) ->
      forall d', ~ In (deadlineBoundError p d') result)
  /\ ((TTLSecondsAfterFinished policy = None
       \/ exists ttl, TTLSecondsAfterFinished policy = Some ttl /\ ttl <= 259200) ->
      forall ttl', ~ In (ttlBoundError p ttl') result).
Proof.
  intros s policy result.
  assert (Hcases :
    (exists e, result = [e] /\ Field e <> deadlinePath p /\ Field e <> ttlPath p)
    \/ result = completionPolicyErrors s p).
  { subst result s.
    destruct (selector_stage t p) as [Hsel | [e [-> [_ Hpath]]]].
    - rewrite validate_selectors_accepted by assumption.
      destruct (imageListError (Images (JobSpec t)) p) as [e|] eqn:E;
        [|now right].
      left. exists e. split; [reflexivity|].
      apply imageListError_shape in E. destruct E as [_ ->]. split; fork.
    - left. exists e. split; [reflexivity|].
      apply selectorPaths_apart in Hpath. tauto. }
  split; [|split; [|split]].
  - intros Hsel Himg. subst result. rewrite validate_accepted by assumption.
    unfold completionPolicyErrors. fold s. fold policy. split.
    + intros Hty. apply String.eqb_neq in Hty. now rewrite Hty.
    + intros d Hty Hd Hbound. rewrite Hty, Hd. cbn [String.eqb negb].
      rewrite String.eqb_refl. cbn [negb].
      apply Z.ltb_lt in Hbound. now rewrite Hbound.
  - intros Hty. split.
    + intros d Hd Hbound. destruct Hcases as [[e [-> _]] | ->]; [discriminate|].
      unfold completionPolicyErrors. fold policy. rewrite Hty, Hd, String.eqb_refl.
      cbn [negb]. apply Z.ltb_lt in Hbound. rewrite Hbound. discriminate.
    + intros ttl Httl Hbound. destruct Hcases as [[e [-> _]] | ->]; [discriminate|].
      unfold completionPolicyErrors, ttlErrors. fold policy.
      rewrite Hty, Httl, String.eqb_refl. cbn [negb].
      apply Z.ltb_lt in Hbound. rewrite Hbound.
      destruct (ActiveDeadlineSeconds policy) as [d|];
        [destruct (86400 <? d)%Z; [discriminate|];
         destruct (timeoutOf s) as [tm|];
         [destruct (d <? tm)%Z|]|]; discriminate.
  - intros Hd d' Hin. destruct Hcases as [[e [He [Hpath _]]] | Hc].
    + rewrite He in Hin. destruct Hin as [Heq | []]. apply Hpath.
      now rewrite Heq.
    + rewrite Hc in Hin. unfold completionPolicyErrors, ttlErrors in Hin.
      fold policy in Hin.
      destruct (negb (PolicyType policy =? Always)%string).
      { destruct Hin as [Hin | []]. discriminate Hin. }
      destruct Hd as [Hd | [d [Hd Hle]]]; rewrite Hd in Hin.
      * destruct (TTLSecondsAfterFinished policy) as [ttl|];
          [destruct (259200 <? ttl)%Z|]; simpl in Hin;
          try tauto. destruct Hin as [Hin | []]. discriminate Hin.
      * destruct (Z.ltb_spec 86400 d); [lia|].
        destruct (timeoutOf s) as [tm|]; [destruct (d <? tm)%Z|];
          try (destruct Hin as [Hin | []]; discriminate Hin);
          (destruct (TTLSecondsAfterFinished policy) as [ttl|];
           [destruct (259200 <? ttl)%Z|]; simpl in Hin;
           try tauto; destruct Hin as [Hin | []]; discriminate Hin).
  - intros Httl ttl' Hin. destruct Hcases as [[e [He [_ Hpath]]] | Hc].
    + rewrite He in Hin. destruct Hin as [Heq | []]. apply Hpath.
      now rewrite Heq.
    + rewrite Hc in Hin. unfold completionPolicyErrors, ttlErrors in Hin.
      fold policy in Hin.
      assert (Hnone :
        ~ In (ttlBoundError p ttl')
            match TTLSecondsAfterFinished policy with
            | Some ttl => if (259200 <? ttl)%Z then [ttlBoundError p ttl] else []
            | None => []
            end).
      { destruct Httl as [-> | [ttl [-> Hle]]]; [tauto|].
        destruct (Z.ltb_spec 259200 ttl); [lia | tauto]. }
      destruct (negb (PolicyType policy =? Always)%string).
      { destruct Hin as [Hin | []]. discriminate Hin. }
      destruct (ActiveDeadlineSeconds policy) as [d|]; [|contradiction].
      destruct (86400 <? d)%Z.
      { destruct Hin as [Hin | []]. discriminate Hin. }
      destruct (timeoutOf s) as [tm|]; [destruct (d <? tm)%Z|];
        try contradiction.
      destruct Hin as [Hin | []]. discriminate Hin.
Qed.

(** C2 (amended). Take a spec with completion-policy type Always whose
    activeDeadlineSeconds [d] and pullPolicy.timeoutSeconds [tm] are both
    set. When [d] is within its bound of 86400 and strictly greater than
    [tm], no error is reported at completionPolicy.activeDeadlineSeconds.
    When the spec passes the selector and image-list checks, [d] above
    86400 is answered at that path by the bound error whatever [tm] is,
    and [d] within the bound and strictly less than [tm] is answered at
    that path by the error naming the timeout. *)
Theorem deadline_versus_timeout
    (t : ImageListPullJobTemplateSpec) (p : Path) (d tm : Z) :
  let s := JobSpec t in
  let result := validateImageListPullJobTemplateSpec t p in
  PolicyType (CompletionPolicy_ s) = Always ->
  ActiveDeadlineSeconds (CompletionPolicy_ s) = Some d ->
  timeoutOf s = Some tm ->
  (tm < d -> d <= 86400 -> errorsAt (deadlinePath p) result = [])
  /\ (selectorsAccepted s -> imagesAccepted s ->
      (86400 < d -> result = [deadlineBoundError p d])
      /\ (d <= 86400 -> d < tm -> result = [deadlineTimeoutError p d tm])).
Proof.
  intros s result Hty Hd Htm.
  assert (Hpolicy :
    completionPolicyErrors s p =
    if (86400 <? d)%Z then [deadlineBoundError p d]
    else if (d <? tm)%Z then [deadlineTimeoutError p d tm]
         else ttlErrors s p).
  { unfold completionPolicyErrors. now rewrite Hty, Hd, Htm, String.eqb_refl. }
  split.
  - intros Hgt Hle. subst result s.
    destruct (selector_stage t p) as [Hsel | [e [-> [_ Hpath]]]].
    + rewrite validate_selectors_accepted by assumption.
      destruct (imageListError (Images (JobSpec t)) p) as [e|] eqn:E.
      * apply errorsAt_other. apply imageListError_shape in E.
        destruct E as [_ ->]. fork.
      * rewrite Hpolicy.
        destruct (Z.ltb_spec 86400 d); [lia|].
        destruct (Z.ltb_spec d tm); [lia|].
        apply errorsAt_none. unfold ttlErrors. intros e He.
        destruct (TTLSecondsAfterFinished (CompletionPolicy_ (JobSpec t)))
          as [ttl|]; [destruct (259200 <? ttl)%Z|]; simpl in He; try tauto.
        destruct He as [<- | []]. fork.
    + apply errorsAt_other. now apply selectorPaths_apart in Hpath.
  - intros Hsel Himg. subst result s.
    rewrite validate_accepted by assumption.
    rewrite Hpolicy. split.
    + intros Hb. apply Z.ltb_lt in Hb. now rewrite Hb.
    + intros Hle Hlt. destruct (Z.ltb_spec 86400 d); [lia|].
      apply Z.ltb_lt in Hlt. now rewrite Hlt.
Qed.

End ImagePullProperties.

(** ** The time zone validator and the schedule formatter *)

Section TimeZoneProperties.
Context {T : ApiTypes} {C : Collaborators}.

(** Folding compares the strings with their capitals made small. *)
Lemma EqualFold_ToLower (s t : string) :
  EqualFold s t = true <-> ToLower s = ToLower t.
Proof.
  revert t. induction s as [|a s IH]; intros [|b t]; simpl;
    try (split; [reflexivity | reflexivity]);
    try (split; discriminate).
  rewrite andb_true_iff, IH, Ascii.eqb_eq. split.
  - intros [-> ->]. reflexivity.
  - intros [= -> ->]. now split.
Qed.

Lemma EqualFold_nonempty (tz : string) :
  EqualFold tz "Local" = true -> (String.length tz =? 0)%nat = false.
Proof. destruct tz; [discriminate | reflexivity]. Qed.

(** C3 (amended). For a time zone that equals "Local" up to the case of
    its letters, [validateTimeZone] reports the explicit-time-zone error
    first and then the loader's error if the zone database does not load
    that spelling: it is exactly one error when the spelling loads and two
    errors when it does not. *)
Theorem validateTimeZone_Local_spellings (tz : string) (p : Path) :
  ToLower tz = "local"%string ->
  validateTimeZone (Some tz) p
    = Invalid p (VStr tz) explicitZoneMsg
      :: match LoadLocation tz with
         | Some msg => [Invalid p (VStr tz) msg]
         | None => []
         end
  /\ (length (validateTimeZone (Some tz) p) = 1%nat <-> LoadLocation tz = None)
  /\ (length (validateTimeZone (Some tz) p) = 2%nat <-> LoadLocation tz <> None).
Proof.
  intros Hlower.
  assert (Hfold : EqualFold tz "Local" = true) by now apply EqualFold_ToLower.
  unfold validateTimeZone.
  rewrite (EqualFold_nonempty _ Hfold), Hfold.
  destruct (LoadLocation tz) as [msg|]; cbn [app length]; repeat split;
    try reflexivity; try discriminate; try congruence.
Qed.

(** C9. [formatSchedule] returns the schedule unchanged when "TZ" already
    occurs in it or when no time zone is set; with a time zone set and no
    "TZ" in the schedule it returns "TZ=<zone> <schedule>" if the zone
    loads and the unchanged schedule if loading fails. *)
Theorem formatSchedule_cases (acj : AdvancedCronJob) :
  let schedule := Schedule (Spec acj) in
  (hasSubstring schedule "TZ" -> formatSchedule acj = schedule)
  /\ (TimeZone (Spec acj) = None -> formatSchedule acj = schedule)
  /\ (forall tz, ~ hasSubstring schedule "TZ" -> TimeZone (Spec acj) = Some tz ->
        (LoadLocation tz = None ->
         formatSchedule acj = ("TZ=" ++ tz ++ " " ++ schedule)%string)
        /\ (LoadLocation tz <> None -> formatSchedule acj = schedule)).
Proof.
  intros schedule. subst schedule. unfold formatSchedule. split; [|split].
  - intros Htz. apply Contains_spec in Htz. now rewrite Htz.
  - intros ->. now destruct (Contains (Schedule (Spec acj)) "TZ").
  - intros tz Htz Hzone. apply Contains_false in Htz. rewrite Htz, Hzone. split.
    + intros ->. reflexivity.
    + intros Hload. destruct (LoadLocation tz); [reflexivity | now elim Hload].
Qed.

End TimeZoneProperties.

(** ** The template validator *)

Section TemplateProperties.
Context {T : ApiTypes} {C : Collaborators}.

Lemma validateJobTemplateSpec_errors (jobSpec : JobTemplateSpec) (p : Path) e :
  In e (validateJobTemplateSpec jobSpec p) ->
  Type_ e = ErrorTypeInvalid \/ exists ct q, In e (ValidatePodTemplateSpec ct q).
Proof.
  unfold validateJobTemplateSpec, convertPodTemplateSpec.
  destruct (Convert_v1_PodTemplateSpec_To_core_PodTemplateSpec _) as [ct [err|]];
    cbn [app].
  - intros [<- | []]. now left.
  - intros He. right. eauto.
Qed.

Lemma validateBroadcastJobTemplateSpec_errors
    (brJobSpec : BroadcastJobTemplateSpec) (p : Path) e :
  In e (validateBroadcastJobTemplateSpec brJobSpec p) ->
  Type_ e = ErrorTypeInvalid \/ exists ct q, In e (ValidatePodTemplateSpec ct q).
Proof.
  unfold validateBroadcastJobTemplateSpec, convertPodTemplateSpec.
  destruct (Convert_v1_PodTemplateSpec_To_core_PodTemplateSpec _) as [ct [err|]];
    cbn [app].
  - intros [<- | []]. now left.
  - intros He. right. eauto.
Qed.

Lemma validateAdvancedCronJobSpecTemplate_eq spec p :
  validateAdvancedCronJobSpecTemplate spec p =
  perKindErrors spec p ++
  match populated (Template spec) with
  | O => [Forbidden (Child p "template") mustHaveOneMsg]
  | S O => []
  | _ => [Forbidden (Child p "template") onlyOneMsg]
  end.
Proof.
  unfold validateAdvancedCronJobSpecTemplate, perKindErrors, populated.
  destruct (JobTemplate (Template spec)) as [jt|];
    destruct (BroadcastJobTemplate (Template spec)) as [bt|];
    destruct (ImageListPullJobTemplate (Template spec)) as [it|];
    cbn [isSome Nat.add app Z.add Z.eqb Z.gtb Z.compare Pos.add Pos.succ
         Pos.compare Pos.compare_cont];
    rewrite ?app_nil_r, ?app_assoc; try reflexivity;
    destruct ((ConcurrencyPolicy spec =? ReplaceConcurrent)%string
              || (ConcurrencyPolicy spec =? ForbidConcurrent)%string);
    cbn [app]; rewrite ?app_nil_r, ?app_assoc; reflexivity.
Qed.

(** C5. [validateAdvancedCronJobSpecTemplate] reports the errors of the
    per-kind validations of the populated variants, followed by a verdict
    that depends on the number of populated variants alone: with none the
    forbidden error asking for one template, with two or three the
    forbidden error allowing only one, with exactly one nothing. Whatever
    the per-kind validations report is kept in front of the verdict, and
    none of it is a forbidden error unless the pod-template validator of
    Kubernetes itself returned it. *)
Theorem template_exclusivity (spec : AdvancedCronJobSpec) (p : Path) :
  let n := populated (Template spec) in
  let result := validateAdvancedCronJobSpecTemplate spec p in
  (n = 0%nat -> result = [Forbidden (Child p "template") mustHaveOneMsg])
  /\ ((2 <= n)%nat ->
      result = perKindErrors spec p ++ [Forbidden (Child p "template") onlyOneMsg])
  /\ (n = 1%nat -> result = perKindErrors spec p)
  /\ (forall e, In e (perKindErrors spec p) ->
        Type_ e = ErrorTypeInvalid
        \/ exists ct q, In e (ValidatePodTemplateSpec ct q)).
Proof.
  intros n result. subst result. rewrite validateAdvancedCronJobSpecTemplate_eq.
  fold n. repeat split.
  - intros Hn. rewrite Hn.
    assert (Hnone : perKindErrors spec p = []).
    { unfold perKindErrors. subst n. unfold populated in Hn.
      destruct (JobTemplate (Template spec));
        destruct (BroadcastJobTemplate (Template spec));
        destruct (ImageListPullJobTemplate (Template spec));
        cbn in Hn; try discriminate. reflexivity. }
    now rewrite Hnone.
  - intros Hn. destruct n as [|[|n]]; [lia | lia | reflexivity].
  - intros ->. now rewrite app_nil_r.
  - intros e He. unfold perKindErrors in He.
    apply in_app_or in He. destruct He as [He | He].
    { destruct (JobTemplate (Template spec)) as [jt|]; [|destruct He].
      eapply validateJobTemplateSpec_errors; eassumption. }
    apply in_app_or in He. destruct He as [He | He].
    { destruct (BroadcastJobTemplate (Template spec)) as [bt|]; [|destruct He].
      eapply validateBroadcastJobTemplateSpec_errors; eassumption. }
    destruct (ImageListPullJobTemplate (Template spec)) as [it|]; [|destruct He].
    apply in_app_or in He. destruct He as [He | He].
    + destruct ((ConcurrencyPolicy spec =? ReplaceConcurrent)%string
                || (ConcurrencyPolicy spec =? ForbidConcurrent)%string);
        [destruct He|]. destruct He as [<- | []]. now left.
    + left. eapply validate_shape; eassumption.
Qed.

End TemplateProperties.

(** ** The update guard *)

Section UpdateProperties.
Context {T : ApiTypes} {C : Collaborators}.

Lemma DeepEqual_ptr_refl {A : Type} (eq : A -> A -> bool) (a : option A) :
  (forall x, eq x x = true) -> DeepEqual_ptr eq a a = true.
Proof. intros H. destruct a; simpl; auto. Qed.

(** The comparison of the patched clone with the old spec comes down to
    the three templates, the image-list pull-job template being the old
    one whenever the old object has one. *)
Lemma guard_comparison (new old : AdvancedCronJobSpec) :
  (forall x, DeepEqual_ImageListPullJobTemplateSpec x x = true) ->
  let patched :=
    setTimeZone (TimeZone old)
      (setPaused (Paused old)
         (setStartingDeadlineSeconds (StartingDeadlineSeconds old)
            (setFailedJobsHistoryLimit (FailedJobsHistoryLimit old)
               (setSuccessfulJobsHistoryLimit (SuccessfulJobsHistoryLimit old)
                  (setConcurrencyPolicy (ConcurrencyPolicy old)
                     (setSchedule (Schedule old) new)))))) in
  DeepEqual_AdvancedCronJobSpec
    (if isSome (ImageListPullJobTemplate (Template old))
     then setImageListPullJobTemplate (ImageListPullJobTemplate (Template old))
            patched
     else patched) old = true
  <-> differsOnlyInMutableFields new old.
Proof.
  intros Hrefl patched. unfold differsOnlyInMutableFields.
  assert (Hfields : forall s,
    Schedule s = Schedule old -> TimeZone s = TimeZone old ->
    StartingDeadlineSeconds s = StartingDeadlineSeconds old ->
    ConcurrencyPolicy s = ConcurrencyPolicy old -> Paused s = Paused old ->
    SuccessfulJobsHistoryLimit s = SuccessfulJobsHistoryLimit old ->
    FailedJobsHistoryLimit s = FailedJobsHistoryLimit old ->
    DeepEqual_AdvancedCronJobSpec s old
    = DeepEqual_CronJobTemplate (Template s) (Template old)).
  { intros s H1 H2 H3 H4 H5 H6 H7. unfold DeepEqual_AdvancedCronJobSpec.
    rewrite H1, H2, H3, H4, H5, H6, H7, !String.eqb_refl.
    rewrite !DeepEqual_ptr_refl
      by auto using String.eqb_refl, Z.eqb_refl, Bool.eqb_reflx.
    reflexivity. }
  destruct (ImageListPullJobTemplate (Template old)) as [oldIlp|] eqn:Eold;
    cbn [isSome]; rewrite Hfields by reflexivity;
    unfold DeepEqual_CronJobTemplate; cbn [patched Template
      setImageListPullJobTemplate setTimeZone setPaused
      setStartingDeadlineSeconds setFailedJobsHistoryLimit
      setSuccessfulJobsHistoryLimit setConcurrencyPolicy setSchedule
      JobTemplate BroadcastJobTemplate ImageListPullJobTemplate];
    rewrite ?Eold, !andb_true_iff.
  - cbn [DeepEqual_ptr]. rewrite Hrefl. split.
    + intros [[H1 H2] _]. repeat split; [assumption | assumption | discriminate].
    + intros [H1 [H2 _]]. now repeat split.
  - split.
    + intros [[H1 H2] H3]. repeat split; try assumption.
      intros _. destruct (ImageListPullJobTemplate (Template new));
        [discriminate | reflexivity].
    + intros [H1 [H2 H3]]. repeat split; try assumption.
      now rewrite (H3 eq_refl).
Qed.

Lemma differsOnlyInMutableFields_dec (new old : AdvancedCronJobSpec) :
  differsOnlyInMutableFields new old \/ ~ differsOnlyInMutableFields new old.
Proof.
  unfold differsOnlyInMutableFields.
  destruct (DeepEqual_ptr DeepEqual_JobTemplateSpec _ _);
    destruct (DeepEqual_ptr DeepEqual_BroadcastJobTemplateSpec _ _);
    destruct (ImageListPullJobTemplate (Template old));
    destruct (ImageListPullJobTemplate (Template new));
    try (left; repeat split; congruence);
    right; intros [H1 [H2 H3]]; try discriminate; specialize (H3 eq_refl);
    discriminate.
Qed.

(** C1. Semantic.DeepEqual being reflexive on image-list pull-job
    templates, [validateAdvancedCronJobUpdate] returns the errors of the
    metadata update check and of the spec validation of the new object,
    and after them nothing exactly when the new spec differs from the old
    one at most in schedule, concurrencyPolicy, successfulJobsHistoryLimit,
    failedJobsHistoryLimit, startingDeadlineSeconds, paused, timeZone and,
    provided the old object has one, imageListPullJobTemplate; otherwise
    exactly one forbidden error at [spec] that names the mutable fields.
    So a new spec that is the old one with another value of paused adds no
    forbidden error (equality being reflexive on the other templates
    too), and a new job template that is not semantically equal to the old
    one, as with another container image, adds it. *)
Theorem update_guard (obj oldObj : AdvancedCronJob) :
  (forall x, DeepEqual_ImageListPullJobTemplateSpec x x = true) ->
  exists specErrs,
    validateAdvancedCronJobSpec (Spec obj) (NewPath "spec") = Normal specErrs
    /\ let checked :=
         ValidateObjectMetaUpdate (Meta obj) (Meta oldObj) (NewPath "metadata")
         ++ specErrs in
       let result := validateAdvancedCronJobUpdate obj oldObj in
       (differsOnlyInMutableFields (Spec obj) (Spec oldObj)
        <-> result = Normal checked)
       /\ (~ differsOnlyInMutableFields (Spec obj) (Spec oldObj)
           <-> result = Normal (checked ++ [forbiddenFieldsError]))
       /\ ((forall x, DeepEqual_JobTemplateSpec x x = true) ->
           (forall x, DeepEqual_BroadcastJobTemplateSpec x x = true) ->
           forall v, Spec obj = setPaused v (Spec oldObj) ->
           result = Normal checked)
       /\ (forall jt jt',
             JobTemplate (Template (Spec oldObj)) = Some jt ->
             JobTemplate (Template (Spec obj)) = Some jt' ->
             DeepEqual_JobTemplateSpec jt' jt = false ->
             result = Normal (checked ++ [forbiddenFieldsError])).
Proof.
  intros Hrefl.
  destruct (validateAdvancedCronJobSpec_total (Spec obj) (NewPath "spec"))
    as [specErrs Hspec].
  exists specErrs. split; [assumption|]. intros checked result.
  pose proof (guard_comparison (Spec obj) (Spec oldObj) Hrefl) as Hguard.
  cbv zeta in Hguard.
  assert (Hresult :
    result = Normal (checked ++
      if DeepEqual_AdvancedCronJobSpec
           (if isSome (ImageListPullJobTemplate (Template (Spec oldObj)))
            then setImageListPullJobTemplate
                   (ImageListPullJobTemplate (Template (Spec oldObj)))
                   (setTimeZone (TimeZone (Spec oldObj))
                      (setPaused (Paused (Spec oldObj))
                         (setStartingDeadlineSeconds
                            (StartingDeadlineSeconds (Spec oldObj))
                            (setFailedJobsHistoryLimit
                               (FailedJobsHistoryLimit (Spec oldObj))
                               (setSuccessfulJobsHistoryLimit
                                  (SuccessfulJobsHistoryLimit (Spec oldObj))
                                  (setConcurrencyPolicy
                                     (ConcurrencyPolicy (Spec oldObj))
                                     (setSchedule (Schedule (Spec oldObj))
                                        (Spec obj))))))))
            else setTimeZone (TimeZone (Spec oldObj))
                   (setPaused (Paused (Spec oldObj))
                      (setStartingDeadlineSeconds
                         (StartingDeadlineSeconds (Spec oldObj))
                         (setFailedJobsHistoryLimit
                            (FailedJobsHistoryLimit (Spec oldObj))
                            (setSuccessfulJobsHistoryLimit
                               (SuccessfulJobsHistoryLimit (Spec oldObj))
                               (setConcurrencyPolicy
                                  (ConcurrencyPolicy (Spec oldObj))
                                  (setSchedule (Schedule (Spec oldObj))
                                     (Spec obj)))))))) (Spec oldObj)
      then [] else [forbiddenFieldsError])).
  { subst result checked. unfold validateAdvancedCronJobUpdate.
    rewrite Hspec. cbn [bind]. unfold DeepCopy, updSpec. cbn [Spec Meta].
    destruct (isSome (ImageListPullJobTemplate (Template (Spec oldObj))));
      cbn [Spec];
      match goal with
      | |- context [negb ?b] => destruct b
      end; cbn [negb]; now rewrite ?app_nil_r. }
  assert (Hyes : differsOnlyInMutableFields (Spec obj) (Spec oldObj) ->
                 result = Normal checked).
  { intros Hd. apply Hguard in Hd. rewrite Hresult, Hd. now rewrite app_nil_r. }
  assert (Hno : ~ differsOnlyInMutableFields (Spec obj) (Spec oldObj) ->
                result = Normal (checked ++ [forbiddenFieldsError])).
  { intros Hd. rewrite Hresult.
    match goal with
    | |- context [if ?b then _ else _] => destruct b eqn:E
    end; [|reflexivity].
    elim Hd. now apply Hguard. }
  assert (Hapart : Normal checked <> Normal (checked ++ [forbiddenFieldsError])).
  { intros [= Heq]. apply (f_equal (@length Error)) in Heq.
    rewrite length_app in Heq. simpl in Heq. lia. }
  split; [|split; [|split]].
  - split; [exact Hyes|]. intros Hr.
    destruct (differsOnlyInMutableFields_dec (Spec obj) (Spec oldObj)) as [Hd|Hd];
      [assumption|].
    apply Hno in Hd. rewrite Hr in Hd. now elim Hapart.
  - split; [exact Hno|]. intros Hr Hd.
    apply Hyes in Hd. rewrite Hr in Hd. now elim Hapart.
  - intros HJ HB v Hv. apply Hyes. rewrite Hv. unfold differsOnlyInMutableFields.
    cbn [setPaused Template]. repeat split.
    + now apply DeepEqual_ptr_refl.
    + now apply DeepEqual_ptr_refl.
    + auto.
  - intros jt jt' Hold Hnew Hneq. apply Hno. intros [H1 _].
    rewrite Hold, Hnew in H1. cbn in H1. congruence.
Qed.

End UpdateProperties.

(** ** Decoding *)

Section DecodeProperties.
Context {T : ApiTypes} {C : Collaborators} {h : Decoder}.

Lemma validateAdvancedCronJob_total (obj : AdvancedCronJob) :
  exists errs, validateAdvancedCronJob obj = Normal errs.
Proof.
  unfold validateAdvancedCronJob.
  destruct (validateAdvancedCronJobSpec_total (Spec obj) (NewPath "spec"))
    as [errs ->].
  cbn [bind]. eexists. reflexivity.
Qed.

(** C10. For a request whose declared resource version is neither v1beta1
    nor v1alpha1, [decodeAdvancedCronJob] returns a nil error and leaves the
    object as it was, whatever the decoder: nothing is decoded. The
    handler therefore goes on with the zero-valued object: a create
    request is answered with the outcome of validating that object, not
    with a bad-request error. [decodeAdvancedCronJobFromRaw], the path of
    the old object, fails the same version with "unsupported version",
    which is what an update request is answered with. *)
Theorem unknown_version_is_not_decoded (req : Request) (obj : AdvancedCronJob) :
  ResourceVersion req <> v1beta1_Version ->
  ResourceVersion req <> v1alpha1_Version ->
  decodeAdvancedCronJob req obj = (obj, None)
  /\ (forall raw,
        decodeAdvancedCronJobFromRaw raw (ResourceVersion req) obj
        = (obj, Some ("unsupported version: " ++ ResourceVersion req)%string))
  /\ (Operation req = Create ->
      exists errs,
        validateAdvancedCronJob zeroAdvancedCronJob = Normal errs
        /\ Handle req =
           Normal (if (0 <? length errs)%nat
                   then Errored StatusUnprocessableEntity (Aggregate errs)
                   else ValidationResponse true ""))
  /\ (Operation req = Update ->
      Handle req =
      Normal (Errored StatusBadRequest
                (PlainError ("unsupported version: " ++ ResourceVersion req)))).
Proof.
  intros Hbeta Halpha.
  apply String.eqb_neq in Hbeta. apply String.eqb_neq in Halpha.
  assert (Hdecode : forall o, decodeAdvancedCronJob req o = (o, None)).
  { intros o. unfold decodeAdvancedCronJob. now rewrite Hbeta, Halpha. }
  assert (Hraw : forall raw o,
    decodeAdvancedCronJobFromRaw raw (ResourceVersion req) o
    = (o, Some ("unsupported version: " ++ ResourceVersion req)%string)).
  { intros raw o. unfold decodeAdvancedCronJobFromRaw. now rewrite Hbeta, Halpha. }
  split; [apply Hdecode|]. split; [intros raw; apply Hraw|]. split.
  - intros Hop.
    destruct (validateAdvancedCronJob_total zeroAdvancedCronJob) as [errs Herrs].
    exists errs. split; [assumption|].
    unfold Handle. rewrite Hdecode, Hop, String.eqb_refl, Herrs. cbn [bind].
    now destruct (0 <? length errs)%nat.
  - intros Hop. unfold Handle. rewrite Hdecode, Hop, Hraw. reflexivity.
Qed.

End DecodeProperties.

(** * Further properties *)

(** ** The template kind *)

Section KindProperties.
Context {T : ApiTypes}.

(** X1. [FindTemplateKind] prefers the job template, then the image-list
    pull-job template, and answers BroadcastJobTemplate otherwise, also
    for a spec without any template. For a spec with exactly one
    template it names the populated one. *)
Theorem FindTemplateKind_names_populated (spec : AdvancedCronJobSpec) :
  let t := Template spec in
  (JobTemplate t <> None -> FindTemplateKind spec = JobTemplateKind)
  /\ (populated t = 0%nat -> FindTemplateKind spec = BroadcastJobTemplateKind)
  /\ (populated t = 1%nat ->
      (JobTemplate t <> None <-> FindTemplateKind spec = JobTemplateKind)
      /\ (ImageListPullJobTemplate t <> None
          <-> FindTemplateKind spec = ImageListPullJobTemplateKind)
      /\ (BroadcastJobTemplate t <> None
          <-> FindTemplateKind spec = BroadcastJobTemplateKind)).
Proof.
  intros t. subst t. unfold FindTemplateKind, populated.
  destruct (JobTemplate (Template spec));
    destruct (BroadcastJobTemplate (Template spec));
    destruct (ImageListPullJobTemplate (Template spec));
    cbn; repeat split; intros; try congruence; try discriminate; try lia.
Qed.

End KindProperties.

(** ** Object names *)

Lemma matchNameRegex_spec (name : string) :
  matchNameRegex name = true <-> name <> EmptyString /\ nameBytes name.
Proof.
  unfold nameBytes. induction name as [|c rest IH].
  - simpl. split; [discriminate | intros [H _]; now elim H].
  - destruct rest as [|c' rest'].
    + simpl. split.
      * intros Hc. split; [discriminate|]. now repeat constructor.
      * intros [_ H]. now inversion H.
    + change (matchNameRegex (String c (String c' rest')))
        with (nameByte c && matchNameRegex (String c' rest')).
      rewrite andb_true_iff, IH. split.
      * intros [Hc [_ Hrest]]. split; [discriminate|].
        simpl. constructor; assumption.
      * intros [_ H]. simpl in H. inversion H as [|x l Hc Hrest]; subst.
        split; [assumption|]. split; [discriminate | assumption].
Qed.

(** X2. [validateAdvancedCronJobName] accepts exactly the names that are
    not empty, consist of letters, digits and '-' and have at most 63
    bytes; it reports at most two messages (the pattern, then the
    length), and its second argument plays no part. *)
Theorem validateAdvancedCronJobName_accepts (name : string) (prefix : bool) :
  (validateAdvancedCronJobName name prefix = []
   <-> name <> EmptyString /\ nameBytes name /\ (String.length name <= 63)%nat)
  /\ (length (validateAdvancedCronJobName name prefix) <= 2)%nat
  /\ validateAdvancedCronJobName name prefix
     = validateAdvancedCronJobName name (negb prefix)
  /\ ((63 < String.length name)%nat ->
      In (MaxLenError 63) (validateAdvancedCronJobName name prefix)).
Proof.
  unfold validateAdvancedCronJobName, AdvancedCronJobNameMaxLen.
  pose proof (matchNameRegex_spec name) as Hre.
  destruct (matchNameRegex name) eqn:Hm;
    destruct (Z.gtb_spec (Z.of_nat (String.length name)) 63) as [Hlen|Hlen];
    cbn [negb app length].
  - split; [split|split; [lia | split; [reflexivity | intros _; now left]]].
    + discriminate.
    + intros [_ [_ H]]. lia.
  - split; [split|split; [lia | split; [reflexivity | intros H; lia]]].
    + intros _. destruct (proj1 Hre eq_refl) as [H1 H2].
      repeat split; [assumption | assumption | lia].
    + reflexivity.
  - split; [split|split; [lia | split; [reflexivity | intros _; right; now left]]].
    + discriminate.
    + intros [_ [_ H]]. lia.
  - split; [split|split; [lia | split; [reflexivity | intros H; lia]]].
    + discriminate.
    + intros [H1 [H2 _]].
      assert (Hc : false = true) by (apply Hre; now split). discriminate Hc.
Qed.

(** ** Time zone, schedule and formatter *)

Section ZoneProperties.
Context {T : ApiTypes} {C : Collaborators}.

Lemma validateTimeZone_nil_iff (timeZone : option string) (p : Path) :
  validateTimeZone timeZone p = []
  <-> timeZone = None
      \/ exists tz, timeZone = Some tz /\ tz <> EmptyString
                    /\ ToLower tz <> "local"%string /\ LoadLocation tz = None.
Proof.
  unfold validateTimeZone. destruct timeZone as [tz|].
  2:{ split; [now left | reflexivity]. }
  destruct tz as [|c tz].
  { cbn. split; [discriminate|].
    intros [H | [tz [[= <-] [H _]]]]; [discriminate | now elim H]. }
  cbn [String.length Nat.eqb].
  pose proof (EqualFold_ToLower (String c tz) "Local") as Hfold.
  change (ToLower "Local") with "local"%string in Hfold.
  destruct (EqualFold (String c tz) "Local") eqn:Ef;
    destruct (LoadLocation (String c tz)) as [msg|] eqn:Hload; cbn [app].
  - split; [discriminate|].
    intros [H | [tz' [[= <-] [_ [_ H]]]]]; congruence.
  - split; [discriminate|].
    intros [H | [tz' [[= <-] [_ [H _]]]]]; [discriminate|].
    elim H. now apply Hfold.
  - split; [discriminate|].
    intros [H | [tz' [[= <-] [_ [_ H]]]]]; congruence.
  - split; [|reflexivity]. intros _. right. exists (String c tz).
    repeat split; [discriminate | | assumption].
    intros H. apply Hfold in H. discriminate.
Qed.

Lemma validateAdvancedCronJobSpecSchedule_nil_iff
    (spec : AdvancedCronJobSpec) (p : Path) :
  validateAdvancedCronJobSpecSchedule spec p = Normal []
  <-> Schedule spec <> EmptyString
      /\ ParseStandard (Schedule spec) = Normal None
      /\ ~ (hasSubstring (Schedule spec) "TZ" /\ TimeZone spec <> None).
Proof.
  rewrite validateAdvancedCronJobSpecSchedule_eq. unfold scheduleBase.
  pose proof (Contains_spec (Schedule spec) "TZ") as Htz.
  destruct (Schedule spec) as [|c s] eqn:Hs.
  { split.
    - cbn [String.length Nat.eqb app]. intros [= H].
    - intros [H _]. now elim H. }
  cbn [String.length Nat.eqb app].
  destruct (ParseStandard (String c s)) as [[msg|]|r]; cbn [app].
  - split; [intros [= H] | intros [_ [H _]]; discriminate].
  - destruct (Contains (String c s) "TZ") eqn:Hc;
      destruct (TimeZone spec) as [tz|]; cbn [isSome andb].
    + split; [intros [= H]|]. intros [_ [_ H]]. elim H.
      split; [now apply Htz | discriminate].
    + split; [|reflexivity]. intros _.
      repeat split; [discriminate|]. intros [_ Hn]. now elim Hn.
    + split; [|reflexivity]. intros _.
      repeat split; [discriminate|]. intros [Hh _]. apply Htz in Hh.
      discriminate.
    + split; [|reflexivity]. intros _.
      repeat split; [discriminate|]. intros [_ Hn]. now elim Hn.
  - split; [intros [= H] | intros [_ [H _]]; discriminate].
Qed.

(** X3. [validateTimeZone] accepts nil, and a set time zone exactly when
    it is not empty, is not "Local" under any casing and loads from the
    zone database. The empty string gets exactly the one error about
    empty strings: the database is not asked. There are never more than
    two errors. *)
Theorem validateTimeZone_accepts (timeZone : option string) (p : Path) :
  (validateTimeZone timeZone p = []
   <-> timeZone = None
       \/ exists tz, timeZone = Some tz /\ tz <> EmptyString
                     /\ ToLower tz <> "local"%string /\ LoadLocation tz = None)
  /\ (timeZone = Some EmptyString ->
      validateTimeZone timeZone p = [emptyTimeZoneError p])
  /\ (length (validateTimeZone timeZone p) <= 2)%nat.
Proof.
  split; [apply validateTimeZone_nil_iff|]. split.
  - intros ->. reflexivity.
  - unfold validateTimeZone. destruct timeZone as [tz|]; [|simpl; lia].
    destruct (String.length tz =? 0)%nat; [simpl; lia|].
    destruct (EqualFold tz "Local"); destruct (LoadLocation tz);
      simpl; lia.
Qed.

(** X4. The schedule validator accepts a spec exactly when the schedule
    is not empty, the cron parser returns without error, and "TZ" in the
    schedule does not come together with a set time zone. An empty
    schedule is reported first, whatever the parser makes of it. *)
Theorem validateAdvancedCronJobSpecSchedule_accepts
    (spec : AdvancedCronJobSpec) (p : Path) :
  (validateAdvancedCronJobSpecSchedule spec p = Normal []
   <-> Schedule spec <> EmptyString
       /\ ParseStandard (Schedule spec) = Normal None
       /\ ~ (hasSubstring (Schedule spec) "TZ" /\ TimeZone spec <> None))
  /\ (Schedule spec = EmptyString ->
      exists rest,
        validateAdvancedCronJobSpecSchedule spec p
        = Normal (emptyScheduleError p :: rest)).
Proof.
  split; [apply validateAdvancedCronJobSpecSchedule_nil_iff|].
  intros Hs. rewrite validateAdvancedCronJobSpecSchedule_eq. unfold scheduleBase.
  rewrite Hs. cbn [String.length Nat.eqb app]. eexists. reflexivity.
Qed.

(** X5. [formatSchedule] is idempotent: formatting a job whose schedule
    is already the formatted one changes nothing. The schedule it was
    given is always the end of its result. *)
Theorem formatSchedule_idempotent (acj : AdvancedCronJob) :
  formatSchedule (withSchedule (formatSchedule acj) acj) = formatSchedule acj
  /\ exists pre, formatSchedule acj = (pre ++ Schedule (Spec acj))%string.
Proof.
  unfold withSchedule, formatSchedule at 1 3.
  cbn [updSpec Spec setSchedule Schedule TimeZone].
  unfold formatSchedule.
  destruct (Contains (Schedule (Spec acj)) "TZ") eqn:Htz.
  - rewrite Htz. split; [reflexivity | now exists ""%string].
  - destruct (TimeZone (Spec acj)) as [tz|].
    + destruct (LoadLocation tz) as [msg|] eqn:Hload.
      * rewrite Htz. split; [reflexivity | now exists ""%string].
      * split.
        -- assert (H : Contains ("TZ=" ++ tz ++ " " ++ Schedule (Spec acj)) "TZ"
                       = true) by reflexivity.
           now rewrite H.
        -- exists ("TZ=" ++ tz ++ " ")%string.
           now rewrite !append_assoc.
    + rewrite Htz. split; [reflexivity | now exists ""%string].
Qed.

(** X6. For a job whose schedule and time zone have passed validation,
    [formatSchedule] never takes its fallback: with a time zone set the
    result is "TZ=<zone> <schedule>", without one it is the schedule. *)
Theorem formatSchedule_of_validated (acj : AdvancedCronJob) (p q : Path) :
  validateAdvancedCronJobSpecSchedule (Spec acj) p = Normal [] ->
  validateTimeZone (TimeZone (Spec acj)) q = [] ->
  formatSchedule acj
  = match TimeZone (Spec acj) with
    | Some tz => ("TZ=" ++ tz ++ " " ++ Schedule (Spec acj))%string
    | None => Schedule (Spec acj)
    end.
Proof.
  intros Hs Hz.
  apply validateAdvancedCronJobSpecSchedule_nil_iff in Hs.
  apply validateTimeZone_nil_iff in Hz.
  destruct Hs as [_ [_ Hamb]]. unfold formatSchedule.
  destruct (TimeZone (Spec acj)) as [tz|].
  - destruct Hz as [Hz | [tz' [[= <-] [_ [_ Hload]]]]]; [discriminate|].
    destruct (Contains (Schedule (Spec acj)) "TZ") eqn:Htz.
    + elim Hamb. split; [now apply Contains_spec | discriminate].
    + now rewrite Hload.
  - now destruct (Contains (Schedule (Spec acj)) "TZ").
Qed.

End ZoneProperties.

(** ** The image-pull template validator, as a whole *)

Section PullJobProperties.
Context {T : ApiTypes} {C : Collaborators}.

Lemma imageListError_None (s : ImageListPullJobSpec) (p : Path) :
  imageListError (Images s) p = None -> imagesAccepted s.
Proof.
  unfold imageListError, imagesAccepted.
  destruct (Images s) as [|image rest]; [discriminate|].
  destruct (Nat.ltb_spec 255 (length (image :: rest))) as [|Hlen];
    [discriminate|].
  destruct (NoDup_dec string_dec (image :: rest)) as [Hnd|]; [|discriminate].
  destruct (find _ _) eqn:Hfind; [discriminate|]. intros _.
  split; [simpl in *; lia|]. split; [assumption|].
  intros x Hx. pose proof (find_none _ _ Hfind x Hx) as Hnone.
  cbn beta in Hnone. now destruct (NormalizeImageRef x).
Qed.

Lemma completionPolicyErrors_nil (s : ImageListPullJobSpec) (p : Path) :
  completionPolicyErrors s p = [] <-> policyAccepted s.
Proof.
  unfold completionPolicyErrors, ttlErrors, policyAccepted.
  destruct (String.eqb_spec (PolicyType (CompletionPolicy_ s)) Always) as [Hty|Hty];
    cbn [negb].
  2:{ split; [discriminate | intros [H _]; contradiction]. }
  assert (Httl :
    match TTLSecondsAfterFinished (CompletionPolicy_ s) with
    | Some ttl => if (259200 <? ttl)%Z then [ttlBoundError p ttl] else []
    | None => []
    end = []
    <-> forall ttl, TTLSecondsAfterFinished (CompletionPolicy_ s) = Some ttl ->
                    ttl <= 259200).
  { destruct (TTLSecondsAfterFinished (CompletionPolicy_ s)) as [ttl|].
    - destruct (Z.ltb_spec 259200 ttl).
      + split; [discriminate|]. intros H0. specialize (H0 ttl eq_refl). lia.
      + split; [|reflexivity]. intros _ ttl' [= <-]. lia.
    - split; [|reflexivity]. intros _ ttl' [=]. }
  destruct (ActiveDeadlineSeconds (CompletionPolicy_ s)) as [d|].
  - destruct (Z.ltb_spec 86400 d) as [Hd|Hd].
    + split; [discriminate|]. intros [_ [H0 _]].
      destruct (H0 d eq_refl). lia.
    + destruct (timeoutOf s) as [tm|].
      * destruct (Z.ltb_spec d tm) as [Htm|Htm].
        -- split; [discriminate|]. intros [_ [H0 _]].
           destruct (H0 d eq_refl) as [_ H1]. specialize (H1 tm eq_refl). lia.
        -- rewrite Httl. split.
           ++ intros H0. split; [assumption|]. split; [|assumption].
              intros d0 [= <-]. split; [lia|]. intros tm0 [= <-]. lia.
           ++ intros [_ [_ H0]]. exact H0.
      * rewrite Httl. split.
        -- intros H0. split; [assumption|]. split; [|assumption].
           intros d0 [= <-]. split; [lia|]. intros tm0 [=].
        -- intros [_ [_ H0]]. exact H0.
  - rewrite Httl. split.
    + intros H0. split; [assumption|]. split; [|assumption]. intros d0 [=].
    + intros [_ [_ H0]]. exact H0.
Qed.

Lemma validateImageListPullJobTemplateSpec_nil_iff
    (t : ImageListPullJobTemplateSpec) (p : Path) :
  validateImageListPullJobTemplateSpec t p = []
  <-> selectorsAccepted (JobSpec t) /\ imagesAccepted (JobSpec t)
      /\ policyAccepted (JobSpec t).
Proof.
  split.
  - intros Hnil.
    destruct (selector_stage t p) as [Hsel | [e [He _]]];
      [|rewrite He in Hnil; discriminate].
    rewrite validate_selectors_accepted in Hnil by assumption.
    destruct (imageListError (Images (JobSpec t)) p) eqn:Himg; [discriminate|].
    split; [assumption|]. split; [now apply imageListError_None in Himg|].
    now apply completionPolicyErrors_nil in Hnil.
  - intros [Hsel [Himg Hpol]]. rewrite validate_accepted by assumption.
    now apply completionPolicyErrors_nil.
Qed.

(** X7. The image-pull template validator accepts a template exactly
    when its selectors pass (no names together with labels, compiling
    label selectors, distinct names, no pod selector beside a selector),
    its image list has 1 to 255 distinct normalizable entries, and its
    completion policy is of type Always with a deadline of at most 86400
    that is not below the pull timeout and a ttl of at most 259200. Every
    other template gets exactly one error. *)
Theorem validateImageListPullJobTemplateSpec_accepts
    (t : ImageListPullJobTemplateSpec) (p : Path) :
  (validateImageListPullJobTemplateSpec t p = []
   <-> selectorsAccepted (JobSpec t) /\ imagesAccepted (JobSpec t)
       /\ policyAccepted (JobSpec t))
  /\ (validateImageListPullJobTemplateSpec t p = []
      \/ exists e, validateImageListPullJobTemplateSpec t p = [e]
                   /\ Type_ e = ErrorTypeInvalid).
Proof.
  split; [apply validateImageListPullJobTemplateSpec_nil_iff|].
  destruct (validate_shape t p) as [Hlen Hall].
  destruct (validateImageListPullJobTemplateSpec t p) as [|e [|e' rest]].
  - now left.
  - right. exists e. split; [reflexivity|]. apply Hall. now left.
  - simpl in Hlen. lia.
Qed.

(** X8. The selector checks come first: a template whose selectors are
    not accepted gets exactly one error, at one of the selector paths,
    whatever its images and completion policy are, and a template whose
    selectors are accepted gets no error at a selector path. So names
    together with a label selector, repeated names, and a pod selector
    beside a selector are each rejected. *)
Theorem selector_checks (t : ImageListPullJobTemplateSpec) (p : Path) :
  let s := JobSpec t in
  let result := validateImageListPullJobTemplateSpec t p in
  (selectorsAccepted s ->
   forall q, In q (selectorPaths p) -> errorsAt q result = [])
  /\ (~ selectorsAccepted s ->
      exists e, result = [e] /\ Type_ e = ErrorTypeInvalid
                /\ In (Field e) (selectorPaths p))
  /\ (forall sel names,
        Selector s = Some sel -> Names sel = Some names ->
        MatchLabels (NodeLabelSelector sel) <> None
        \/ MatchExpressions (NodeLabelSelector sel) <> None ->
        result = [Invalid (Child (Child p "spec") "selector") VStruct
                    "can not set both names and labelSelector in this spec.selector"])
  /\ (forall sel names,
        Selector s = Some sel -> Names sel = Some names ->
        MatchLabels (NodeLabelSelector sel) = None ->
        MatchExpressions (NodeLabelSelector sel) = None ->
        ~ NoDup names ->
        result = [Invalid (Child (Child (Child p "spec") "selector") "names")
                    (VStrs names) "duplicated name in selector names"])
  /\ (Selector s <> None -> PodSelector s <> None -> result <> []).
Proof.
  intros s result. subst s result.
  assert (Hrej : ~ selectorsAccepted (JobSpec t) ->
    exists e, validateImageListPullJobTemplateSpec t p = [e]
              /\ Type_ e = ErrorTypeInvalid /\ In (Field e) (selectorPaths p)).
  { intros Hn. destruct (selector_stage t p) as [H|H]; [contradiction|exact H]. }
  split; [|split; [exact Hrej|split; [|split]]].
  - intros Hsel q Hq. apply selectorPaths_apart in Hq.
    destruct Hq as [Hi [Hd [Ht Hp]]].
    rewrite validate_selectors_accepted by assumption.
    destruct (imageListError (Images (JobSpec t)) p) as [e|] eqn:E.
    + apply errorsAt_other. apply imageListError_shape in E.
      destruct E as [_ ->]. congruence.
    + apply errorsAt_none. intros e He.
      apply completionPolicyErrors_shape in He.
      destruct He as [_ [-> | [-> | ->]]]; congruence.
  - intros sel names Hsel Hnames Hlabels.
    destruct t as [s]. unfold validateImageListPullJobTemplateSpec.
    cbn [JobSpec] in *. rewrite Hsel, Hnames.
    assert (Hb : isSome (MatchLabels (NodeLabelSelector sel))
                 || isSome (MatchExpressions (NodeLabelSelector sel)) = true).
    { destruct (MatchLabels (NodeLabelSelector sel));
        destruct (MatchExpressions (NodeLabelSelector sel));
        try reflexivity. destruct Hlabels as [H|H]; now elim H. }
    rewrite Hb. reflexivity.
  - intros sel names Hsel Hnames HML HME Hdup.
    destruct t as [s]. unfold validateImageListPullJobTemplateSpec.
    cbn [JobSpec] in *. rewrite Hsel, Hnames, HML, HME.
    cbn [isSome orb andThen].
    destruct (Nat.eqb_spec (length (nodup string_dec names)) (length names))
      as [Heq|Hne].
    + elim Hdup. now apply nodup_length_NoDup.
    + reflexivity.
  - intros Hsel Hpod.
    destruct Hrej as [e [-> _]]; [|discriminate].
    intros [_ Hp]. destruct (PodSelector (JobSpec t)) as [podSel|];
      [|now elim Hpod].
    destruct Hp as [Hs _]. contradiction.
Qed.

End PullJobProperties.

(** ** The spec validator *)

Section SpecProperties.
Context {T : ApiTypes} {C : Collaborators}.

Lemma validateAdvancedCronJobSpec_eq (spec : AdvancedCronJobSpec) (p : Path) :
  exists scheduleErrs,
    validateAdvancedCronJobSpecSchedule spec p = Normal scheduleErrs
    /\ validateAdvancedCronJobSpec spec p
       = Normal (scheduleErrs ++ validateAdvancedCronJobSpecTemplate spec p
                 ++ numericErrors spec p
                 ++ validateTimeZone (TimeZone spec) (Child p "timeZone")).
Proof.
  unfold validateAdvancedCronJobSpec, numericErrors.
  rewrite validateAdvancedCronJobSpecSchedule_eq. cbn [bind].
  eexists. split; [reflexivity|]. f_equal.
  destruct (StartingDeadlineSeconds spec);
    destruct (SuccessfulJobsHistoryLimit spec);
    destruct (FailedJobsHistoryLimit spec);
    cbn [app]; rewrite ?app_nil_r, <- ?app_assoc; reflexivity.
Qed.

(** X9. [validateAdvancedCronJobSpec] runs every check and keeps all
    their errors, in the order schedule, template, numeric fields, time
    zone: a failing check never hides the errors of a later one. It
    accepts a spec exactly when the schedule validator, the template
    validator, the non-negative checks of the numeric fields that are
    set, and the time zone validator all report nothing. *)
Theorem validateAdvancedCronJobSpec_accumulates
    (spec : AdvancedCronJobSpec) (p : Path) :
  exists scheduleErrs,
    validateAdvancedCronJobSpecSchedule spec p = Normal scheduleErrs
    /\ validateAdvancedCronJobSpec spec p
       = Normal (scheduleErrs ++ validateAdvancedCronJobSpecTemplate spec p
                 ++ numericErrors spec p
                 ++ validateTimeZone (TimeZone spec) (Child p "timeZone"))
    /\ (validateAdvancedCronJobSpec spec p = Normal []
        <-> scheduleErrs = []
            /\ validateAdvancedCronJobSpecTemplate spec p = []
            /\ numericErrors spec p = []
            /\ validateTimeZone (TimeZone spec) (Child p "timeZone") = []).
Proof.
  destruct (validateAdvancedCronJobSpec_eq spec p) as [errs [Hs Heq]].
  exists errs. split; [assumption|]. split; [assumption|].
  rewrite Heq. split.
  - intros [= H]. apply app_eq_nil in H. destruct H as [H1 H].
    apply app_eq_nil in H. destruct H as [H2 H].
    apply app_eq_nil in H. destruct H as [H3 H4]. now repeat split.
  - intros [-> [-> [-> ->]]]. reflexivity.
Qed.

(** X10. In a spec whose only template is an image-list pull-job template
    the concurrency policy must be Replace or Forbid: any other value,
    the empty one included, is reported at
    [<path>.spec.concurrencyPolicy] before the errors of the template.
    In a spec without such a template the concurrency policy is not
    looked at. *)
Theorem concurrencyPolicy_check (spec : AdvancedCronJobSpec) (p : Path) :
  (forall t,
     JobTemplate (Template spec) = None ->
     BroadcastJobTemplate (Template spec) = None ->
     ImageListPullJobTemplate (Template spec) = Some t ->
     let templateErrs :=
       validateImageListPullJobTemplateSpec t
         (Child (Child p "template") "imageListPullJobTemplate") in
     (ConcurrencyPolicy spec = ReplaceConcurrent
      \/ ConcurrencyPolicy spec = ForbidConcurrent ->
      validateAdvancedCronJobSpecTemplate spec p = templateErrs)
     /\ (ConcurrencyPolicy spec <> ReplaceConcurrent ->
         ConcurrencyPolicy spec <> ForbidConcurrent ->
         validateAdvancedCronJobSpecTemplate spec p
         = concurrencyPolicyError p (ConcurrencyPolicy spec) :: templateErrs))
  /\ (ImageListPullJobTemplate (Template spec) = None ->
      forall policy,
        validateAdvancedCronJobSpecTemplate (setConcurrencyPolicy policy spec) p
        = validateAdvancedCronJobSpecTemplate spec p).
Proof.
  split.
  - intros t HJ HB HI templateErrs. subst templateErrs.
    rewrite validateAdvancedCronJobSpecTemplate_eq.
    unfold perKindErrors, populated. rewrite HJ, HB, HI.
    cbn [isSome Nat.add app]. rewrite app_nil_r. split.
    + intros [-> | ->]; reflexivity.
    + intros H1 H2. apply String.eqb_neq in H1. apply String.eqb_neq in H2.
      now rewrite H1, H2.
  - intros HI policy. rewrite !validateAdvancedCronJobSpecTemplate_eq.
    unfold perKindErrors, populated.
    cbn [setConcurrencyPolicy Template]. now rewrite HI.
Qed.

(** X11. A spec whose only template is an image-list pull-job template
    is accepted by [validateAdvancedCronJobSpec] exactly when its schedule
    is not empty and parses, "TZ" in the schedule does not meet a set
    time zone, the concurrency policy is Replace or Forbid, the template
    is accepted, the numeric fields that are set pass their non-negative
    checks, and the time zone is nil or a loadable zone other than
    "Local". *)
Theorem pull_job_spec_accepted
    (spec : AdvancedCronJobSpec) (p : Path) (t : ImageListPullJobTemplateSpec) :
  JobTemplate (Template spec) = None ->
  BroadcastJobTemplate (Template spec) = None ->
  ImageListPullJobTemplate (Template spec) = Some t ->
  (validateAdvancedCronJobSpec spec p = Normal []
   <-> (Schedule spec <> EmptyString
        /\ ParseStandard (Schedule spec) = Normal None
        /\ ~ (hasSubstring (Schedule spec) "TZ" /\ TimeZone spec <> None))
       /\ (ConcurrencyPolicy spec = ReplaceConcurrent
           \/ ConcurrencyPolicy spec = ForbidConcurrent)
       /\ (selectorsAccepted (JobSpec t) /\ imagesAccepted (JobSpec t)
           /\ policyAccepted (JobSpec t))
       /\ numericErrors spec p = []
       /\ (TimeZone spec = None
           \/ exists tz, TimeZone spec = Some tz /\ tz <> EmptyString
                         /\ ToLower tz <> "local"%string
                         /\ LoadLocation tz = None)).
Proof.
  intros HJ HB HI.
  destruct (validateAdvancedCronJobSpec_eq spec p) as [se [Hs Heq]].
  rewrite Heq.
  assert (HS : se = [] <-> validateAdvancedCronJobSpecSchedule spec p = Normal []).
  { rewrite Hs. split; [now intros -> | now intros [= ->]]. }
  assert (HT : validateAdvancedCronJobSpecTemplate spec p = []
               <-> (ConcurrencyPolicy spec = ReplaceConcurrent
                    \/ ConcurrencyPolicy spec = ForbidConcurrent)
                   /\ validateImageListPullJobTemplateSpec t
                        (Child (Child p "template") "imageListPullJobTemplate")
                      = []).
  { rewrite validateAdvancedCronJobSpecTemplate_eq.
    unfold perKindErrors, populated. rewrite HJ, HB, HI.
    cbn [isSome Nat.add app]. rewrite app_nil_r.
    destruct (String.eqb_spec (ConcurrencyPolicy spec) ReplaceConcurrent) as [E1|E1];
      destruct (String.eqb_spec (ConcurrencyPolicy spec) ForbidConcurrent) as [E2|E2];
      cbn [orb app].
    - split; [intros H; split; [now left | assumption] | now intros [_ H]].
    - split; [intros H; split; [now left | assumption] | now intros [_ H]].
    - split; [intros H; split; [now right | assumption] | now intros [_ H]].
    - split; [discriminate | intros [[H | H] _]; contradiction]. }
  rewrite validateImageListPullJobTemplateSpec_nil_iff in HT.
  rewrite validateAdvancedCronJobSpecSchedule_nil_iff in HS.
  pose proof (validateTimeZone_nil_iff (TimeZone spec) (Child p "timeZone")) as HZ.
  split.
  - intros [= H]. apply app_eq_nil in H. destruct H as [H1 H].
    apply app_eq_nil in H. destruct H as [H2 H].
    apply app_eq_nil in H. destruct H as [H3 H4].
    apply HS in H1. apply HT in H2. apply HZ in H4.
    destruct H2 as [Hc Ht].
    exact (conj H1 (conj Hc (conj Ht (conj H3 H4)))).
  - intros [H1 [Hc [Ht [H3 H4]]]].
    apply HS in H1. apply HZ in H4.
    assert (H2 : validateAdvancedCronJobSpecTemplate spec p = [])
      by (apply HT; now split).
    now rewrite H1, H2, H3, H4.
Qed.

End SpecProperties.

(** ** Updates *)

Section GuardProperties.
Context {T : ApiTypes} {C : Collaborators}.

Lemma validateAdvancedCronJobUpdate_eq (obj oldObj : AdvancedCronJob) :
  exists specErrs,
    validateAdvancedCronJobSpec (Spec obj) (NewPath "spec") = Normal specErrs
    /\ validateAdvancedCronJobUpdate obj oldObj
       = Normal (ValidateObjectMetaUpdate (Meta obj) (Meta oldObj)
                   (NewPath "metadata")
                 ++ specErrs
                 ++ if DeepEqual_AdvancedCronJobSpec
                         (restoreMutableFields (Spec obj) (Spec oldObj))
                         (Spec oldObj)
                    then [] else [forbiddenFieldsError]).
Proof.
  destruct (validateAdvancedCronJobSpec_total (Spec obj) (NewPath "spec"))
    as [specErrs Hspec].
  exists specErrs. split; [assumption|].
  unfold validateAdvancedCronJobUpdate, restoreMutableFields.
  rewrite Hspec. cbn [bind]. unfold DeepCopy, updSpec. cbn [Spec Meta].
  destruct (isSome (ImageListPullJobTemplate (Template (Spec oldObj))));
    cbn [Spec];
    match goal with
    | |- context [negb ?b] => destruct b
    end; cbn [negb]; now rewrite ?app_nil_r, <- ?app_assoc.
Qed.

(** The comparison after the restore looks at the templates only. *)
Lemma guard_looks_at_templates (new old : AdvancedCronJobSpec) :
  DeepEqual_AdvancedCronJobSpec (restoreMutableFields new old) old
  = DeepEqual_CronJobTemplate
      {| JobTemplate := JobTemplate (Template new);
         BroadcastJobTemplate := BroadcastJobTemplate (Template new);
         ImageListPullJobTemplate :=
           match ImageListPullJobTemplate (Template old) with
           | Some ilp => Some ilp
           | None => ImageListPullJobTemplate (Template new)
           end |}
      (Template old).
Proof.
  unfold restoreMutableFields, DeepEqual_AdvancedCronJobSpec.
  destruct (ImageListPullJobTemplate (Template old)) as [ilp|] eqn:E;
    cbn [isSome setImageListPullJobTemplate setTimeZone setPaused
         setStartingDeadlineSeconds setFailedJobsHistoryLimit
         setSuccessfulJobsHistoryLimit setConcurrencyPolicy setSchedule
         Schedule TimeZone StartingDeadlineSeconds ConcurrencyPolicy Paused
         SuccessfulJobsHistoryLimit FailedJobsHistoryLimit Template];
    rewrite !String.eqb_refl;
    rewrite !DeepEqual_ptr_refl
      by auto using String.eqb_refl, Z.eqb_refl, Bool.eqb_reflx;
    cbn [andb]; [reflexivity|].
  destruct (Template new); reflexivity.
Qed.

(** X12. The old values of schedule, concurrencyPolicy, the two history
    limits, startingDeadlineSeconds, paused and timeZone play no part in
    the verdict on an update: two old objects with the same metadata and
    the same templates give the same result. *)
Theorem update_ignores_old_mutable_fields (obj oldObj oldObj' : AdvancedCronJob) :
  Meta oldObj = Meta oldObj' ->
  Template (Spec oldObj) = Template (Spec oldObj') ->
  validateAdvancedCronJobUpdate obj oldObj
  = validateAdvancedCronJobUpdate obj oldObj'.
Proof.
  intros Hmeta Htemplate.
  destruct (validateAdvancedCronJobUpdate_eq obj oldObj) as [e1 [H1 ->]].
  destruct (validateAdvancedCronJobUpdate_eq obj oldObj') as [e2 [H2 ->]].
  rewrite H1 in H2. injection H2 as <-.
  now rewrite !guard_looks_at_templates, Hmeta, Htemplate.
Qed.

(** X13. The guard treats the image-list pull-job template one way only.
    Once the old object has one, the new object may carry any other one
    or none at all without a forbidden error; when the old object has
    none, a new object that brings one gets the forbidden error.
    (Semantic.DeepEqual is taken to be reflexive on the templates.) *)
Theorem guard_pull_template_one_way (obj oldObj : AdvancedCronJob) :
  (forall x, DeepEqual_JobTemplateSpec x x = true) ->
  (forall x, DeepEqual_BroadcastJobTemplateSpec x x = true) ->
  (forall x, DeepEqual_ImageListPullJobTemplateSpec x x = true) ->
  exists specErrs,
    validateAdvancedCronJobSpec (Spec obj) (NewPath "spec") = Normal specErrs
    /\ let checked :=
         ValidateObjectMetaUpdate (Meta obj) (Meta oldObj) (NewPath "metadata")
         ++ specErrs in
       (forall old new,
          ImageListPullJobTemplate (Template (Spec oldObj)) = Some old ->
          Spec obj = setImageListPullJobTemplate new (Spec oldObj) ->
          validateAdvancedCronJobUpdate obj oldObj = Normal checked)
       /\ (forall new,
             ImageListPullJobTemplate (Template (Spec oldObj)) = None ->
             ImageListPullJobTemplate (Template (Spec obj)) = Some new ->
             validateAdvancedCronJobUpdate obj oldObj
             = Normal (checked ++ [forbiddenFieldsError])).
Proof.
  intros HJ HB HI.
  destruct (validateAdvancedCronJobUpdate_eq obj oldObj) as [specErrs [Hs ->]].
  exists specErrs. split; [assumption|]. cbv zeta.
  rewrite guard_looks_at_templates. unfold DeepEqual_CronJobTemplate.
  cbn [JobTemplate BroadcastJobTemplate ImageListPullJobTemplate]. split.
  - intros old new Hold Hnew. rewrite Hnew, Hold.
    cbn [setImageListPullJobTemplate Template JobTemplate BroadcastJobTemplate].
    rewrite !DeepEqual_ptr_refl by assumption. cbn [andb].
    now rewrite !app_nil_r.
  - intros new Hold Hnew. rewrite Hold, Hnew. cbn [DeepEqual_ptr].
    rewrite !andb_false_r. now rewrite app_assoc.
Qed.

End GuardProperties.

(** ** The handler *)

Section HandlerProperties.
Context {T : ApiTypes} {C : Collaborators} {h : Decoder}.

Lemma validateAdvancedCronJob_eq (obj : AdvancedCronJob) :
  exists specErrs,
    validateAdvancedCronJobSpec (Spec obj) (NewPath "spec") = Normal specErrs
    /\ validateAdvancedCronJob obj
       = Normal (ValidateObjectMeta (Meta obj) true validateAdvancedCronJobName
                   (NewPath "metadata") ++ specErrs).
Proof.
  destruct (validateAdvancedCronJobSpec_total (Spec obj) (NewPath "spec"))
    as [specErrs Hs].
  exists specErrs. split; [assumption|].
  unfold validateAdvancedCronJob. now rewrite Hs.
Qed.

Lemma length_pos_iff (A : Type) (l : list A) :
  (0 <? length l)%nat = true <-> l <> [].
Proof.
  destruct l; simpl; split; intros; try discriminate; try reflexivity.
  now elim H.
Qed.

(** X14. [Handle] answers every request, whatever the decoder returns
    and also when the cron parser panics: the response is an admission,
    a bad-request error (400) carrying a decoding error, or an
    unprocessable-entity error (422) carrying a non-empty list of
    validation errors. It never answers with a plain denial. *)
Theorem Handle_responses (req : Request) :
  exists resp,
    Handle req = Normal resp
    /\ (resp = ValidationResponse true ""
        \/ (exists msg, resp = Errored StatusBadRequest (PlainError msg))
        \/ (exists errs, errs <> []
                         /\ resp = Errored StatusUnprocessableEntity
                                     (Aggregate errs))).
Proof.
  unfold Handle.
  destruct (decodeAdvancedCronJob req zeroAdvancedCronJob) as [obj [msg|]].
  { eexists. split; [reflexivity|]. right. left. now exists msg. }
  destruct (Operation req =? Create)%string.
  { destruct (validateAdvancedCronJob_eq obj) as [specErrs [_ ->]]. cbn [bind].
    destruct (0 <? length _)%nat eqn:Hlen.
    - eexists. split; [reflexivity|]. right. right. eexists.
      split; [|reflexivity]. now apply length_pos_iff.
    - eexists. split; [reflexivity|]. now left. }
  destruct (Operation req =? Update)%string.
  2:{ eexists. split; [reflexivity|]. now left. }
  destruct (decodeAdvancedCronJobFromRaw _ _ _) as [oldObj [msg|]].
  { eexists. split; [reflexivity|]. right. left. now exists msg. }
  destruct (validateAdvancedCronJobUpdate_eq obj oldObj) as [specErrs [_ ->]].
  cbn [bind].
  destruct (0 <? length _)%nat eqn:Hlen.
  - eexists. split; [reflexivity|]. right. right. eexists.
    split; [|reflexivity]. now apply length_pos_iff.
  - eexists. split; [reflexivity|]. now left.
Qed.

(** X15. A request whose new object does not decode is answered with 400
    and the decoding error, whatever its operation; a request that
    decodes and whose operation is neither CREATE nor UPDATE is admitted
    without any validation of the object. *)
Theorem Handle_decoding_and_other_operations (req : Request) :
  (forall obj msg,
     decodeAdvancedCronJob req zeroAdvancedCronJob = (obj, Some msg) ->
     Handle req = Normal (Errored StatusBadRequest (PlainError msg)))
  /\ (forall obj,
        decodeAdvancedCronJob req zeroAdvancedCronJob = (obj, None) ->
        Operation req <> Create -> Operation req <> Update ->
        Handle req = Normal (ValidationResponse true "")).
Proof.
  unfold Handle. split.
  - intros obj msg ->. reflexivity.
  - intros obj -> Hc Hu.
    apply String.eqb_neq in Hc. apply String.eqb_neq in Hu.
    now rewrite Hc, Hu.
Qed.

(** X16. A CREATE request that decodes is admitted exactly when the
    metadata check and the spec validator report nothing; otherwise it is
    answered with 422 and all their errors, metadata first. *)
Theorem Handle_create (req : Request) (obj : AdvancedCronJob) :
  decodeAdvancedCronJob req zeroAdvancedCronJob = (obj, None) ->
  Operation req = Create ->
  exists specErrs,
    validateAdvancedCronJobSpec (Spec obj) (NewPath "spec") = Normal specErrs
    /\ let errs :=
         ValidateObjectMeta (Meta obj) true validateAdvancedCronJobName
           (NewPath "metadata") ++ specErrs in
       (Handle req = Normal (ValidationResponse true "") <-> errs = [])
       /\ (errs <> [] ->
           Handle req
           = Normal (Errored StatusUnprocessableEntity (Aggregate errs))).
Proof.
  intros Hdec Hop.
  destruct (validateAdvancedCronJob_eq obj) as [specErrs [Hs Hv]].
  exists specErrs. split; [assumption|]. cbv zeta.
  unfold Handle. rewrite Hdec, Hop, String.eqb_refl, Hv. cbn [bind].
  destruct (0 <? length _)%nat eqn:Hlen.
  - apply length_pos_iff in Hlen. split; [|reflexivity].
    split; [discriminate | intros H; now elim Hlen].
  - split.
    + split; [|reflexivity]. intros _.
      destruct (ValidateObjectMeta _ _ _ _ ++ specErrs); [reflexivity|].
      discriminate Hlen.
    + intros Hne. apply length_pos_iff in Hne. congruence.
Qed.

(** X17. An UPDATE request whose new object decodes is answered with 400
    when the old object does not decode; otherwise it is admitted exactly
    when the metadata update check and the spec validator of the new
    object report nothing and the new spec differs from the old one at
    most in the mutable fields. The old object is not validated.
    (Semantic.DeepEqual is taken to be reflexive on image-list pull-job
    templates.) *)
Theorem Handle_update (req : Request) (obj : AdvancedCronJob) :
  (forall x, DeepEqual_ImageListPullJobTemplateSpec x x = true) ->
  decodeAdvancedCronJob req zeroAdvancedCronJob = (obj, None) ->
  Operation req = Update ->
  (forall o msg,
     decodeAdvancedCronJobFromRaw (OldObject req) (ResourceVersion req)
       zeroAdvancedCronJob = (o, Some msg) ->
     Handle req = Normal (Errored StatusBadRequest (PlainError msg)))
  /\ (forall oldObj,
        decodeAdvancedCronJobFromRaw (OldObject req) (ResourceVersion req)
          zeroAdvancedCronJob = (oldObj, None) ->
        (Handle req = Normal (ValidationResponse true "")
         <-> ValidateObjectMetaUpdate (Meta obj) (Meta oldObj)
               (NewPath "metadata") = []
             /\ validateAdvancedCronJobSpec (Spec obj) (NewPath "spec")
                = Normal []
             /\ differsOnlyInMutableFields (Spec obj) (Spec oldObj))).
Proof.
  intros HI Hdec Hop.
  assert (Hne : (Update =? Create)%string = false) by reflexivity.
  unfold Handle. rewrite Hdec, Hop, Hne, String.eqb_refl. split.
  - intros o msg ->. reflexivity.
  - intros oldObj ->.
    destruct (validateAdvancedCronJobUpdate_eq obj oldObj) as [specErrs [Hs ->]].
    rewrite Hs. cbn [bind].
    pose proof (guard_comparison (Spec obj) (Spec oldObj) HI) as Hguard.
    cbv zeta in Hguard. fold (restoreMutableFields (Spec obj) (Spec oldObj)) in Hguard.
    destruct (DeepEqual_AdvancedCronJobSpec _ (Spec oldObj)).
    + rewrite app_nil_r.
      destruct (ValidateObjectMetaUpdate _ _ _) as [|e l];
        destruct specErrs as [|e' l']; simpl.
      * split; [|reflexivity]. intros _.
        split; [reflexivity | split; [reflexivity | now apply Hguard]].
      * split; [discriminate | intros [H1 [H2 _]]; discriminate].
      * split; [discriminate | intros [H1 [H2 _]]; discriminate].
      * split; [discriminate | intros [H1 [H2 _]]; discriminate].
    + split.
      * intros Hr. exfalso.
        destruct (0 <? length _)%nat eqn:Hlen; [discriminate|].
        rewrite !length_app in Hlen. simpl in Hlen.
        apply Nat.ltb_ge in Hlen. lia.
      * intros [_ [_ Hd]]. apply Hguard in Hd. discriminate.
Qed.

(** X18. On the two supported versions the decoding of the new object
    and the decoding of the old object are the same function of the raw
    bytes, provided the decoder reads a request as it reads the request's
    object; on every other version both leave the object untouched and
    differ in the error alone. *)
Theorem decode_paths_agree (req : Request) (obj : AdvancedCronJob) :
  (forall o, Decode req o = DecodeRaw (Object req) o) ->
  (forall o, Decode_v1alpha1 req o = DecodeRaw_v1alpha1 (Object req) o) ->
  (ResourceVersion req = v1beta1_Version
   \/ ResourceVersion req = v1alpha1_Version ->
   decodeAdvancedCronJob req obj
   = decodeAdvancedCronJobFromRaw (Object req) (ResourceVersion req) obj)
  /\ fst (decodeAdvancedCronJob req obj)
     = fst (decodeAdvancedCronJobFromRaw (Object req) (ResourceVersion req) obj).
Proof.
  intros Hb Ha. unfold decodeAdvancedCronJob, decodeAdvancedCronJobFromRaw.
  rewrite Hb, Ha. split.
  - intros [-> | ->]; reflexivity.
  - destruct (ResourceVersion req =? v1beta1_Version)%string; [reflexivity|].
    destruct (ResourceVersion req =? v1alpha1_Version)%string; reflexivity.
Qed.

End HandlerProperties.

(** ** Runs on concrete requests *)

Import Sample.

Lemma podTemplateEqb_refl (x : PodTemplate) : podTemplateEqb x x = true.
Proof.
  induction x as [|c x IH]; simpl; [reflexivity|].
  unfold containerEqb. now rewrite !String.eqb_refl, IH.
Qed.

Lemma sample_ilp_refl (x : ImageListPullJobTemplateSpec) :
  DeepEqual_ImageListPullJobTemplateSpec x x = true.
Proof.
  cbn. destruct (ilpTemplate_eq_dec x x) as [_|n]; [reflexivity | now elim n].
Qed.

Lemma update_guard_witness :
  validateAdvancedCronJobUpdate pausedJob oldJob = Normal []
  /\ validateAdvancedCronJobUpdate reimagedJob oldJob
     = Normal [forbiddenFieldsError].
Proof.
  split.
  - destruct (update_guard pausedJob oldJob sample_ilp_refl)
      as [specErrs [Hspec [_ [_ [Hpaused _]]]]].
    vm_compute in Hspec. injection Hspec as <-.
    exact (Hpaused podTemplateEqb_refl podTemplateEqb_refl (Some true) eq_refl).
  - destruct (update_guard reimagedJob oldJob sample_ilp_refl)
      as [specErrs [Hspec [_ [_ [_ Himage]]]]].
    vm_compute in Hspec. injection Hspec as <-.
    exact (Himage _ _ eq_refl eq_refl eq_refl).
Defined.

(** C2, counterexample. Whether an error is reported at
    activeDeadlineSeconds is not decided by the comparison with the
    timeout alone: a deadline above its bound is reported there although
    it strictly exceeds the timeout, and a deadline below the timeout is
    not reported there when the image list is empty, because the
    validator has already returned. *)
Lemma deadline_error_is_not_decided_by_timeout_alone :
  (PolicyType (CompletionPolicy_ (JobSpec longDeadlineJob)) = Always
   /\ ActiveDeadlineSeconds (CompletionPolicy_ (JobSpec longDeadlineJob))
      = Some 90000
   /\ timeoutOf (JobSpec longDeadlineJob) = Some 600
   /\ 600 < 90000
   /\ errorsAt (deadlinePath ilpPath)
        (validateImageListPullJobTemplateSpec longDeadlineJob ilpPath)
      = [deadlineBoundError ilpPath 90000])
  /\ (PolicyType (CompletionPolicy_ (JobSpec shortDeadlineNoImagesJob)) = Always
      /\ ActiveDeadlineSeconds
           (CompletionPolicy_ (JobSpec shortDeadlineNoImagesJob)) = Some 300
      /\ timeoutOf (JobSpec shortDeadlineNoImagesJob) = Some 600
      /\ 300 < 600
      /\ validateImageListPullJobTemplateSpec shortDeadlineNoImagesJob ilpPath
         = [emptyImagesError ilpPath []]
      /\ errorsAt (deadlinePath ilpPath)
           (validateImageListPullJobTemplateSpec shortDeadlineNoImagesJob ilpPath)
         = []).
Proof. vm_compute. repeat split; reflexivity. Qed.

(** A deadline equal to the timeout passes the validator; the text of
    the error it would have raised asks for a greater deadline. *)
Example deadline_equal_to_timeout_passes :
  validateImageListPullJobTemplateSpec equalDeadlineJob ilpPath = [].
Proof. reflexivity. Qed.

Lemma deadline_versus_timeout_witness :
  errorsAt (deadlinePath ilpPath)
    (validateImageListPullJobTemplateSpec goodJob ilpPath) = []
  /\ validateImageListPullJobTemplateSpec longDeadlineJob ilpPath
     = [deadlineBoundError ilpPath 90000]
  /\ validateImageListPullJobTemplateSpec shortDeadlineJob ilpPath
     = [deadlineTimeoutError ilpPath 300 600].
Proof.
  assert (Himages : forall d ttl,
    imagesAccepted (JobSpec (pullJob ["nginx"] (Some 600) (completion Always d ttl)))).
  { intros d ttl. split; [simpl; lia|]. split.
    - repeat constructor. intros [].
    - intros image [<- | []]. reflexivity. }
  split; [|split].
  - destruct (deadline_versus_timeout goodJob ilpPath (d := 3600) (tm := 600)
                eq_refl eq_refl eq_refl) as [H _].
    apply H; lia.
  - destruct (deadline_versus_timeout longDeadlineJob ilpPath (d := 90000)
                (tm := 600) eq_refl eq_refl eq_refl) as [_ H].
    apply H; [split; exact I | apply Himages | lia].
  - destruct (deadline_versus_timeout shortDeadlineJob ilpPath (d := 300)
                (tm := 600) eq_refl eq_refl eq_refl) as [_ H].
    apply H; [split; exact I | apply Himages | lia | lia].
Defined.

(** C3, counterexample. The spelling "local" folds to "Local", and the
    zone database has no zone of that name, so the loader's error follows
    the explicit-time-zone error: two errors. *)
Lemma validateTimeZone_local_reports_twice :
  ToLower "local" = ToLower "Local"
  /\ validateTimeZone (Some "local") ["spec"; "timeZone"]
     = [Invalid ["spec"; "timeZone"] (VStr "local") explicitZoneMsg;
        Invalid ["spec"; "timeZone"] (VStr "local") "unknown time zone local"].
Proof. split; reflexivity. Qed.

Lemma validateTimeZone_Local_spellings_witness :
  ToLower "Local" = "local"%string
  /\ length (validateTimeZone (Some "Local") ["spec"; "timeZone"]) = 1%nat
  /\ ToLower "LOCAL" = "local"%string
  /\ length (validateTimeZone (Some "LOCAL") ["spec"; "timeZone"]) = 2%nat.
Proof.
  split; [reflexivity|]. split.
  - destruct (validateTimeZone_Local_spellings "Local" ["spec"; "timeZone"]
                eq_refl) as [_ [H _]].
    apply H. reflexivity.
  - split; [reflexivity|].
    destruct (validateTimeZone_Local_spellings "LOCAL" ["spec"; "timeZone"]
                eq_refl) as [_ [_ H]].
    apply H. vm_compute. discriminate.
Defined.

Lemma schedule_timezone_ambiguity_witness :
  (validateAdvancedCronJobSpecSchedule tzTwiceSpec ["spec"]
   = Normal [Invalid ["spec"; "schedule"] (VStr "TZ=UTC * * * * *") ambiguityMsg]
   /\ filter (withDetail ambiguityMsg)
        [Invalid ["spec"; "schedule"] (VStr "TZ=UTC * * * * *") ambiguityMsg]
      = [Invalid ["spec"; "schedule"] (VStr "TZ=UTC * * * * *") ambiguityMsg])
  /\ validateAdvancedCronJobSpecSchedule tzInScheduleSpec ["spec"] = Normal []
  /\ validateAdvancedCronJobSpecSchedule tzFieldSpec ["spec"] = Normal [].
Proof.
  split; [|split].
  - destruct (schedule_timezone_ambiguity tzTwiceSpec ["spec"])
      as [base [Hbase [Hset _]]].
    vm_compute in Hbase. injection Hbase as <-.
    assert (Htz : hasSubstring (Schedule tzTwiceSpec) "TZ").
    { exists ""%string, "=UTC * * * * *"%string. reflexivity. }
    destruct (Hset "UTC"%string Htz eq_refl) as [Hresult Hcount].
    split; [exact Hresult|].
    apply Hcount. vm_compute. discriminate.
  - destruct (schedule_timezone_ambiguity tzInScheduleSpec ["spec"])
      as [base [Hbase [_ [_ Hnil]]]].
    vm_compute in Hbase. injection Hbase as <-.
    destruct (Hnil (or_introl eq_refl)) as [Hresult _]. exact Hresult.
  - destruct (schedule_timezone_ambiguity tzFieldSpec ["spec"])
      as [base [Hbase [_ [_ Hnil]]]].
    vm_compute in Hbase. injection Hbase as <-.
    assert (Hno : ~ hasSubstring (Schedule tzFieldSpec) "TZ").
    { apply Contains_false. reflexivity. }
    destruct (Hnil (or_intror Hno)) as [Hresult _]. exact Hresult.
Defined.

Lemma template_exclusivity_witness :
  validateAdvancedCronJobSpecTemplate (cronSpec "0 1 * * *" None noTemplate) ["spec"]
  = [Forbidden ["spec"; "template"] mustHaveOneMsg]
  /\ validateAdvancedCronJobSpecTemplate
       (cronSpec "0 1 * * *" None twoTemplates) ["spec"]
     = [invalidTypeError ilpPath "Never";
        Forbidden ["spec"; "template"] onlyOneMsg]
  /\ validateAdvancedCronJobSpecTemplate
       (cronSpec "0 1 * * *" None (jobOnly "nginx")) ["spec"] = [].
Proof.
  split; [|split].
  - destruct (template_exclusivity (cronSpec "0 1 * * *" None noTemplate) ["spec"])
      as [H _].
    exact (H eq_refl).
  - destruct (template_exclusivity (cronSpec "0 1 * * *" None twoTemplates) ["spec"])
      as [_ [H _]].
    refine (eq_trans (H _) _); [vm_compute; lia | reflexivity].
  - destruct (template_exclusivity
                (cronSpec "0 1 * * *" None (jobOnly "nginx")) ["spec"])
      as [_ [_ [H _]]].
    exact (H eq_refl).
Defined.

(** C6, counterexample. For a spec with an empty image list whose
    selector sets both names and labels the validator returns the
    selector error and never reaches the image-list tiers. *)
Lemma empty_images_behind_rejected_selector :
  Images (JobSpec badSelectorJob) = []
  /\ validateImageListPullJobTemplateSpec badSelectorJob ilpPath
     = [Invalid (ilpPath ++ ["spec"; "selector"]) VStruct
          "can not set both names and labelSelector in this spec.selector"]
  /\ validateImageListPullJobTemplateSpec badSelectorJob ilpPath
     <> [emptyImagesError ilpPath []].
Proof. repeat split; try reflexivity. discriminate. Qed.

Lemma image_list_tiers_witness :
  validateImageListPullJobTemplateSpec emptyNeverJob ilpPath
  = [emptyImagesError ilpPath []]
  /\ validateImageListPullJobTemplateSpec crowdedJob ilpPath
     = [tooManyImagesError ilpPath (repeat "nginx" 256)]
  /\ validateImageListPullJobTemplateSpec duplicateJob ilpPath
     = [duplicateImagesError ilpPath ["nginx"; "nginx"; "not an image"]]
  /\ validateImageListPullJobTemplateSpec unnormalizableJob ilpPath
     = [invalidImageError ilpPath ["nginx"; "not an image"; ""]
          "not an image" "invalid reference format"]
  /\ errorsAt (imagesPath ilpPath)
       (validateImageListPullJobTemplateSpec goodJob ilpPath) = [].
Proof.
  split; [|split; [|split; [|split]]].
  - destruct (image_list_tiers emptyNeverJob ilpPath) as [_ [_ H]].
    destruct (H (conj I I)) as [Hempty _]. exact (Hempty eq_refl).
  - destruct (image_list_tiers crowdedJob ilpPath) as [_ [_ H]].
    destruct (H (conj I I)) as [_ [Hmany _]]. apply Hmany.
    vm_compute. lia.
  - destruct (image_list_tiers duplicateJob ilpPath) as [_ [_ H]].
    destruct (H (conj I I)) as [_ [_ [Hdup _]]]. apply Hdup.
    + simpl. lia.
    + intros Hnd. inversion Hnd as [|x l Hin _]. apply Hin. now left.
  - destruct (image_list_tiers unnormalizableJob ilpPath) as [_ [_ H]].
    destruct (H (conj I I)) as [_ [_ [_ Hbad]]].
    apply (Hbad ltac:(simpl; lia)
             ltac:(repeat constructor; simpl; intuition discriminate)
             ["nginx"] "not an image" [""] "invalid reference format" eq_refl).
    + intros x [<- | []]. reflexivity.
    + reflexivity.
  - destruct (image_list_tiers goodJob ilpPath) as [_ [H _]]. apply H.
    split; [simpl; lia|]. split.
    + repeat constructor; simpl; intuition discriminate.
    + intros image [<- | [<- | []]]; reflexivity.
Defined.

Lemma validateCronSchedule_contains_panics_witness :
  ParseStandard "TZ=UTC" = Panic "runtime error: slice bounds out of range [:-1]"
  /\ validateCronSchedule "TZ=UTC"
     = Normal (Some "invalid cron schedule: runtime error: slice bounds out of range [:-1]")
  /\ (exists errs,
        validateAdvancedCronJobSpecSchedule panickingSpec ["spec"] = Normal errs
        /\ In (Invalid ["spec"; "schedule"] (VStr "TZ=UTC")
                 "invalid cron schedule: runtime error: slice bounds out of range [:-1]")
              errs)
  /\ validateCronSchedule "0 1 * * *" = Normal None.
Proof.
  split; [reflexivity|].
  destruct (validateCronSchedule_contains_panics "TZ=UTC") as [_ [Hpanic _]].
  destruct (Hpanic _ eq_refl) as [Herr Hreport].
  split; [exact Herr|]. split.
  - exact (Hreport panickingSpec ["spec"] eq_refl).
  - destruct (validateCronSchedule_contains_panics "0 1 * * *") as [_ [_ Hret]].
    exact (Hret None eq_refl).
Defined.

(** C8, counterexample. For a spec whose completion-policy type is Never
    and whose image list is empty the validator returns the image-list
    error and no invalid-type error. *)
Lemma never_policy_behind_empty_images :
  PolicyType (CompletionPolicy_ (JobSpec emptyNeverJob)) <> Always
  /\ validateImageListPullJobTemplateSpec emptyNeverJob ilpPath
     = [emptyImagesError ilpPath []]
  /\ errorsAt (policyTypePath ilpPath)
       (validateImageListPullJobTemplateSpec emptyNeverJob ilpPath) = [].
Proof. repeat split; try reflexivity. discriminate. Qed.

Lemma completion_policy_checks_witness :
  validateImageListPullJobTemplateSpec neverJob ilpPath
  = [invalidTypeError ilpPath "Never"]
  /\ validateImageListPullJobTemplateSpec longDeadlineJob ilpPath
     = [deadlineBoundError ilpPath 90000]
  /\ validateImageListPullJobTemplateSpec longTtlJob ilpPath <> []
  /\ ~ In (deadlineBoundError ilpPath 3600)
         (validateImageListPullJobTemplateSpec goodJob ilpPath)
  /\ ~ In (ttlBoundError ilpPath 7200)
         (validateImageListPullJobTemplateSpec goodJob ilpPath).
Proof.
  assert (Himages : forall policy,
    imagesAccepted (JobSpec (pullJob ["nginx"] (Some 600) policy))).
  { intros policy. split; [simpl; lia|]. split.
    - repeat constructor. intros [].
    - intros image [<- | []]. reflexivity. }
  split; [|split; [|split; [|split]]].
  - destruct (completion_policy_checks neverJob ilpPath) as [H _].
    destruct (H (conj I I) (Himages _)) as [Hty _].
    apply Hty. discriminate.
  - destruct (completion_policy_checks longDeadlineJob ilpPath) as [H _].
    destruct (H (conj I I) (Himages _)) as [_ Hbound].
    apply (Hbound 90000 eq_refl eq_refl). lia.
  - destruct (completion_policy_checks longTtlJob ilpPath) as [_ [H _]].
    destruct (H eq_refl) as [_ Httl].
    apply (Httl 300000 eq_refl). lia.
  - destruct (completion_policy_checks goodJob ilpPath) as [_ [_ [H _]]].
    apply H. right. exists 3600. split; [reflexivity | lia].
  - destruct (completion_policy_checks goodJob ilpPath) as [_ [_ [_ H]]].
    apply H. right. exists 7200. split; [reflexivity | lia].
Defined.

Lemma formatSchedule_cases_witness :
  formatSchedule tzInScheduleJob = "CRON_TZ=Asia/Shanghai 0 1 * * *"%string
  /\ formatSchedule oldJob = "0 1 * * *"%string
  /\ formatSchedule tzFieldJob = "TZ=Asia/Shanghai 0 1 * * *"%string
  /\ formatSchedule unknownZoneJob = "0 1 * * *"%string.
Proof.
  assert (Hno : ~ hasSubstring "0 1 * * *" "TZ").
  { apply Contains_false. reflexivity. }
  split; [|split; [|split]].
  - destruct (formatSchedule_cases tzInScheduleJob) as [H _].
    apply H. exists "CRON_"%string, "=Asia/Shanghai 0 1 * * *"%string.
    reflexivity.
  - destruct (formatSchedule_cases oldJob) as [_ [H _]]. exact (H eq_refl).
  - destruct (formatSchedule_cases tzFieldJob) as [_ [_ H]].
    destruct (H "Asia/Shanghai"%string Hno eq_refl) as [Hload _].
    exact (Hload eq_refl).
  - destruct (formatSchedule_cases unknownZoneJob) as [_ [_ H]].
    destruct (H "Mars/Olympus"%string Hno eq_refl) as [_ Hfail].
    apply Hfail. vm_compute. discriminate.
Defined.

Lemma unknown_version_is_not_decoded_witness :
  decodeAdvancedCronJob createV2 zeroAdvancedCronJob = (zeroAdvancedCronJob, None)
  /\ decodeAdvancedCronJobFromRaw "0 1 * * *" "v2" zeroAdvancedCronJob
     = (zeroAdvancedCronJob, Some "unsupported version: v2")
  /\ (exists errs,
        validateAdvancedCronJob zeroAdvancedCronJob = Normal errs
        /\ Handle createV2 = Normal (Errored StatusUnprocessableEntity (Aggregate errs)))
  /\ Handle updateV2
     = Normal (Errored StatusBadRequest (PlainError "unsupported version: v2")).
Proof.
  assert (Hbeta : ResourceVersion createV2 <> v1beta1_Version) by discriminate.
  assert (Halpha : ResourceVersion createV2 <> v1alpha1_Version) by discriminate.
  destruct (unknown_version_is_not_decoded createV2 zeroAdvancedCronJob Hbeta Halpha)
    as [Hdecode [Hraw [Hcreate _]]].
  destruct (unknown_version_is_not_decoded updateV2 zeroAdvancedCronJob Hbeta Halpha)
    as [_ [_ [_ Hupdate]]].
  split; [exact Hdecode|]. split; [exact (Hraw "0 1 * * *")|]. split.
  - destruct (Hcreate eq_refl) as [errs [Herrs Hhandle]].
    exists errs. split; [exact Herrs|].
    vm_compute in Herrs. injection Herrs as <-. exact Hhandle.
  - exact (Hupdate eq_refl).
Defined.

(** ** Further runs *)

Lemma FindTemplateKind_names_populated_witness :
  FindTemplateKind tzFieldSpec = JobTemplateKind
  /\ FindTemplateKind noTemplateSpec = BroadcastJobTemplateKind
  /\ FindTemplateKind pullOnlySpec = ImageListPullJobTemplateKind.
Proof.
  split; [|split].
  - destruct (FindTemplateKind_names_populated tzFieldSpec) as [H _].
    apply H. discriminate.
  - destruct (FindTemplateKind_names_populated noTemplateSpec) as [_ [H _]].
    apply H. reflexivity.
  - destruct (FindTemplateKind_names_populated pullOnlySpec) as [_ [_ H]].
    destruct (H eq_refl) as [_ [[Hpull _] _]].
    apply Hpull. discriminate.
Defined.

Lemma validateAdvancedCronJobName_accepts_witness :
  validateAdvancedCronJobName "nightly-1" false = []
  /\ In (MaxLenError 63) (validateAdvancedCronJobName longName false).
Proof.
  split.
  - destruct (validateAdvancedCronJobName_accepts "nightly-1" false)
      as [[_ H] _].
    apply H. split; [discriminate|]. split.
    + repeat constructor.
    + simpl. lia.
  - destruct (validateAdvancedCronJobName_accepts longName false)
      as [_ [_ [_ H]]].
    apply H. simpl. lia.
Defined.

Lemma validateTimeZone_accepts_witness :
  validateTimeZone (Some "Asia/Shanghai") ["spec"; "timeZone"] = []
  /\ validateTimeZone (Some "") ["spec"; "timeZone"]
     = [emptyTimeZoneError ["spec"; "timeZone"]].
Proof.
  split.
  - destruct (validateTimeZone_accepts (Some "Asia/Shanghai"%string)
                ["spec"; "timeZone"]) as [[_ H] _].
    apply H. right. exists "Asia/Shanghai"%string.
    split; [reflexivity|]. split; [discriminate|].
    split; [vm_compute; discriminate | reflexivity].
  - destruct (validateTimeZone_accepts (Some ""%string) ["spec"; "timeZone"])
      as [_ [H _]].
    apply H. reflexivity.
Defined.

Lemma validateAdvancedCronJobSpecSchedule_accepts_witness :
  validateAdvancedCronJobSpecSchedule tzFieldSpec ["spec"] = Normal []
  /\ exists rest,
       validateAdvancedCronJobSpecSchedule emptyScheduleSpec ["spec"]
       = Normal (emptyScheduleError ["spec"] :: rest).
Proof.
  split.
  - destruct (validateAdvancedCronJobSpecSchedule_accepts tzFieldSpec ["spec"])
      as [[_ H] _].
    apply H. split; [discriminate|]. split; [reflexivity|].
    intros [Hsub _]. apply Contains_spec in Hsub. discriminate Hsub.
  - destruct (validateAdvancedCronJobSpecSchedule_accepts emptyScheduleSpec
                ["spec"]) as [_ H].
    apply H. reflexivity.
Defined.

Lemma formatSchedule_of_validated_witness :
  formatSchedule tzFieldJob = "TZ=Asia/Shanghai 0 1 * * *"%string.
Proof.
  exact (formatSchedule_of_validated tzFieldJob (p := ["spec"])
           ["spec"; "timeZone"] eq_refl eq_refl).
Defined.

Lemma goodJob_accepted :
  selectorsAccepted (JobSpec goodJob) /\ imagesAccepted (JobSpec goodJob)
  /\ policyAccepted (JobSpec goodJob).
Proof.
  split; [split; exact I|]. split.
  - split; [simpl; lia|]. split.
    + repeat constructor; simpl; intuition discriminate.
    + intros image [<- | [<- | []]]; reflexivity.
  - split; [reflexivity|]. split.
    + intros d [= <-]. split; [lia|]. intros tm [= <-]. lia.
    + intros ttl [= <-]. lia.
Qed.

Lemma validateImageListPullJobTemplateSpec_accepts_witness :
  validateImageListPullJobTemplateSpec goodJob ilpPath = [].
Proof.
  destruct (validateImageListPullJobTemplateSpec_accepts goodJob ilpPath)
    as [[_ H] _].
  exact (H goodJob_accepted).
Defined.

Lemma selector_checks_witness :
  validateImageListPullJobTemplateSpec repeatedNamesJob ilpPath
  = [Invalid (ilpPath ++ ["spec"; "selector"; "names"])
       (VStrs ["node-1"; "node-2"; "node-1"])
       "duplicated name in selector names"]
  /\ validateImageListPullJobTemplateSpec twoSelectorsJob ilpPath <> []
  /\ errorsAt (ilpPath ++ ["spec"; "selector"; "names"])
       (validateImageListPullJobTemplateSpec longDeadlineJob ilpPath) = [].
Proof.
  split; [|split].
  - destruct (selector_checks repeatedNamesJob ilpPath) as [_ [_ [_ [H _]]]].
    apply (H _ _ eq_refl eq_refl eq_refl eq_refl).
    intros Hnodup. inversion Hnodup as [|? ? Hnotin _]. apply Hnotin.
    right. left. reflexivity.
  - destruct (selector_checks twoSelectorsJob ilpPath) as [_ [_ [_ [_ H]]]].
    apply H; discriminate.
  - destruct (selector_checks longDeadlineJob ilpPath) as [H _].
    apply H; [split; exact I|]. right. right. left. reflexivity.
Defined.

Lemma validateAdvancedCronJobSpec_accumulates_witness :
  validateAdvancedCronJobSpec pullOnlySpec ["spec"] = Normal []
  /\ validateAdvancedCronJobSpec emptyScheduleSpec ["spec"] <> Normal [].
Proof.
  split.
  - destruct (validateAdvancedCronJobSpec_accumulates pullOnlySpec ["spec"])
      as [scheduleErrs [Hs [_ [_ H]]]].
    vm_compute in Hs. injection Hs as <-.
    apply H. repeat split; reflexivity.
  - destruct (validateAdvancedCronJobSpec_accumulates emptyScheduleSpec ["spec"])
      as [scheduleErrs [Hs [_ [H _]]]].
    vm_compute in Hs. injection Hs as <-.
    intros Hnil. destruct (H Hnil) as [E _]. discriminate E.
Defined.

Lemma concurrencyPolicy_check_witness :
  validateAdvancedCronJobSpecTemplate pullOnlySpec ["spec"] = []
  /\ validateAdvancedCronJobSpecTemplate allowPullSpec ["spec"]
     = [concurrencyPolicyError ["spec"] "Allow"]
  /\ validateAdvancedCronJobSpecTemplate
       (setConcurrencyPolicy "Allow" tzFieldSpec) ["spec"]
     = validateAdvancedCronJobSpecTemplate tzFieldSpec ["spec"].
Proof.
  split; [|split].
  - destruct (concurrencyPolicy_check pullOnlySpec ["spec"]) as [H _].
    destruct (H goodJob eq_refl eq_refl eq_refl) as [Hok _].
    exact (Hok (or_intror eq_refl)).
  - destruct (concurrencyPolicy_check allowPullSpec ["spec"]) as [H _].
    destruct (H goodJob eq_refl eq_refl eq_refl) as [_ Hbad].
    apply Hbad; discriminate.
  - destruct (concurrencyPolicy_check tzFieldSpec ["spec"]) as [_ H].
    exact (H eq_refl "Allow"%string).
Defined.

Lemma pull_job_spec_accepted_witness :
  validateAdvancedCronJobSpec pullOnlySpec ["spec"] = Normal []
  /\ validateAdvancedCronJobSpec allowPullSpec ["spec"] <> Normal [].
Proof.
  split.
  - apply (pull_job_spec_accepted pullOnlySpec ["spec"] (t := goodJob)
             eq_refl eq_refl eq_refl).
    split; [|split; [|split; [|split]]].
    + split; [discriminate|]. split; [reflexivity|].
      intros [Hsub _]. apply Contains_spec in Hsub. discriminate Hsub.
    + right. reflexivity.
    + exact goodJob_accepted.
    + reflexivity.
    + right. exists "Asia/Shanghai"%string.
      split; [reflexivity|]. split; [discriminate|].
      split; [vm_compute; discriminate | reflexivity].
  - intros Hnil.
    apply (pull_job_spec_accepted allowPullSpec ["spec"] (t := goodJob)
             eq_refl eq_refl eq_refl) in Hnil.
    destruct Hnil as [_ [[E | E] _]]; discriminate E.
Defined.

Lemma update_ignores_old_mutable_fields_witness :
  validateAdvancedCronJobUpdate pausedJob rescheduledOldJob
  = validateAdvancedCronJobUpdate pausedJob oldJob.
Proof.
  exact (update_ignores_old_mutable_fields pausedJob rescheduledOldJob oldJob
           eq_refl eq_refl).
Defined.

Lemma guard_pull_template_one_way_witness :
  validateAdvancedCronJobUpdate droppedPullJob oldPullJob
  = Normal [Forbidden ["spec"; "template"] mustHaveOneMsg]
  /\ validateAdvancedCronJobUpdate addedPullJob oldJob
     = Normal [Forbidden ["spec"; "template"] onlyOneMsg; forbiddenFieldsError].
Proof.
  split.
  - destruct (guard_pull_template_one_way (C := collaborators)
                droppedPullJob oldPullJob
                podTemplateEqb_refl podTemplateEqb_refl sample_ilp_refl)
      as [specErrs [Hs [Hkeep _]]].
    vm_compute in Hs. injection Hs as <-.
    exact (Hkeep goodJob None eq_refl eq_refl).
  - destruct (guard_pull_template_one_way (C := collaborators)
                addedPullJob oldJob
                podTemplateEqb_refl podTemplateEqb_refl sample_ilp_refl)
      as [specErrs [Hs [_ Hadd]]].
    vm_compute in Hs. injection Hs as <-.
    exact (Hadd goodJob eq_refl eq_refl).
Defined.

Lemma Handle_decoding_and_other_operations_witness :
  Handle (h := jobDecoder) deleteEmptyV1
  = Normal (Errored StatusBadRequest (PlainError "there is no content to decode"))
  /\ Handle (h := jobDecoder) deleteV1 = Normal (ValidationResponse true "").
Proof.
  split.
  - destruct (Handle_decoding_and_other_operations (h := jobDecoder)
                deleteEmptyV1) as [H _].
    exact (H _ _ eq_refl).
  - destruct (Handle_decoding_and_other_operations (h := jobDecoder) deleteV1)
      as [_ H].
    apply (H _ eq_refl); discriminate.
Defined.

Lemma Handle_create_witness :
  Handle (h := jobDecoder) createV1 = Normal (ValidationResponse true "")
  /\ Handle (h := jobDecoder) createBadV1
     = Normal (Errored StatusUnprocessableEntity
                 (Aggregate [Invalid ["spec"; "schedule"] (VStr "every day")
                               "expected exactly 5 fields"])).
Proof.
  split.
  - destruct (Handle_create (h := jobDecoder) createV1 eq_refl eq_refl)
      as [specErrs [Hs [H _]]].
    vm_compute in Hs. injection Hs as <-.
    apply H. reflexivity.
  - destruct (Handle_create (h := jobDecoder) createBadV1 eq_refl eq_refl)
      as [specErrs [Hs [_ H]]].
    vm_compute in Hs. injection Hs as <-.
    apply H. discriminate.
Defined.

Lemma Handle_update_witness :
  Handle (h := jobDecoder) updateV1 = Normal (ValidationResponse true "")
  /\ Handle (h := jobDecoder) updateNoOldV1
     = Normal (Errored StatusBadRequest
                 (PlainError "there is no content to decode")).
Proof.
  split.
  - destruct (Handle_update (h := jobDecoder) updateV1 sample_ilp_refl
                eq_refl eq_refl) as [_ H].
    apply (H _ eq_refl).
    split; [reflexivity|]. split; [reflexivity|].
    split; [reflexivity|]. split; [reflexivity|]. reflexivity.
  - destruct (Handle_update (h := jobDecoder) updateNoOldV1 sample_ilp_refl
                eq_refl eq_refl) as [H _].
    exact (H _ _ eq_refl).
Defined.

Lemma decode_paths_agree_witness :
  decodeAdvancedCronJob (h := jobDecoder) createAlphaV1 zeroAdvancedCronJob
  = decodeAdvancedCronJobFromRaw (h := jobDecoder) "0 1 * * *" "v1alpha1"
      zeroAdvancedCronJob
  /\ fst (decodeAdvancedCronJob (h := jobDecoder) createV2 oldJob) = oldJob.
Proof.
  split.
  - destruct (decode_paths_agree (h := jobDecoder) createAlphaV1
                zeroAdvancedCronJob (fun _ => eq_refl) (fun _ => eq_refl))
      as [H _].
    apply H. right. reflexivity.
  - destruct (decode_paths_agree (h := jobDecoder) createV2 oldJob
                (fun _ => eq_refl) (fun _ => eq_refl)) as [_ H].
    rewrite H. reflexivity.
Defined.
